(** * LocalLifeAssistant: the multi-tier event cache and the chat orchestration

    A shallow embedding of [backend/app/services/cache.py],
    [backend/app/cache_manager.py] and [backend/app/services/chat.py],
    with the properties of the specification stated over it.
    The embedding goes on to the statistics of the store, the rest of the
    cache manager, [backend/app/services/events/aggregator.py],
    [backend/app/event_service.py] and the streaming handler of
    [backend/app/api/routers/chat.py], with properties read off the code.

    Conventions of the embedding.
    - Python [str] is Rocq [string]: a sequence of bytes.  [lower] and
      [title] act on the ASCII letters and leave every other byte alone.
    - Decoded JSON and Firestore values are the inductive type [json].
    - A raised exception is the [Raise] case of [res]; [try_except] is the
      [try: ... except Exception: ...] block.
    - [datetime] is the naive datetime that [datetime.now()] produces, a
      record of its calendar fields; [timedelta] is a number of microseconds.
    - One run of a cache operation or of a chat turn reads the clock once:
      the instant [now] is an argument. *)

From Stdlib Require Import ZArith Lia Ascii String DecimalString QArith_base.
From stdpp Require Import base option list strings gmap fin_maps.

Local Open Scope Z_scope.

(** ** Exceptions *)

Inductive exn : Type :=
  | OSError
  | JSONDecodeError
  | ValueError
  | TypeError
  | AttributeError
  | FirestoreError.

Inductive res (A : Type) : Type :=
  | Ok (a : A)
  | Raise (e : exn).
Arguments Ok {A} a.
Arguments Raise {A} e.

#[global] Instance res_ret : MRet res := fun _ a => Ok a.
#[global] Instance res_bind : MBind res := fun _ _ f m =>
  match m with
  | Ok a => f a
  | Raise e => Raise e
  end.

(** [try: body / except Exception as exc: handler exc] *)
Definition try_except {A} (body : res A) (handler : exn -> res A) : res A :=
  match body with
  | Ok a => Ok a
  | Raise e => handler e
  end.

Definition raises {A} (r : res A) : bool :=
  match r with
  | Ok _ => false
  | Raise _ => true
  end.

(** ** Python strings *)

Module Str.

Definition is_upper (c : ascii) : bool :=
  let n := N_of_ascii c in ((65 <=? n) && (n <=? 90))%N.

Definition is_lower (c : ascii) : bool :=
  let n := N_of_ascii c in ((97 <=? n) && (n <=? 122))%N.

Definition lower_char (c : ascii) : ascii :=
  if is_upper c then ascii_of_N (N_of_ascii c + 32) else c.

Definition upper_char (c : ascii) : ascii :=
  if is_lower c then ascii_of_N (N_of_ascii c - 32) else c.

(** [s.lower()] *)
Fixpoint lower (s : string) : string :=
  match s with
  | EmptyString => EmptyString
  | String c r => String (lower_char c) (lower r)
  end.

(** [s.title()]: the first cased character of a run of cased characters is
    upper-cased, the others are lower-cased. *)
Fixpoint title_from (previous_is_cased : bool) (s : string) : string :=
  match s with
  | EmptyString => EmptyString
  | String c r =>
      if is_upper c || is_lower c then
        String (if previous_is_cased then lower_char c else upper_char c)
               (title_from true r)
      else String c (title_from false r)
  end.

Definition title (s : string) : string := title_from false s.

(** [s.replace(old, new)] for a one-character [old] and [new]. *)
Fixpoint replace (old new : ascii) (s : string) : string :=
  match s with
  | EmptyString => EmptyString
  | String c r => String (if Ascii.eqb c old then new else c) (replace old new r)
  end.

(** [s.startswith(p)] *)
Definition startswith (s p : string) : bool := String.prefix p s.

(** [bool(s)] *)
Definition nonempty (s : string) : bool :=
  match s with
  | EmptyString => false
  | String _ _ => true
  end.

(** [needle in s] *)
Definition contains (s needle : string) : Prop :=
  exists before after, s = before +:+ needle +:+ after.

(** [str(n)] and [f"{n}"] for an int *)
Definition of_int (n : Z) : string := NilZero.string_of_int (Z.to_int n).

(** [f"{n:0{w}d}"] for [0 <= n < 10^w], written in front of [acc] *)
Definition digit_char (d : Z) : ascii := ascii_of_N (48 + Z.to_N d).

Fixpoint zfill_acc (w : nat) (n : Z) (acc : string) : string :=
  match w with
  | O => acc
  | S w' => zfill_acc w' (n / 10) (String (digit_char (n mod 10)) acc)
  end.

Definition digit_val (c : ascii) : option Z :=
  let n := N_of_ascii c in
  if ((48 <=? n) && (n <=? 57))%N then Some (Z.of_N n - 48) else None.

(** Read exactly [w] decimal digits from the front of [s]. *)
Fixpoint read_digits (w : nat) (s : string) (acc : Z) : option (Z * string) :=
  match w with
  | O => Some (acc, s)
  | S w' =>
      match s with
      | EmptyString => None
      | String c r =>
          match digit_val c with
          | Some d => read_digits w' r (acc * 10 + d)
          | None => None
          end
      end
  end.

Definition expect (c : ascii) (s : string) : option string :=
  match s with
  | EmptyString => None
  | String c' r => if Ascii.eqb c' c then Some r else None
  end.

End Str.

(** ** Naive datetimes and their ISO-8601 text *)

Record datetime : Type := mk_datetime {
  year : Z;
  month : Z;
  day : Z;
  hour : Z;
  minute : Z;
  second : Z;
  microsecond : Z;
}.

(** A [timedelta], in microseconds. *)
Abbreviation timedelta := Z (only parsing).

Module DT.

Definition is_leap (y : Z) : bool :=
  (y mod 4 =? 0) && (negb (y mod 100 =? 0) || (y mod 400 =? 0)).

Definition days_in_month (y m : Z) : Z :=
  if m =? 2 then (if is_leap y then 29 else 28)
  else if (m =? 4) || (m =? 6) || (m =? 9) || (m =? 11) then 30
  else 31.

Definition days_before_year (y : Z) : Z :=
  let p := y - 1 in p * 365 + p / 4 - p / 100 + p / 400.

Definition days_before_month (y m : Z) : Z :=
  let cumulative :=
    nth (Z.to_nat m) [0; 0; 31; 59; 90; 120; 151; 181; 212; 243; 273; 304; 334] 0 in
  cumulative + (if (2 <? m) && is_leap y then 1 else 0).

(** [d.toordinal()] *)
Definition toordinal (d : datetime) : Z :=
  days_before_year (year d) + days_before_month (year d) (month d) + day d.

(** Microseconds since the start of day 0 of the proleptic calendar. *)
Definition to_micros (d : datetime) : Z :=
  ((toordinal d * 86400) + hour d * 3600 + minute d * 60 + second d) * 1000000
  + microsecond d.

(** [a - b] *)
Definition sub (a b : datetime) : timedelta := to_micros a - to_micros b.

(** The field ranges the [datetime] constructor enforces. *)
Definition valid (d : datetime) : bool :=
  (1 <=? year d) && (year d <=? 9999) &&
  (1 <=? month d) && (month d <=? 12) &&
  (1 <=? day d) && (day d <=? days_in_month (year d) (month d)) &&
  (0 <=? hour d) && (hour d <=? 23) &&
  (0 <=? minute d) && (minute d <=? 59) &&
  (0 <=? second d) && (second d <=? 59) &&
  (0 <=? microsecond d) && (microsecond d <=? 999999).

(** [d.isoformat()]: [YYYY-MM-DDTHH:MM:SS], followed by [.ffffff] when the
    microsecond field is not zero. *)
Definition isoformat (d : datetime) : string :=
  Str.zfill_acc 4 (year d) (String "-"
  (Str.zfill_acc 2 (month d) (String "-"
  (Str.zfill_acc 2 (day d) (String "T"
  (Str.zfill_acc 2 (hour d) (String ":"
  (Str.zfill_acc 2 (minute d) (String ":"
  (Str.zfill_acc 2 (second d)
     (if microsecond d =? 0 then EmptyString
      else String "." (Str.zfill_acc 6 (microsecond d) EmptyString)))))))))))).

(** A parser for the two shapes [isoformat] writes; every other text is
    refused.  It is the instance of [fromisoformat] the examples run on. *)
Definition parse_iso (s : string) : option datetime :=
  '(y, s) ← Str.read_digits 4 s 0;
  s ← Str.expect "-" s;
  '(mo, s) ← Str.read_digits 2 s 0;
  s ← Str.expect "-" s;
  '(d, s) ← Str.read_digits 2 s 0;
  s ← Str.expect "T" s;
  '(h, s) ← Str.read_digits 2 s 0;
  s ← Str.expect ":" s;
  '(mi, s) ← Str.read_digits 2 s 0;
  s ← Str.expect ":" s;
  '(sec, s) ← Str.read_digits 2 s 0;
  '(us, s) ← match s with
             | EmptyString => Some (0, s)
             | String c r =>
                 if Ascii.eqb c "." then Str.read_digits 6 r 0 else None
             end;
  match s with
  | EmptyString =>
      let r := mk_datetime y mo d h mi sec us in
      if valid r then Some r else None
  | String _ _ => None
  end.

End DT.


(** ** Decoded JSON values

    What [json.load] and a Firestore document snapshot hand to the program,
    and what the conversation store keeps for a message. *)

#[local] Unset Elimination Schemes.
Inductive json : Type :=
  | JNull
  | JBool (b : bool)
  | JInt (n : Z)
  | JFloat (q : Q)
  | JStr (s : string)
  | JArr (xs : list json)
  | JObj (kvs : list (string * json)).
#[local] Set Elimination Schemes.

(** A Python [dict] with string keys, in insertion order. *)
Abbreviation pydict := (list (string * json)) (only parsing).

Module Py.

(** [bool(v)] *)
Definition truthy (v : json) : bool :=
  match v with
  | JNull => false
  | JBool b => b
  | JInt n => negb (n =? 0)
  | JFloat q => negb (Qnum q =? 0)
  | JStr s => Str.nonempty s
  | JArr xs => match xs with [] => false | _ :: _ => true end
  | JObj kvs => match kvs with [] => false | _ :: _ => true end
  end.

Fixpoint lookup (d : pydict) (k : string) : option json :=
  match d with
  | [] => None
  | (k', v) :: rest => if String.eqb k' k then Some v else lookup rest k
  end.

(** [d.get(k, default)] *)
Definition get_default (d : pydict) (k : string) (default : json) : json :=
  match lookup d k with
  | Some v => v
  | None => default
  end.

(** [d.get(k)] *)
Definition get (d : pydict) (k : string) : json := get_default d k JNull.

(** [v.get]: only a dict has the method. *)
Definition as_dict (v : json) : res pydict :=
  match v with
  | JObj kvs => Ok kvs
  | _ => Raise AttributeError
  end.

(** [isinstance(v, dict)] *)
Definition is_dict (v : json) : bool :=
  match v with
  | JObj _ => true
  | _ => false
  end.

(** The built-in conversions the program applies to decoded values, and
    [datetime.fromisoformat].  Their behaviour on the values the program
    itself writes is fixed by [Laws]; on other values it is whatever the
    Python runtime does. *)
Class Builtins : Type := {
  (** [str(v)] *)
  str : json -> string;
  (** [list(v)] *)
  list_of : json -> res (list json);
  (** [dict(v)] *)
  dict_of : json -> res pydict;
  (** [datetime.fromisoformat(s)] *)
  fromisoformat : string -> res datetime;
}.

Record Laws (B : Builtins) : Prop := {
  str_of_str : forall s, str (JStr s) = s;
  list_of_list : forall xs, list_of (JArr xs) = Ok xs;
  dict_of_dict : forall kvs, dict_of (JObj kvs) = Ok kvs;
  fromisoformat_isoformat :
    forall d, DT.valid d = true -> fromisoformat (DT.isoformat d) = Ok d;
}.

(** The instance the examples run on: [str] of [None] is ["None"], of an
    int its decimal text; [list] and [dict] copy a list and a dict and
    refuse the rest; [fromisoformat] is [DT.parse_iso]. *)
Definition model_builtins : Builtins := {|
  str v :=
    match v with
    | JStr s => s
    | JNull => "None"
    | JBool true => "True"
    | JBool false => "False"
    | JInt n => Str.of_int n
    | _ => "?"
    end;
  list_of v :=
    match v with
    | JArr xs => Ok xs
    | _ => Raise TypeError
    end;
  dict_of v :=
    match v with
    | JObj kvs => Ok kvs
    | _ => Raise TypeError
    end;
  fromisoformat s :=
    match DT.parse_iso s with
    | Some d => Ok d
    | None => Raise ValueError
    end;
|}.

End Py.

(** ** cache.py *)

Module Cache.

Section WithBuiltins.
Context {B : Py.Builtins}.

(** [@dataclass class CacheEntry] *)
Record CacheEntry : Type := mk_entry {
  city : string;
  events : list json;
  cached_at : datetime;
  metadata : pydict;
}.

Definition to_dict (self : CacheEntry) : pydict :=
  [ ("city", JStr (city self));
    ("events", JArr (events self));
    ("cached_at", JStr (DT.isoformat (cached_at self)));
    ("count", JInt (Z.of_nat (length (events self))));
    ("metadata", JObj (metadata self)) ].

Definition from_dict (data : json) : res (option CacheEntry) :=
  try_except
    (d ← Py.as_dict data;
     let cached_at_raw := Py.get d "cached_at" in
     if negb (Py.truthy cached_at_raw) then Ok None
     else
       cached_at ← Py.fromisoformat (Py.str cached_at_raw);
       let city := Py.str (Py.get d "city") in
       events ← Py.list_of (Py.get_default d "events" (JArr []));
       metadata ← Py.dict_of (Py.get_default d "metadata" (JObj []));
       Ok (Some (mk_entry city events cached_at metadata)))
    (fun _ => Ok None).

(** A file of [cache_dir]: its text decodes to a JSON value, or reading or
    decoding it raises. *)
Inductive disk_file : Type :=
  | Unreadable
  | Content (data : json).

(** The cache directory: the files [<key>.json] by key.  On a [read_only]
    directory opening a file for writing and unlinking a file raise
    [OSError]. *)
Record Disk : Type := mk_disk {
  files : gmap string disk_file;
  read_only : bool;
}.

(** The Firestore client: the documents of the [event_cache] collection by
    id.  While [unavailable] every call on the client raises. *)
Record Firestore : Type := mk_firestore {
  event_cache : gmap string (list (string * json));
  unavailable : bool;
}.

(** [class CacheStore] *)
Record CacheStore : Type := mk_store {
  ttl : Z;
  cache_dir : Disk;
  firestore_client : Firestore;
  memory_store : gmap string CacheEntry;
}.

Definition set_memory (self : CacheStore) (m : gmap string CacheEntry) : CacheStore :=
  mk_store (ttl self) (cache_dir self) (firestore_client self) m.

Definition set_files (self : CacheStore) (f : gmap string disk_file) : CacheStore :=
  mk_store (ttl self) (mk_disk f (read_only (cache_dir self)))
           (firestore_client self) (memory_store self).

Definition set_docs (self : CacheStore) (d : gmap string pydict) : CacheStore :=
  mk_store (ttl self) (cache_dir self)
           (mk_firestore d (unavailable (firestore_client self)))
           (memory_store self).

(** *** The file system and the Firestore client *)

(** [path.exists()] *)
Definition path_exists (self : CacheStore) (key : string) : bool :=
  bool_decide (is_Some (files (cache_dir self) !! key)).

(** [with path.open("r") as handle: json.load(handle)] *)
Definition read_json (self : CacheStore) (key : string) : res json :=
  match files (cache_dir self) !! key with
  | None => Raise OSError
  | Some Unreadable => Raise JSONDecodeError
  | Some (Content data) => Ok data
  end.

(** [with path.open("w") as handle: json.dump(data, handle)] *)
Definition write_json (self : CacheStore) (key : string) (data : json) : res CacheStore :=
  if read_only (cache_dir self) then Raise OSError
  else Ok (set_files self (<[key := Content data]> (files (cache_dir self)))).

(** [path.unlink()] *)
Definition unlink (self : CacheStore) (key : string) : res CacheStore :=
  if read_only (cache_dir self) then Raise OSError
  else if path_exists self key
       then Ok (set_files self (delete key (files (cache_dir self))))
       else Raise OSError.

(** [collection("event_cache").document(key).get()]: the document's data,
    or [None] when [doc.exists] is false. *)
Definition document_get (self : CacheStore) (key : string) : res (option pydict) :=
  if unavailable (firestore_client self) then Raise FirestoreError
  else Ok (event_cache (firestore_client self) !! key).

(** [collection("event_cache").document(key).set(data)] *)
Definition document_set (self : CacheStore) (key : string) (data : pydict) : res CacheStore :=
  if unavailable (firestore_client self) then Raise FirestoreError
  else Ok (set_docs self (<[key := data]> (event_cache (firestore_client self)))).

(** [collection("event_cache").document(key).delete()] *)
Definition document_delete (self : CacheStore) (key : string) : res CacheStore :=
  if unavailable (firestore_client self) then Raise FirestoreError
  else Ok (set_docs self (delete key (event_cache (firestore_client self)))).

(** [collection("event_cache").get()] *)
Definition collection_get (self : CacheStore) : res (list (string * pydict)) :=
  if unavailable (firestore_client self) then Raise FirestoreError
  else Ok (map_to_list (event_cache (firestore_client self))).

(** [for x in xs: body], the state threaded through, stopping at a raise *)
Fixpoint for_each {A S : Type} (xs : list A) (body : A -> S -> res S) (s : S) : res S :=
  match xs with
  | [] => Ok s
  | x :: rest => s' ← body x s; for_each rest body s'
  end.

(** *** Internal helpers *)

Definition _key (city : string) : string :=
  Str.replace "/" "_" (Str.replace " " "_" (Str.lower city)).

Definition _is_valid (now : datetime) (self : CacheStore) (entry : CacheEntry) : bool :=
  let age := DT.sub now (cached_at entry) in
  age <? ttl self.

Definition _load_from_disk (self : CacheStore) (key : string) : res (option CacheEntry) :=
  if negb (path_exists self key) then Ok None
  else
    try_except
      (data ← read_json self key; from_dict data)
      (fun _ => Ok None).

Definition _save_to_disk (self : CacheStore) (key : string) (entry : CacheEntry)
  : res CacheStore :=
  try_except
    (write_json self key (JObj (to_dict entry)))
    (fun _ => Ok self).

Definition _load_from_firestore (self : CacheStore) (key : string)
  : res (option CacheEntry) :=
  try_except
    (doc ← document_get self key;
     match doc with
     | None => Ok None
     | Some data => from_dict (JObj data)
     end)
    (fun _ => Ok None).

Definition _save_to_firestore_async (self : CacheStore) (key : string) (entry : CacheEntry)
  : res CacheStore :=
  try_except
    (document_set self key (to_dict entry))
    (fun _ => Ok self).

(** [entry and self._is_valid(entry)] *)
Definition present_and_valid (now : datetime) (self : CacheStore)
    (entry : option CacheEntry) : bool :=
  match entry with
  | Some e => _is_valid now self e
  | None => false
  end.

(** *** Operations *)

Definition load (now : datetime) (self : CacheStore) (city : string)
  : res (option CacheEntry * CacheStore) :=
  let key := _key city in
  let entry := memory_store self !! key in
  if present_and_valid now self entry then Ok (entry, self)
  else
    entry ← _load_from_disk self key;
    if present_and_valid now self entry then
      let self :=
        match entry with
        | Some e => set_memory self (<[key := e]> (memory_store self))
        | None => self
        end in
      Ok (entry, self)
    else
      entry ← _load_from_firestore self key;
      if present_and_valid now self entry then
        match entry with
        | Some e =>
            let self := set_memory self (<[key := e]> (memory_store self)) in
            self ← _save_to_disk self key e;
            Ok (entry, self)
        | None => Ok (entry, self)
        end
      else Ok (None, self).

Definition save (now : datetime) (self : CacheStore) (city : string)
    (events : list json) (metadata : option pydict)
  : res (CacheEntry * CacheStore) :=
  let key := _key city in
  let entry := mk_entry city events now (default [] metadata) in
  let self := set_memory self (<[key := entry]> (memory_store self)) in
  self ← _save_to_disk self key entry;
  self ← _save_to_firestore_async self key entry;
  Ok (entry, self).

Definition invalidate (self : CacheStore) (city : string) : res CacheStore :=
  let key := _key city in
  let self := set_memory self (delete key (memory_store self)) in
  self ← (if path_exists self key then unlink self key else Ok self);
  try_except
    (document_delete self key)
    (fun _ => Ok self).

Definition cleanup (now : datetime) (self : CacheStore) : res CacheStore :=
  let expired_keys :=
    (filter (fun kv => _is_valid now self kv.2 = false)
            (map_to_list (memory_store self))).*1 in
  let self :=
    set_memory self (foldl (fun m key => delete key m) (memory_store self) expired_keys) in
  self ← for_each (map_to_list (files (cache_dir self))).*1
    (fun key self =>
       entry ← _load_from_disk self key;
       if negb (present_and_valid now self entry) then
         try_except
           (unlink self key)
           (fun e => match e with OSError => Ok self | _ => Raise e end)
       else Ok self)
    self;
  try_except
    (docs ← collection_get self;
     for_each docs
       (fun doc self =>
          entry ← from_dict (JObj doc.2);
          if negb (present_and_valid now self entry)
          then document_delete self doc.1
          else Ok self)
       self)
    (fun _ => Ok self).

End WithBuiltins.

End Cache.

(** ** chat.py and cache_manager.py *)

Module Chat.

(** Modelled from the spec: the declaration of [UserPreferences]
    ([extraction_service.py]) is not among the sources; the spec's
    PreferenceSet has the four optional string fields [location], [date],
    [time], [event_type], each a concrete value or the sentinel ["none"]. *)
Module UserPreferences.
Record t : Type := mk {
  location : option string;
  date : option string;
  time : option string;
  event_type : option string;
}.
End UserPreferences.

(** [@dataclass class StoredPreferences] *)
Module StoredPreferences.
Record t : Type := mk {
  location : option string;
  event_type : option string;
  date : option string;
  time : option string;
}.
End StoredPreferences.

(** [class ChatRequest(BaseModel)] of [api/schemas.py] *)
Module ChatRequest.
Record t : Type := mk {
  message : string;
  conversation_history : list json;
  llm_provider : string;
  is_initial_response : bool;
  user_id : string;
  conversation_id : option string;
}.
End ChatRequest.

(** One recommendation of [_format_recommendations]. *)
Record Recommendation : Type := mk_recommendation {
  rec_type : string;
  rec_data : pydict;
  rec_relevance_score : json;
  rec_explanation : string;
}.

(** The message dict handed to [ConversationStorage.save_message]; the keys
    only the assistant turn carries are optional. *)
Module Turn.
Record t : Type := mk {
  role : string;
  content : string;
  timestamp : string;
  extracted_preferences : option UserPreferences.t;
  recommendations : option (list Recommendation);
  cache_used : option bool;
  cache_age_hours : option (option Q);
}.
End Turn.

(** [@dataclass class ChatOutcome] *)
Module ChatOutcome.
Record t : Type := mk {
  message : string;
  recommendations : list Recommendation;
  cache_used : bool;
  cache_age_hours : option Q;
  extracted_preferences : option UserPreferences.t;
  extraction_summary : option string;
  usage_stats : option json;
  trial_exceeded : bool;
  conversation_id : string;
}.
End ChatOutcome.

(** A call the service makes on one of its collaborators, with its
    arguments. *)
Inductive call : Type :=
  | check_trial_limit_call (user_id : string)
  | get_usage_call (user_id : string)
  | increment_usage_call (user_id : string)
  | create_conversation_call (user_id : string) (metadata : pydict)
  | get_conversation_call (user_id conversation_id : string)
  | save_message_call (user_id conversation_id : string) (message : Turn.t)
  | update_metadata_call (user_id conversation_id : string) (metadata : pydict)
  | extract_user_preferences_call (message : string) (history : list (string * string))
  | extract_location_from_query_call (text : string)
  | fetch_events_by_city_call (city : string)
  | intelligent_event_search_call (query : string) (events : list json)
      (user_preferences : UserPreferences.t).

(** What the collaborators answer.  Their sources are not part of the
    repository snapshot: [UsageTracker], [ConversationStorage],
    [ExtractionService], [SearchService], and the providers behind
    [EventCrawler]. *)
Class Services : Type := {
  check_trial_limit : string -> bool;
  trial_limit : Z;
  get_usage : string -> json;
  increment_usage : string -> json;
  create_conversation : string -> pydict -> string;
  get_conversation : string -> string -> res json;
  extract_user_preferences : string -> list (string * string) -> UserPreferences.t;
  extract_location_from_query : string -> option string;
  fetch_events_by_city : string -> res (list json);
  intelligent_event_search : string -> list json -> UserPreferences.t -> list json;
}.

(** [bool(s)] for an [Optional[str]] *)
Definition truthy (s : option string) : bool :=
  match s with
  | Some s => Str.nonempty s
  | None => false
  end.

(** [s and s != "none"] *)
Definition concrete (s : option string) : bool :=
  match s with
  | Some s => Str.nonempty s && negb (String.eqb s "none")
  | None => false
  end.

(** [all([self.location, self.event_type, self.date, self.time])] *)
Definition is_complete (self : StoredPreferences.t) : bool :=
  truthy (StoredPreferences.location self) && truthy (StoredPreferences.event_type self)
  && truthy (StoredPreferences.date self) && truthy (StoredPreferences.time self).

(** [l[-n:]] for [n > 0] *)
Definition last_n {A} (n : nat) (l : list A) : list A := drop (length l - n) l.

(** [class ConversationHistory]: the messages as (role, content) pairs. *)
Record ConversationHistory : Type := mk_history {
  _window : nat;
  messages : list (string * string);
}.

Definition new_history : ConversationHistory := mk_history 10 [].

Definition prepend (self : ConversationHistory) (role content : string)
  : ConversationHistory :=
  let messages := (role, content) :: messages self in
  if (_window self <? length messages)%nat
  then mk_history (_window self) (last_n (_window self) messages)
  else mk_history (_window self) messages.

(** The state the service runs in: the cache store behind the cache manager
    and the calls made so far, oldest first. *)
Record World : Type := mk_world {
  store : Cache.CacheStore;
  calls : list call;
}.

Definition M (A : Type) : Type := World -> res (A * World).

Definition ret {A} (a : A) : M A := fun w => Ok (a, w).

Definition bind {A C} (m : M A) (f : A -> M C) : M C := fun w =>
  match m w with
  | Ok (a, w') => f a w'
  | Raise e => Raise e
  end.

Declare Scope chat_scope.
Delimit Scope chat_scope with chat.
Notation "'do' x <- m ; f" := (bind m (fun x => f))
  (at level 10, x pattern, m at level 100, f at level 200) : chat_scope.
Notation "m ;; f" := (bind m (fun _ => f))
  (at level 100, f at level 200, right associativity) : chat_scope.

Definition record (c : call) : M unit := fun w =>
  Ok (tt, mk_world (store w) (calls w ++ [c])).

Definition lift {A} (r : res A) : M A := fun w =>
  match r with
  | Ok a => Ok (a, w)
  | Raise e => Raise e
  end.

Definition on_store {A} (f : Cache.CacheStore -> res (A * Cache.CacheStore)) : M A :=
  fun w =>
    match f (store w) with
    | Ok (a, s) => Ok (a, mk_world s (calls w))
    | Raise e => Raise e
    end.

Local Open Scope chat_scope.

Section WithServices.
Context {B : Py.Builtins} {S : Services}.

(** *** cache_manager.py *)

Definition get_cached_events (now : datetime) (city : string) : M (option (list json)) :=
  do entry <- on_store (fun s => Cache.load now s city);
  (* [entry and entry.events] *)
  match from_option Cache.events [] entry with
  | (_ :: _) as events => ret (Some events)
  | [] =>
      record (fetch_events_by_city_call city);;
      match fetch_events_by_city city with
      | Ok ((_ :: _) as events) =>
          do _ <- on_store (fun s => Cache.save now s city events None);
          ret (Some events)
      | Ok [] => ret None
      | Raise _ => ret None
      end
  end.

(** The age in hours, [total_seconds() / 3600], as a rational. *)
Definition get_cache_age (now : datetime) (city : string) : M (option Q) :=
  do entry <- on_store (fun s => Cache.load now s city);
  match entry with
  | None => ret None
  | Some e =>
      let age := Qmake (DT.sub now (Cache.cached_at e)) 3600000000 in
      ret (Some (if Qnum age <? 0 then Qmake 0 1 else age))
  end.

(** *** chat.py *)

(** [role in {"user", "assistant"}]: hashing a list or a dict raises. *)
Definition role_in_user_assistant (role : json) : res bool :=
  match role with
  | JArr _ | JObj _ => Raise TypeError
  | JStr s => Ok (String.eqb s "user" || String.eqb s "assistant")
  | _ => Ok false
  end.

(** [if value and value.lower() != "none" and not current: current = value] *)
Definition record_field (value : json) (current : option string) : res (option string) :=
  if Py.truthy value then
    match value with
    | JStr s =>
        Ok (if negb (String.eqb (Str.lower s) "none") && negb (truthy current)
            then Some s else current)
    | _ => Raise AttributeError
    end
  else Ok current.

Inductive control : Type := Next | Stop.

(** The body of the loop of [_lookup_stored_preferences] on one message.
    [stored] and [history] are updated in place, so what was written before
    a raise or a [break] stays. *)
Definition absorb_message (message : json)
    (stored : StoredPreferences.t) (history : ConversationHistory)
  : StoredPreferences.t * ConversationHistory * control :=
  match message with
  | JObj m =>
      let role := Py.get m "role" in
      let content := Py.get m "content" in
      match role_in_user_assistant role with
      | Raise _ => (stored, history, Stop)
      | Ok known_role =>
          let history :=
            match role, content with
            | JStr r, JStr c => if known_role then prepend history r c else history
            | _, _ => history
            end in
          match Py.get m "extracted_preferences" with
          | JObj prefs =>
              let '(StoredPreferences.mk loc ety dat tim) := stored in
              match record_field (Py.get prefs "location") loc with
              | Raise _ => (StoredPreferences.mk loc ety dat tim, history, Stop)
              | Ok loc =>
              match record_field (Py.get prefs "event_type") ety with
              | Raise _ => (StoredPreferences.mk loc ety dat tim, history, Stop)
              | Ok ety =>
              match record_field (Py.get prefs "date") dat with
              | Raise _ => (StoredPreferences.mk loc ety dat tim, history, Stop)
              | Ok dat =>
              match record_field (Py.get prefs "time") tim with
              | Raise _ => (StoredPreferences.mk loc ety dat tim, history, Stop)
              | Ok tim =>
                  let stored := StoredPreferences.mk loc ety dat tim in
                  (stored, history, if is_complete stored then Stop else Next)
              end end end end
          | _ => (stored, history, Next)
          end
      end
  | _ => (stored, history, Next)
  end.

Fixpoint absorb_messages (msgs : list json)
    (stored : StoredPreferences.t) (history : ConversationHistory)
  : StoredPreferences.t * ConversationHistory :=
  match msgs with
  | [] => (stored, history)
  | message :: rest =>
      match absorb_message message stored history with
      | (stored, history, Next) => absorb_messages rest stored history
      | (stored, history, Stop) => (stored, history)
      end
  end.

Definition no_stored : StoredPreferences.t := StoredPreferences.mk None None None None.

(** What [_lookup_stored_preferences] computes from the answer of
    [get_conversation]. *)
Definition stored_of_conversation (conversation : res json)
  : StoredPreferences.t * ConversationHistory :=
  match conversation with
  | Ok (JObj c) =>
      match c with
      | [] => (no_stored, new_history)
      | _ :: _ =>
          match Py.get_default c "messages" (JArr []) with
          | JArr msgs => absorb_messages (rev msgs) no_stored new_history
          | _ => (no_stored, new_history)
          end
      end
  | _ => (no_stored, new_history)
  end.

Definition _lookup_stored_preferences (user_id conversation_id : string)
  : M (StoredPreferences.t * ConversationHistory) :=
  record (get_conversation_call user_id conversation_id);;
  ret (stored_of_conversation (get_conversation user_id conversation_id)).

(** The loop over [request.conversation_history[-6:]]. *)
Fixpoint merge_request_history (msgs : list json)
    (combined_history seen : list (string * string)) : res (list (string * string)) :=
  match msgs with
  | [] => Ok combined_history
  | msg :: rest =>
      match msg with
      | JObj m =>
          let role := Py.get m "role" in
          let content := Py.get m "content" in
          known_role ← role_in_user_assistant role;
          match role, content with
          | JStr r, JStr c =>
              if known_role && negb (bool_decide ((r, c) ∈ seen))
              then merge_request_history rest (combined_history ++ [(r, c)]) ((r, c) :: seen)
              else merge_request_history rest combined_history seen
          | _, _ => merge_request_history rest combined_history seen
          end
      | _ => merge_request_history rest combined_history seen
      end
  end.

(** The history window handed to the extractor. *)
Definition combined_history (request : ChatRequest.t) (history : ConversationHistory)
  : res (list (string * string)) :=
  let combined_history := messages history in
  match ChatRequest.conversation_history request with
  | [] => Ok combined_history
  | _ :: _ =>
      combined_history ←
        merge_request_history (last_n 6 (ChatRequest.conversation_history request))
                              combined_history combined_history;
      Ok (if (6 <? length combined_history)%nat
          then last_n 6 combined_history else combined_history)
  end.

(** [if stored and (not extracted or extracted == "none"): extracted = stored] *)
Definition fill_gap (stored extracted : option string) : option string :=
  if truthy stored && negb (concrete extracted) then stored else extracted.

Definition as_message (m : string * string) : json :=
  JObj [("role", JStr m.1); ("content", JStr m.2)].

Definition history_for_city (request : ChatRequest.t) (history : ConversationHistory)
  : list json :=
  (as_message <$> messages history)
  ++ ChatRequest.conversation_history request
  ++ [as_message ("user", ChatRequest.message request)].

(** The loop over [reversed(history_for_city)]; [msgs] is already reversed. *)
Fixpoint latest_city (msgs : list json) : M (option string) :=
  match msgs with
  | [] => ret None
  | message :: rest =>
      match message with
      | JObj m =>
          match Py.get m "role", Py.get m "content" with
          | JStr role, JStr content =>
              if String.eqb role "user" then
                record (extract_location_from_query_call content);;
                let history_city := extract_location_from_query content in
                if truthy history_city then ret history_city else latest_city rest
              else latest_city rest
          | _, _ => latest_city rest
          end
      | _ => latest_city rest
      end
  end.

Definition _extract_preferences (request : ChatRequest.t)
    (stored_preferences : StoredPreferences.t) (history : ConversationHistory)
  : M UserPreferences.t :=
  do combined_history <- lift (combined_history request history);
  record (extract_user_preferences_call (ChatRequest.message request) combined_history);;
  let prefs := extract_user_preferences (ChatRequest.message request) combined_history in
  let event_type :=
    fill_gap (StoredPreferences.event_type stored_preferences)
             (UserPreferences.event_type prefs) in
  let date :=
    fill_gap (StoredPreferences.date stored_preferences) (UserPreferences.date prefs) in
  let time :=
    fill_gap (StoredPreferences.time stored_preferences) (UserPreferences.time prefs) in
  do latest_city <- latest_city (rev (history_for_city request history));
  let location :=
    if truthy latest_city then latest_city
    else fill_gap (StoredPreferences.location stored_preferences)
                  (UserPreferences.location prefs) in
  ret (UserPreferences.mk location date time event_type).

Definition set_location (prefs : UserPreferences.t) (location : option string)
  : UserPreferences.t :=
  UserPreferences.mk location (UserPreferences.date prefs) (UserPreferences.time prefs)
                     (UserPreferences.event_type prefs).

(** Returns [(city, location_provided)] and the preferences object, whose
    location the second branch overwrites. *)
Definition _determine_city (request : ChatRequest.t)
    (extracted_preferences : UserPreferences.t) (stored_location : option string)
  : M (string * bool * UserPreferences.t) :=
  if concrete (UserPreferences.location extracted_preferences) then
    ret (Str.lower (default "" (UserPreferences.location extracted_preferences)),
         true, extracted_preferences)
  else
    record (extract_location_from_query_call (ChatRequest.message request));;
    let query_city := extract_location_from_query (ChatRequest.message request) in
    if truthy query_city then
      ret (Str.lower (default "" query_city), true,
           set_location extracted_preferences query_city)
    else if truthy stored_location then
      ret (Str.lower (default "" stored_location), true, extracted_preferences)
    else ret ("new york", false, extracted_preferences).

Definition _fetch_events (now : datetime) (city : string)
  : M (list json * bool * option Q) :=
  do cached_events <- get_cached_events now city;
  let events := default [] cached_events in
  do cache_age_hours <-
    match events with
    | _ :: _ => get_cache_age now city
    | [] => ret None
    end;
  let cache_used :=
    match cache_age_hours with
    | Some age => 0 <? Qnum age
    | None => false
    end in
  ret (events, cache_used, cache_age_hours).

Definition _rank_events (request : ChatRequest.t) (events : list json)
    (extracted_preferences : UserPreferences.t) : M (list json) :=
  record (intelligent_event_search_call (ChatRequest.message request) events
                                        extracted_preferences);;
  ret (intelligent_event_search (ChatRequest.message request) events extracted_preferences).

(** [{**d, k: v}] *)
Fixpoint dict_set (d : pydict) (k : string) (v : json) : pydict :=
  match d with
  | [] => [(k, v)]
  | (k', v') :: rest =>
      if String.eqb k' k then (k', v) :: rest else (k', v') :: dict_set rest k v
  end.

Fixpoint _format_recommendations (city : string) (events : list json) (cache_used : bool)
  : res (list Recommendation) :=
  match events with
  | [] => Ok []
  | event :: rest =>
      event ← Py.as_dict event;
      let recommendation :=
        mk_recommendation "event"
          (dict_set event "source" (JStr (if cache_used then "cached" else "realtime")))
          (Py.get_default event "relevance_score" (JFloat (Qmake 1 2)))
          ("Event in " +:+ Str.title city +:+ ": "
           +:+ Py.str (Py.get_default event "title" (JStr "Unknown Event"))) in
      recommendations ← _format_recommendations city rest cache_used;
      Ok (recommendation :: recommendations)
  end.

Definition _compose_response (city : string) (events : list json) (location_provided : bool)
  : string :=
  let location_note :=
    if negb location_provided && String.eqb city "new york"
    then " (I couldn't determine your location, so I'm defaulting to New York)"
    else "" in
  match events with
  | _ :: _ =>
      "🎉 Found " +:+ Str.of_int (Z.of_nat (length events)) +:+ " events in "
      +:+ Str.title city +:+ " that match your search!"
      +:+ location_note +:+ " Check out the recommendations below ↓"
  | [] =>
      "😔 I couldn't find any events in " +:+ Str.title city +:+ " matching your query."
      +:+ location_note
      +:+ " Try asking about 'fashion events', 'music concerts', 'halloween parties', or 'free events'."
  end.

(** [sep.join(parts)] *)
Fixpoint join (sep : string) (parts : list string) : string :=
  match parts with
  | [] => ""
  | [p] => p
  | p :: rest => p +:+ sep +:+ join sep rest
  end.

Definition _build_extraction_summary (extracted_preferences : UserPreferences.t)
  : option string :=
  let part (icon : string) (value : option string) : list string :=
    if concrete value then [icon +:+ " " +:+ default "" value] else [] in
  let summary_parts :=
    part "📍" (UserPreferences.location extracted_preferences)
    ++ part "📅" (UserPreferences.date extracted_preferences)
    ++ part "🕐" (UserPreferences.time extracted_preferences)
    ++ part "🎭" (UserPreferences.event_type extracted_preferences) in
  match summary_parts with
  | [] => None
  | _ :: _ => Some (join " • " summary_parts)
  end.

Definition _record_assistant_response (now : datetime)
    (user_id conversation_id message : string)
    (recommendations : list Recommendation)
    (extracted_preferences : UserPreferences.t)
    (cache_used : bool) (cache_age_hours : option Q) : M unit :=
  record (save_message_call user_id conversation_id
            (Turn.mk "assistant" message (DT.isoformat now)
                     (Some extracted_preferences) (Some recommendations)
                     (Some cache_used) (Some cache_age_hours)));;
  record (update_metadata_call user_id conversation_id
            [("last_message_at", JStr (DT.isoformat now))]).

Definition trial_message : string :=
  "🔒 You've reached your free trial limit of " +:+ Str.of_int trial_limit
  +:+ " interactions! "
  +:+ "Please register to continue using our service and keep your conversation history.".

Definition location_prompt : string :=
  "I'd be happy to help you find events! To give you the best recommendations, "
  +:+ "could you please tell me which city or area you're interested in? "
  +:+ "(e.g., 'New York', 'Los Angeles', 'Chicago', or a zipcode)".

Definition handle_chat (now : datetime) (request : ChatRequest.t) : M ChatOutcome.t :=
  let user_id := ChatRequest.user_id request in
  let anonymous := Str.startswith user_id "user_" in
  do limit_reached <-
    (if anonymous
     then record (check_trial_limit_call user_id);; ret (check_trial_limit user_id)
     else ret false);
  if limit_reached then
    record (get_usage_call user_id);;
    ret (ChatOutcome.mk trial_message [] false None None None
                        (Some (get_usage user_id)) true "temp")
  else
    do usage_stats <-
      (if anonymous
       then record (increment_usage_call user_id);; ret (Some (increment_usage user_id))
       else ret None);
    do conversation_id <-
      (if truthy (ChatRequest.conversation_id request)
       then ret (default "" (ChatRequest.conversation_id request))
       else
         let metadata := [("llm_provider", JStr (ChatRequest.llm_provider request))] in
         record (create_conversation_call user_id metadata);;
         ret (create_conversation user_id metadata));
    do (stored_preferences, history) <- _lookup_stored_preferences user_id conversation_id;
    do extracted_preferences <- _extract_preferences request stored_preferences history;
    record (save_message_call user_id conversation_id
              (Turn.mk "user" (ChatRequest.message request) (DT.isoformat now)
                       (Some extracted_preferences) None None None));;
    do (city, location_provided, extracted_preferences) <-
      _determine_city request extracted_preferences
                      (StoredPreferences.location stored_preferences);
    if ChatRequest.is_initial_response request && negb location_provided then
      ret (ChatOutcome.mk location_prompt [] false None (Some extracted_preferences) None
                          usage_stats false conversation_id)
    else
      do (events, cache_used, cache_age_hours) <- _fetch_events now city;
      do ranked_events <- _rank_events request events extracted_preferences;
      do recommendations <- lift (_format_recommendations city ranked_events cache_used);
      let response_message := _compose_response city ranked_events location_provided in
      let extraction_summary := _build_extraction_summary extracted_preferences in
      _record_assistant_response now user_id conversation_id response_message
        recommendations extracted_preferences cache_used cache_age_hours;;
      ret (ChatOutcome.mk response_message recommendations cache_used cache_age_hours
                          (Some extracted_preferences) extraction_summary
                          usage_stats false conversation_id).

End WithServices.
End Chat.

(** ** Test doubles

    The fakes of [tests/test_chat_service.py] and [tests/test_cache_service.py],
    on which the examples run. *)

Module Fake.

(** [FakeExtractionService(location)], [FakeUsageTracker(limit_reached)],
    [FakeConversationStorage()] holding [stored_messages],
    [FakeSearchService()], and an event crawler that returns
    [crawler_events]. *)
Definition services (location : option string) (limit_reached : bool)
    (stored_messages crawler_events : list json) : Chat.Services := {|
  Chat.check_trial_limit _ := limit_reached;
  Chat.trial_limit := 3;
  Chat.get_usage _ := JObj [("count", JInt 1)];
  Chat.increment_usage _ := JObj [("count", JInt 1)];
  Chat.create_conversation _ _ := "conversation-1";
  Chat.get_conversation _ _ := Ok (JObj [("messages", JArr stored_messages)]);
  Chat.extract_user_preferences _ _ :=
    Chat.UserPreferences.mk
      (Some (if Chat.truthy location then default "" location else "none"))
      (Some "none") (Some "none") (Some "art");
  Chat.extract_location_from_query _ := location;
  Chat.fetch_events_by_city _ := Ok crawler_events;
  Chat.intelligent_event_search _ events _ := events;
|}.

(** [needle in s], as a test *)
Fixpoint occurs (needle s : string) : bool :=
  String.prefix needle s ||
  match s with
  | EmptyString => false
  | String _ r => occurs needle r
  end.

(** Modelled from the spec: [ExtractionService.extract_location_from_query]
    is not among the sources; the spec calls its result a query-derived
    signal, "a preference value detected directly from message text via
    lightweight pattern matching", and its example is the phrase
    "in Chicago".  This detector knows a list of cities and answers the
    first one [c] whose phrase "in c" occurs in the text. *)
Fixpoint detect_in_phrase (cities : list string) (text : string) : option string :=
  match cities with
  | [] => None
  | c :: rest =>
      if occurs ("in " +:+ c) text then Some c else detect_in_phrase rest text
  end.

(** An extraction service whose extractor answers [guess] and whose location
    detector is [detect_in_phrase], over a store holding [stored_messages],
    with a ranker that keeps the events that are dicts. *)
Definition phrase_services (cities : list string) (guess : Chat.UserPreferences.t)
    (stored_messages : list json) : Chat.Services := {|
  Chat.check_trial_limit _ := false;
  Chat.trial_limit := 3;
  Chat.get_usage _ := JObj [("count", JInt 1)];
  Chat.increment_usage _ := JObj [("count", JInt 1)];
  Chat.create_conversation _ _ := "conversation-1";
  Chat.get_conversation _ _ := Ok (JObj [("messages", JArr stored_messages)]);
  Chat.extract_user_preferences _ _ := guess;
  Chat.extract_location_from_query := detect_in_phrase cities;
  Chat.fetch_events_by_city _ := Ok [];
  Chat.intelligent_event_search _ events _ :=
    filter (fun e => Py.is_dict e = true) events;
|}.

(** An empty store with the given ttl over a fresh directory and a fresh
    [FakeFirestore()]. *)
Definition empty_store (ttl : Z) : Cache.CacheStore :=
  Cache.mk_store ttl (Cache.mk_disk ∅ false) (Cache.mk_firestore ∅ false) ∅.

Definition fresh_world (ttl : Z) : Chat.World := Chat.mk_world (empty_store ttl) [].

Definition noon : datetime := mk_datetime 2025 3 9 12 0 0 0.
Definition one_pm : datetime := mk_datetime 2025 3 9 13 0 0 0.

(** [timedelta(hours=h)] *)
Definition hours (h : Z) : Z := h * 3600 * 1000000.

End Fake.

(** ** Vocabulary of the cache properties *)

Module CacheSpec.
Import Cache.

Section WithBuiltins.
Context {B : Py.Builtins}.

(** The entry a decoded record restores to, if any. *)
Definition restore (data : json) : option CacheEntry :=
  match from_dict data with
  | Ok r => r
  | Raise _ => None
  end.

(** What the disk tier and the remote tier answer for a key. *)
Definition disk_entry (self : CacheStore) (key : string) : option CacheEntry :=
  match files (cache_dir self) !! key with
  | Some (Content data) => restore data
  | _ => None
  end.

Definition firestore_entry (self : CacheStore) (key : string) : option CacheEntry :=
  if unavailable (firestore_client self) then None
  else match event_cache (firestore_client self) !! key with
       | Some data => restore (JObj data)
       | None => None
       end.




(** The entry a file of the cache directory restores to, if any. *)
Definition restore_file (f : disk_file) : option CacheEntry :=
  match f with
  | Content data => restore data
  | Unreadable => None
  end.

(** The age of the entry at [now] is below [ttl]. *)
Definition young (now : datetime) (ttl : Z) (e : CacheEntry) : bool :=
  DT.sub now (cached_at e) <? ttl.

(** There is an entry and it is young. *)
Definition fresh (now : datetime) (ttl : Z) (o : option CacheEntry) : bool :=
  match o with
  | Some e => young now ttl e
  | None => false
  end.

(** The store a sweep leaves behind: in memory the valid entries; on a
    writable disk the files that restore to a valid entry; in a reachable
    Firestore the documents that restore to a valid entry. *)
Definition swept (now : datetime) (self : CacheStore) : CacheStore :=
  mk_store (ttl self)
    (mk_disk
       (if read_only (cache_dir self) then files (cache_dir self)
        else filter (fun kv => fresh now (ttl self) (restore_file kv.2) = true)
                    (files (cache_dir self)))
       (read_only (cache_dir self)))
    (mk_firestore
       (if unavailable (firestore_client self) then event_cache (firestore_client self)
        else filter (fun kv => fresh now (ttl self) (restore (JObj kv.2)) = true)
                    (event_cache (firestore_client self)))
       (unavailable (firestore_client self)))
    (filter (fun kv => young now (ttl self) kv.2 = true) (memory_store self)).

(** What a sweep leaves of a binding: the value if it is good, nothing
    otherwise. *)
Definition keep {V : Type} (good : V -> bool) (o : option V) : option V :=
  match o with
  | Some v => if good v then Some v else None
  | None => None
  end.



End WithBuiltins.
End CacheSpec.

(** ** Vocabulary of the chat properties *)

Module ChatSpec.
Import Chat.

Section WithServices.
Context {B : Py.Builtins} {S : Services}.

(** The turn a message of the request's history stands for: a dict whose
    role is ["user"] or ["assistant"] and whose content is a string. *)
Definition turn_of (msg : json) : option (string * string) :=
  match msg with
  | JObj m =>
      match Py.get m "role", Py.get m "content" with
      | JStr r, JStr c =>
          if String.eqb r "user" || String.eqb r "assistant" then Some (r, c) else None
      | _, _ => None
      end
  | _ => None
  end.

(** No message carries a list or a dict as its role. *)
Definition hashable_role (msg : json) : Prop :=
  match msg with
  | JObj m =>
      match Py.get m "role" with
      | JArr _ | JObj _ => False
      | _ => True
      end
  | _ => True
  end.

(** The text of a message of a user, if it is one. *)
Definition user_text (msg : json) : option string :=
  match msg with
  | JObj m =>
      match Py.get m "role", Py.get m "content" with
      | JStr r, JStr c => if String.eqb r "user" then Some c else None
      | _, _ => None
      end
  | _ => None
  end.

(** The concrete value a stored message recorded for a preference field:
    a non-empty string that is not ["none"] in any letter case. *)
Definition recorded (field : string) (msg : json) : option string :=
  match msg with
  | JObj m =>
      match Py.get m "extracted_preferences" with
      | JObj prefs =>
          match Py.get prefs field with
          | JStr s =>
              if Str.nonempty s && negb (String.eqb (Str.lower s) "none")
              then Some s else None
          | _ => None
          end
      | _ => None
      end
  | _ => None
  end.


(** A preference value of a stored message is a string, or is falsy. *)
Definition string_or_falsy (v : json) : Prop :=
  match v with
  | JStr _ => True
  | _ => Py.truthy v = false
  end.

(** A stored message the lookup reads without raising: its role is
    hashable and its four preference values are strings or falsy. *)
Definition readable (msg : json) : Prop :=
  hashable_role msg
  /\ match msg with
     | JObj m =>
         match Py.get m "extracted_preferences" with
         | JObj prefs =>
             string_or_falsy (Py.get prefs "location")
             /\ string_or_falsy (Py.get prefs "event_type")
             /\ string_or_falsy (Py.get prefs "date")
             /\ string_or_falsy (Py.get prefs "time")
         | _ => True
         end
     | _ => True
     end.

(** The texts the location scan reads, most recent first: the current
    message, then the user messages of the request's history, then those of
    the stored history. *)
Definition scanned_texts (request : ChatRequest.t) (history : ConversationHistory)
  : list string :=
  omap user_text (rev (history_for_city request history)).

(** The query-derived location: the detector's answer on the first text,
    in the given order, on which it answers at all. *)
Fixpoint first_detected (texts : list string) : option string :=
  match texts with
  | [] => None
  | text :: rest =>
      if truthy (extract_location_from_query text)
      then extract_location_from_query text
      else first_detected rest
  end.

(** The detector calls of that scan: one per text, up to the first answer. *)
Fixpoint scan_calls (texts : list string) : list call :=
  match texts with
  | [] => []
  | text :: rest =>
      extract_location_from_query_call text ::
      (if truthy (extract_location_from_query text) then [] else scan_calls rest)
  end.

(** Fill-gaps-only: the extractor's value when it is concrete, else the
    stored value when there is one, else the extractor's value as it is. *)
Definition merged (stored extracted : option string) : option string :=
  if concrete extracted then extracted
  else if truthy stored then stored
  else extracted.

(** The preferences the merge yields for the extractor's [guess]: the
    query-derived location when there is one, and fill-gaps-only for the
    rest. *)
Definition merged_preferences (request : ChatRequest.t)
    (stored_preferences : StoredPreferences.t) (history : ConversationHistory)
    (guess : UserPreferences.t) : UserPreferences.t :=
  let found := first_detected (scanned_texts request history) in
  UserPreferences.mk
    (if truthy found then found
     else merged (StoredPreferences.location stored_preferences)
                 (UserPreferences.location guess))
    (merged (StoredPreferences.date stored_preferences) (UserPreferences.date guess))
    (merged (StoredPreferences.time stored_preferences) (UserPreferences.time guess))
    (merged (StoredPreferences.event_type stored_preferences)
            (UserPreferences.event_type guess)).

(** The conversation the turn belongs to: the request's, or a new one. *)
Definition conversation_of (request : ChatRequest.t) : string :=
  if truthy (ChatRequest.conversation_id request)
  then default "" (ChatRequest.conversation_id request)
  else create_conversation (ChatRequest.user_id request)
         [("llm_provider", JStr (ChatRequest.llm_provider request))].

(** What the store holds for that conversation when the turn starts. *)
Definition stored_of (request : ChatRequest.t) : StoredPreferences.t * ConversationHistory :=
  stored_of_conversation
    (get_conversation (ChatRequest.user_id request) (conversation_of request)).

(** The calls of a turn that passes the trial gate, up to the lookup of the
    stored conversation. *)
Definition opening_calls (request : ChatRequest.t) : list call :=
  let user_id := ChatRequest.user_id request in
  (if Str.startswith user_id "user_"
   then [check_trial_limit_call user_id; increment_usage_call user_id] else [])
  ++ (if truthy (ChatRequest.conversation_id request) then []
      else [create_conversation_call user_id
              [("llm_provider", JStr (ChatRequest.llm_provider request))]])
  ++ [get_conversation_call user_id (conversation_of request)].

(** The user's turn as [handle_chat] saves it. *)
Definition user_turn (now : datetime) (request : ChatRequest.t)
    (extracted_preferences : UserPreferences.t) : Turn.t :=
  Turn.mk "user" (ChatRequest.message request) (DT.isoformat now)
          (Some extracted_preferences) None None None.

(** The tail of [handle_chat]: search, rank, respond and record. *)
Definition search_and_respond (now : datetime) (request : ChatRequest.t)
    (conversation_id : string) (usage_stats : option json)
    (city : string) (location_provided : bool)
    (extracted_preferences : UserPreferences.t) : M ChatOutcome.t :=
  (do (events, cache_used, cache_age_hours) <- _fetch_events now city;
   do ranked_events <- _rank_events request events extracted_preferences;
   do recommendations <- lift (_format_recommendations city ranked_events cache_used);
   let response_message := _compose_response city ranked_events location_provided in
   let extraction_summary := _build_extraction_summary extracted_preferences in
   _record_assistant_response now (ChatRequest.user_id request) conversation_id
     response_message recommendations extracted_preferences cache_used cache_age_hours;;
   ret (ChatOutcome.mk response_message recommendations cache_used cache_age_hours
                       (Some extracted_preferences) extraction_summary
                       usage_stats false conversation_id))%chat.






End WithServices.

(** The world after the calls [cs] were made. *)
Definition logged (w : World) (cs : list call) : World :=
  mk_world (store w) (calls w ++ cs).

(** A call that searches for events. *)
Definition is_search (c : call) : bool :=
  match c with
  | fetch_events_by_city_call _ | intelligent_event_search_call _ _ _ => true
  | _ => false
  end.

(** A call that writes to the conversation store. *)
Definition is_persistence (c : call) : bool :=
  match c with
  | save_message_call _ _ _ | update_metadata_call _ _ _
  | create_conversation_call _ _ => true
  | _ => false
  end.


(** A call of the preference extractor or of the location detector. *)
Definition is_extraction (c : call) : bool :=
  match c with
  | extract_user_preferences_call _ _ | extract_location_from_query_call _ => true
  | _ => false
  end.


(** No event search among the calls. *)
Definition no_search (cs : list call) : Prop := Forall (fun c => is_search c = false) cs.

End ChatSpec.

(** * The rest of the cache, the event providers and the streaming handler *)

(** ** cache.py: the statistics of the store *)

Module CacheStats.
Import Cache.

Section WithBuiltins.
Context {B : Py.Builtins}.

(** [{"total": total, "valid": valid}] *)
Definition counts (total valid : Z) : pydict :=
  [("total", JInt total); ("valid", JInt valid)].

Definition _disk_stats (now : datetime) (self : CacheStore) : res pydict :=
  '(total, valid) ← for_each (map_to_list (files (cache_dir self))).*1
    (fun key '(total, valid) =>
       let total := total + 1 in
       entry ← _load_from_disk self key;
       Ok (total, if present_and_valid now self entry then valid + 1 else valid))
    (0, 0);
  Ok (counts total valid).

(** The loop of [_firestore_stats]: [total] and [valid] are locals of the
    method, so they keep what they count up to a raise. *)
Fixpoint count_docs (now : datetime) (self : CacheStore) (docs : list (string * pydict))
    (total valid : Z) : Z * Z :=
  match docs with
  | [] => (total, valid)
  | doc :: rest =>
      let total := total + 1 in
      match from_dict (JObj doc.2) with
      | Ok entry =>
          count_docs now self rest total
            (if present_and_valid now self entry then valid + 1 else valid)
      | Raise _ => (total, valid)
      end
  end.

Definition _firestore_stats (now : datetime) (self : CacheStore) : pydict :=
  let '(total, valid) :=
    match collection_get self with
    | Ok docs => count_docs now self docs 0 0
    | Raise _ => (0, 0)
    end in
  counts total valid.

(** [stats()]; [cache_dir_text] is [str(self.cache_dir)], the path of the
    directory, and [ttl_hours] the exact quotient. *)
Definition stats (now : datetime) (self : CacheStore) (cache_dir_text : string)
  : res pydict :=
  let entries := (map_to_list (memory_store self)).*2 in
  let local_memory :=
    counts (Z.of_nat (size (memory_store self)))
           (Z.of_nat (length (filter (fun entry => _is_valid now self entry = true) entries))) in
  local_disk ← _disk_stats now self;
  let firebase := _firestore_stats now self in
  Ok [ ("local_memory", JObj local_memory);
       ("local_disk", JObj local_disk);
       ("firebase", JObj firebase);
       ("ttl_hours", JFloat (Qmake (ttl self) 3600000000));
       ("cache_dir", JStr cache_dir_text);
       ("storage_type", JStr "hybrid_local_firebase") ].

End WithBuiltins.
End CacheStats.

(** ** cache_manager.py: the other methods of [CacheManager] *)

Module CacheManager.
Import Chat.
Local Open Scope chat_scope.

Section WithServices.
Context {B : Py.Builtins} {S : Services}.

(** [cache_events]: [True] when the save returns, [False] when it raises. *)
Definition cache_events (now : datetime) (city : string) (events : list json) : M bool :=
  fun w =>
    match on_store (fun s => Cache.save now s city events None) w with
    | Ok (_, w') => Ok (true, w')
    | Raise _ => Ok (false, w)
    end.

Definition cleanup_old_cache (now : datetime) : M unit :=
  on_store (fun s => s' ← Cache.cleanup now s; Ok (tt, s')).

Definition get_cache_stats (now : datetime) (cache_dir_text : string) : M pydict :=
  on_store (fun s => d ← CacheStats.stats now s cache_dir_text; Ok (d, s)).

End WithServices.
End CacheManager.

(** ** services/events/aggregator.py and event_service.py *)

Module Events.

(** [class EventProvider(ABC)] of [provider_base.py]: the name of a
    provider and what its two methods answer. *)
Class EventProvider (P : Type) : Type := {
  name : P -> string;
  supports_city : P -> string -> bool;
  (** [fetch_events(city, max_pages=..., max_results=...)] *)
  fetch_events : P -> string -> Z -> option Z -> res (list json);
}.

Section WithProviders.
Context {P : Type} `{!EqDecision P} `{!EventProvider P}.

(** [class EventAggregator] *)
Record EventAggregator : Type := mk_aggregator {
  _providers : list P;
}.

(** [EventAggregator(providers)]: [list(providers or [])] *)
Definition new_aggregator (providers : option (list P)) : EventAggregator :=
  mk_aggregator (default [] providers).

(** The property [providers]: a tuple of the registered providers. *)
Definition providers (self : EventAggregator) : list P := _providers self.

Definition register (self : EventAggregator) (provider : P) : EventAggregator :=
  if bool_decide (provider ∈ _providers self) then self
  else mk_aggregator (_providers self ++ [provider]).

Definition _select_providers (self : EventAggregator) (provider_names : option (list string))
  : list P :=
  match provider_names with
  | None | Some [] => _providers self
  | Some ((_ :: _) as provider_names) =>
      let names := Str.lower <$> provider_names in
      filter (fun provider => Str.lower (name provider) ∈ names) (_providers self)
  end.

Definition fetch_by_city (self : EventAggregator) (city : string)
    (provider_names : option (list string)) (max_pages : Z) (max_results : option Z)
  : res (list json) :=
  let selected := _select_providers self provider_names in
  Cache.for_each selected
    (fun provider events =>
       if negb (supports_city provider city) then Ok events
       else
         provider_events ← fetch_events provider city max_pages max_results;
         Ok (events ++ provider_events))
    [].

(** [create_default_aggregator()], with [eventbrite] the provider
    [EventbriteProvider()] it registers. *)
Definition create_default_aggregator (eventbrite : P) : EventAggregator :=
  register (new_aggregator None) eventbrite.

(** [class EventCrawler] *)
Record EventCrawler : Type := mk_crawler {
  _aggregator : EventAggregator;
}.

(** [EventCrawler(providers=providers)] *)
Definition new_crawler (eventbrite : P) (providers : option (list P)) : EventCrawler :=
  match providers with
  | None => mk_crawler (create_default_aggregator eventbrite)
  | Some providers => mk_crawler (new_aggregator (Some providers))
  end.

Definition fetch_events_by_city (self : EventCrawler) (city_name : string) (max_pages : Z)
    (sources : option (list string)) (max_results : option Z) : res (list json) :=
  fetch_by_city (_aggregator self) city_name sources max_pages max_results.


End WithProviders.

(** The services of a chat turn whose event crawler is [crawler], called as
    [cache_manager.py] calls it: [fetch_events_by_city(city)], with the
    defaults [max_pages=3], [sources=None], [max_results=None]. *)
Definition with_crawler {P : Type} `{!EqDecision P} `{!EventProvider P}
    (S : Chat.Services) (crawler : EventCrawler) : Chat.Services := {|
  Chat.check_trial_limit := @Chat.check_trial_limit S;
  Chat.trial_limit := @Chat.trial_limit S;
  Chat.get_usage := @Chat.get_usage S;
  Chat.increment_usage := @Chat.increment_usage S;
  Chat.create_conversation := @Chat.create_conversation S;
  Chat.get_conversation := @Chat.get_conversation S;
  Chat.extract_user_preferences := @Chat.extract_user_preferences S;
  Chat.extract_location_from_query := @Chat.extract_location_from_query S;
  Chat.fetch_events_by_city city := fetch_events_by_city crawler city 3 None None;
  Chat.intelligent_event_search := @Chat.intelligent_event_search S;
|}.

End Events.

(** ** api/routers/chat.py: the streaming handler

    [stream_chat_response] is an async generator.  Its run is the list of
    what it does, in order: the chunks it yields and the calls it makes on
    its collaborators.  A chunk is the dict it hands to [json.dumps]; the
    text yielded is [data: <that dict as JSON>] and a blank line.  The run is
    that of a stream read to its end; it is kept up to the point of a raise.
    The number of times the handler finds the ranking task unfinished
    depends on the scheduler: it is the argument [polls].  The call of the
    ranker is listed where its task is created. *)

Module ChatRouter.
Import Chat.

(** What the handler asks of its collaborators beyond [Services]: the
    extractor called with the message alone, the ranker called without
    preferences, [UserPreferences(location=...)], whose other fields take the
    defaults of a declaration that is not among the sources, and the text of
    a float printed with [:.1f]. *)
Class StreamServices : Type := {
  extract_from_message : string -> UserPreferences.t;
  search_without_preferences : string -> list json -> list json;
  preferences_of_location : string -> UserPreferences.t;
  format_1f : Q -> string;
}.

Inductive step : Type :=
  | Yield (data : pydict)
  | Call (c : call)
  (** [extract_user_preferences(message)] *)
  | ExtractCall (message : string)
  (** [intelligent_event_search(query, events, user_preferences=None)] *)
  | SearchCall (query : string) (events : list json).

(** The cache store behind the cache manager and the run so far. *)
Record Session : Type := mk_session {
  cache : Cache.CacheStore;
  run : list step;
}.

(** A computation of the handler: its result or the exception it raises,
    and the session it leaves. *)
Definition G (A : Type) : Type := Session -> res A * Session.

Definition ret {A} (a : A) : G A := fun s => (Ok a, s).

Definition bind {A C} (m : G A) (f : A -> G C) : G C := fun s =>
  match m s with
  | (Ok a, s') => f a s'
  | (Raise e, s') => (Raise e, s')
  end.

Declare Scope stream_scope.
Delimit Scope stream_scope with stream.
Notation "'do' x <- m ; f" := (bind m (fun x => f))
  (at level 10, x pattern, m at level 100, f at level 200) : stream_scope.
Notation "m ;; f" := (bind m (fun _ => f))
  (at level 100, f at level 200, right associativity) : stream_scope.

Definition emit (x : step) : G unit := fun s =>
  (Ok tt, mk_session (cache s) (run s ++ [x])).

Definition lift {A} (r : res A) : G A := fun s => (r, s).

(** A method of the cache manager: its calls join the run. *)
Definition of_manager {A} (m : M A) : G A := fun s =>
  match m (mk_world (cache s) []) with
  | Ok (a, w) => (Ok a, mk_session (store w) (run s ++ (Call <$> calls w)))
  | Raise e => (Raise e, s)
  end.

Local Open Scope stream_scope.

(** The chunks. *)
Definition done : pydict := [("type", JStr "done")].

Definition message (content : string) (more : pydict) : pydict :=
  ("type", JStr "message") :: ("content", JStr content) :: more.

Definition status (content : string) : pydict :=
  [("type", JStr "status"); ("content", JStr content)].

(** A value that may be [None], as JSON. *)
Definition or_null (o : option json) : json := default JNull o.

(** [value[:50]]: a string or a list can be sliced, another value raises. *)
Definition sliceable (v : json) : bool :=
  match v with
  | JStr _ | JArr _ => true
  | _ => false
  end.

(** [value != "none"] *)
Definition is_not_none (v : json) : bool :=
  match v with
  | JStr s => negb (String.eqb s "none")
  | _ => true
  end.

(** The loop over the stored messages, oldest first, that looks for a
    stored location; it stops at the first one. *)
Fixpoint first_stored_location (msgs : list json) : res (option json) :=
  match msgs with
  | [] => Ok None
  | msg :: rest =>
      match msg with
      | JObj m =>
          if negb (sliceable (Py.get_default m "content" (JStr ""))) then Raise TypeError
          else
            let stored_prefs := Py.get m "extracted_preferences" in
            match stored_prefs with
            | JObj ((_ :: _) as prefs) =>
                let location_value := Py.get prefs "location" in
                if Py.truthy location_value && is_not_none location_value
                then Ok (Some location_value)
                else first_stored_location rest
            | _ => first_stored_location rest
            end
      | _ => first_stored_location rest
      end
  end.

(** The [try] block that reads the stored location: whatever raises in it
    leaves [stored_location] at [None]. *)
Definition stored_location_of (conversation : res json) : option json :=
  match conversation with
  | Ok (JObj ((_ :: _) as c)) =>
      match Py.get_default c "messages" (JArr []) with
      | JArr msgs =>
          match first_stored_location msgs with
          | Ok stored_location => stored_location
          | Raise _ => None
          end
      | _ => None
      end
  | _ => None
  end.

(** [value.lower()] *)
Definition lower_of (v : json) : res string :=
  match v with
  | JStr s => Ok (Str.lower s)
  | _ => Raise AttributeError
  end.

(** [s.location = value] for a string [value] *)
Definition string_of (v : json) : option string :=
  match v with
  | JStr s => Some s
  | _ => None
  end.

Definition recommendation_dict (r : Recommendation) : pydict :=
  [("type", JStr (rec_type r)); ("data", JObj (rec_data r));
   ("relevance_score", rec_relevance_score r); ("explanation", JStr (rec_explanation r))].

Definition follow_up_message : string := "Great! What kind of events are you interested in?".

Definition ask_city_again : string :=
  "I need to know which city you're interested in. Could you please tell me the city or area?".

Definition ask_event_type : string := "What kind of events are you interested in?".

Section WithServices.
Context {B : Py.Builtins} {S : Services} {T : StreamServices}.

(** [extracted_preferences.dict() if extracted_preferences else None] is
    kept as the optional preferences. *)
Definition user_turn (now : datetime) (request : ChatRequest.t)
    (extracted_preferences : option UserPreferences.t) : Turn.t :=
  Turn.mk "user" (ChatRequest.message request) (DT.isoformat now)
          extracted_preferences None None None.

(** [extracted_preferences and extracted_preferences.<field> and
    extracted_preferences.<field> != "none"] *)
Definition provided (field : UserPreferences.t -> option string)
    (extracted_preferences : option UserPreferences.t) : bool :=
  match extracted_preferences with
  | Some prefs => concrete (field prefs)
  | None => false
  end.

(** The loop that polls the ranking task. *)
Fixpoint poll (idx polls : nat) : G unit :=
  match polls with
  | O => ret tt
  | Datatypes.S polls =>
      emit (Yield (status (if Nat.even idx
                           then "Analyzing events with AI to find the best matches..."
                           else "Using AI to rank and filter the most relevant events...")));;
      poll (Datatypes.S idx) polls
  end.

(** The recommendation made of one event. *)
Definition format_event (city : string) (cache_used : bool) (event : json)
  : res Recommendation :=
  match event with
  | JObj event =>
      Ok (mk_recommendation "event"
            (dict_set event "source" (JStr (if cache_used then "cached" else "realtime")))
            (Py.get_default event "relevance_score" (JFloat (Qmake 1 2)))
            ("Event in " +:+ Str.title city +:+ ": "
             +:+ Py.str (Py.get_default event "title" (JStr "Unknown Event"))))
  | _ => Raise TypeError
  end.

(** The loop over the ranked events. *)
Fixpoint stream_recommendations (city : string) (cache_used : bool) (events : list json)
    (formatted_recommendations : list Recommendation) : G (list Recommendation) :=
  match events with
  | [] => ret formatted_recommendations
  | event :: rest =>
      do formatted_rec <- lift (format_event city cache_used event);
      emit (Yield [("type", JStr "recommendation");
                   ("data", JObj (recommendation_dict formatted_rec))]);;
      stream_recommendations city cache_used rest (formatted_recommendations ++ [formatted_rec])
  end.

(** The search and the reply, from [Final city decision] on. *)
Definition search_and_stream (now : datetime) (polls : nat) (request : ChatRequest.t)
    (conversation_id : string) (usage_stats : option json)
    (city : string) (location_provided : bool)
    (extracted_preferences : option UserPreferences.t) : G unit :=
  let user_id := ChatRequest.user_id request in
  emit (Yield (status ("Searching for events in " +:+ Str.title city +:+ "...")));;
  do cached_events <- of_manager (get_cached_events now city);
  do cache_age_hours <- of_manager (get_cache_age now city);
  do (events, cache_used, cache_age_hours) <-
    match cached_events with
    | Some ((_ :: _) as events) =>
        match cache_age_hours with
        | Some age =>
            if 0 <? Qnum age then
              emit (Yield (status ("Found cached events for " +:+ Str.title city
                                   +:+ " (from " +:+ format_1f age +:+ "h ago)")));;
              ret (events, true, cache_age_hours)
            else
              emit (Yield (status ("Found " +:+ Str.of_int (Z.of_nat (length events))
                                   +:+ " fresh events for " +:+ Str.title city)));;
              ret (events, false, cache_age_hours)
        | None =>
            emit (Yield (status ("Found " +:+ Str.of_int (Z.of_nat (length events))
                                 +:+ " fresh events for " +:+ Str.title city)));;
            ret (events, false, cache_age_hours)
        end
    | _ => ret ([], false, None)
    end;
  (* [ai_task = asyncio.create_task(ai_processing())] *)
  do top_events <-
    match extracted_preferences with
    | Some prefs =>
        emit (Call (intelligent_event_search_call (ChatRequest.message request) events prefs));;
        ret (intelligent_event_search (ChatRequest.message request) events prefs)
    | None =>
        emit (SearchCall (ChatRequest.message request) events);;
        ret (search_without_preferences (ChatRequest.message request) events)
    end;
  poll 0 polls;;
  (* [first_event.get("llm_scores", "None")] *)
  lift (match top_events with
        | first_event :: _ => _ ← Py.as_dict first_event; Ok tt
        | [] => Ok tt
        end);;
  let extraction_summary :=
    match extracted_preferences with
    | Some prefs => _build_extraction_summary prefs
    | None => None
    end in
  let response_message := _compose_response city top_events location_provided in
  let location_just_processed :=
    ChatRequest.is_initial_response request && location_provided in
  emit (Yield (message response_message
                 [("extraction_summary", or_null (JStr <$> extraction_summary));
                  ("usage_stats", or_null usage_stats);
                  ("trial_exceeded", JBool false);
                  ("conversation_id", JStr conversation_id);
                  ("location_processed", JBool location_just_processed)]));;
  emit (Yield (status ("Preparing " +:+ Str.of_int (Z.of_nat (length top_events))
                       +:+ " recommendations...")));;
  do formatted_recommendations <- stream_recommendations city cache_used top_events [];
  emit (Call (save_message_call user_id conversation_id
                (Turn.mk "assistant" response_message (DT.isoformat now)
                         extracted_preferences (Some formatted_recommendations)
                         (Some cache_used) (Some cache_age_hours))));;
  emit (Call (update_metadata_call user_id conversation_id
                [("last_message_at", JStr (DT.isoformat now))]));;
  emit (Yield done).

(** The fields of [current_preferences] that replace those of
    [extracted_preferences] on a follow-up turn: the kind of event, the date
    and the time, when they are set and not ["none"]. *)
Definition merge_current (extracted_preferences current_preferences : UserPreferences.t)
  : UserPreferences.t :=
  let keep (current mine : option string) : option string :=
    if concrete current then current else mine in
  UserPreferences.mk
    (UserPreferences.location extracted_preferences)
    (keep (UserPreferences.date current_preferences)
          (UserPreferences.date extracted_preferences))
    (keep (UserPreferences.time current_preferences)
          (UserPreferences.time extracted_preferences))
    (keep (UserPreferences.event_type current_preferences)
          (UserPreferences.event_type extracted_preferences)).

(** The follow-up turn, from [if not request.is_initial_response] to the
    save of the user's turn; it answers [None] when the handler returns
    there, and else the city, [location_provided] and the preferences. *)
Definition follow_up (now : datetime) (request : ChatRequest.t) (conversation_id : string)
    (city : option string) (location_provided : bool)
    (extracted_preferences : option UserPreferences.t)
  : G (option (option string * bool * option UserPreferences.t)) :=
  let user_id := ChatRequest.user_id request in
  emit (Call (get_conversation_call user_id conversation_id));;
  let stored_location := stored_location_of (get_conversation user_id conversation_id) in
  emit (ExtractCall (ChatRequest.message request));;
  let extracted_preferences :=
    match extracted_preferences with
    | None => extract_from_message (ChatRequest.message request)
    | Some extracted_preferences =>
        merge_current extracted_preferences
                      (extract_from_message (ChatRequest.message request))
    end in
  let event_type_provided := concrete (UserPreferences.event_type extracted_preferences) in
  do (city, location_provided, extracted_preferences) <-
    match stored_location with
    | Some stored_location =>
        do city <- lift (lower_of stored_location);
        ret (Some city, true, set_location extracted_preferences (string_of stored_location))
    | None => ret (city, location_provided, extracted_preferences)
    end;
  if negb location_provided then
    emit (Yield (message ask_city_again []));;
    emit (Yield done);;
    emit (Call (save_message_call user_id conversation_id
                  (user_turn now request (Some extracted_preferences))));;
    ret None
  else if negb event_type_provided then
    emit (Yield (message ask_event_type []));;
    emit (Yield done);;
    emit (Call (save_message_call user_id conversation_id
                  (user_turn now request (Some extracted_preferences))));;
    ret None
  else
    emit (Call (save_message_call user_id conversation_id
                  (user_turn now request (Some extracted_preferences))));;
    ret (Some (city, location_provided, Some extracted_preferences)).

Definition stream_chat_response (now : datetime) (polls : nat) (request : ChatRequest.t)
  : G unit :=
  let user_id := ChatRequest.user_id request in
  let anonymous := Str.startswith user_id "user_" in
  do limit_reached <-
    (if anonymous
     then emit (Call (check_trial_limit_call user_id));; ret (check_trial_limit user_id)
     else ret false);
  if limit_reached then
    emit (Yield (message trial_message [("trial_exceeded", JBool true)]));;
    emit (Yield done)
  else
    do usage_stats <-
      (if anonymous
       then emit (Call (increment_usage_call user_id));; ret (Some (increment_usage user_id))
       else ret None);
    do conversation_id <-
      (if truthy (ChatRequest.conversation_id request)
       then ret (default "" (ChatRequest.conversation_id request))
       else
         let metadata := [("llm_provider", JStr (ChatRequest.llm_provider request))] in
         emit (Call (create_conversation_call user_id metadata));;
         ret (create_conversation user_id metadata));
    do extracted_preferences <-
      (if ChatRequest.is_initial_response request
       then emit (ExtractCall (ChatRequest.message request));;
            ret (Some (extract_from_message (ChatRequest.message request)))
       else ret None);
    let '(city, location_provided) :=
      if provided UserPreferences.location extracted_preferences
      then (Str.lower <$> (extracted_preferences ≫= UserPreferences.location), true)
      else (None, false) in
    do (city, location_provided, extracted_preferences) <-
      (if truthy city then ret (city, location_provided, extracted_preferences)
       else
         emit (Call (extract_location_from_query_call (ChatRequest.message request)));;
         let query_city := extract_location_from_query (ChatRequest.message request) in
         if truthy query_city then
           ret (Str.lower <$> query_city, true,
                Some match extracted_preferences with
                     | Some extracted_preferences =>
                         set_location extracted_preferences query_city
                     | None => preferences_of_location (default "" query_city)
                     end)
         else ret (city, location_provided, extracted_preferences));
    (if ChatRequest.is_initial_response request
     then emit (Call (save_message_call user_id conversation_id
                        (user_turn now request extracted_preferences)))
     else ret tt);;
    if ChatRequest.is_initial_response request && negb location_provided then
      emit (Yield (message location_prompt []));;
      emit (Yield done)
    else
      let event_type_provided := provided UserPreferences.event_type extracted_preferences in
      if ChatRequest.is_initial_response request && location_provided
         && negb event_type_provided then
        emit (Yield (message follow_up_message
                       [("location_processed", JBool true);
                        ("usage_stats", or_null usage_stats);
                        ("trial_exceeded", JBool false);
                        ("conversation_id", JStr conversation_id)]));;
        emit (Yield done);;
        emit (Call (save_message_call user_id conversation_id
                      (Turn.mk "assistant" follow_up_message (DT.isoformat now)
                               extracted_preferences (Some []) None None)))
      else
        do continue <-
          (if negb (ChatRequest.is_initial_response request)
           then follow_up now request conversation_id city location_provided
                          extracted_preferences
           else ret (Some (city, location_provided, extracted_preferences)));
        match continue with
        | None => ret tt
        | Some (city, location_provided, extracted_preferences) =>
            let city := if truthy city then default "" city else "new york" in
            search_and_stream now polls request conversation_id usage_stats
                              city location_provided extracted_preferences
        end.

End WithServices.
End ChatRouter.

(** ** Vocabulary of the further cache properties *)

Module CacheTerms.
Import Cache.

(** The same store once Firestore can be reached again. *)
Definition reconnected (self : CacheStore) : CacheStore :=
  mk_store (ttl self) (cache_dir self)
           (mk_firestore (event_cache (firestore_client self)) false)
           (memory_store self).

(** The three tiers hold under [k] in [self'] what they hold in [self]. *)
Definition same_at (self self' : CacheStore) (k : string) : Prop :=
  memory_store self' !! k = memory_store self !! k
  /\ files (cache_dir self') !! k = files (cache_dir self) !! k
  /\ event_cache (firestore_client self') !! k = event_cache (firestore_client self) !! k.

(** The ttl and the health of the tiers are those of [self]. *)
Definition same_settings (self self' : CacheStore) : Prop :=
  ttl self' = ttl self
  /\ read_only (cache_dir self') = read_only (cache_dir self)
  /\ unavailable (firestore_client self') = unavailable (firestore_client self).


End CacheTerms.

(** ** Vocabulary of the further chat properties *)

Module ChatTerms.
Import Chat.

(** A call of the usage tracker. *)
Definition is_usage (c : call) : bool :=
  match c with
  | check_trial_limit_call _ | get_usage_call _ | increment_usage_call _ => true
  | _ => false
  end.

(** A stored preference is unset, or a non-empty string that is not
    ["none"] in any letter case. *)
Definition unset_or_concrete (o : option string) : Prop :=
  match o with
  | None => True
  | Some s => Str.nonempty s = true /\ Str.lower s <> "none"
  end.

(** One more turn in front of a history of at most ten: it is dropped when
    the history is full. *)
Definition push (m : list (string * string)) (t : string * string)
  : list (string * string) :=
  if (length m <? 10)%nat then t :: m else m.

(** The four stored preferences are unset or concrete. *)
Definition all_concrete (stored : StoredPreferences.t) : Prop :=
  unset_or_concrete (StoredPreferences.location stored)
  /\ unset_or_concrete (StoredPreferences.event_type stored)
  /\ unset_or_concrete (StoredPreferences.date stored)
  /\ unset_or_concrete (StoredPreferences.time stored).

Section WithBuiltins.
Context {B : Py.Builtins}.

(** The recommendation made of one event. *)
Definition recommends (city : string) (cache_used : bool) (event : json)
    (r : Recommendation) : Prop :=
  exists d,
    event = JObj d
    /\ rec_type r = "event"
    /\ Py.lookup (rec_data r) "source" = Some (JStr (if cache_used then "cached" else "realtime"))
    /\ (forall k, k <> "source" -> Py.lookup (rec_data r) k = Py.lookup d k)
    /\ rec_relevance_score r = Py.get_default d "relevance_score" (JFloat (Qmake 1 2))
    /\ rec_explanation r =
       "Event in " +:+ Str.title city +:+ ": "
       +:+ Py.str (Py.get_default d "title" (JStr "Unknown Event")).

End WithBuiltins.

(** The part of the summary for one preference. *)
Definition summary_part (icon : string) (value : option string) : list string :=
  if concrete value then [icon +:+ " " +:+ default "" value] else [].

End ChatTerms.

(** ** Vocabulary of the properties of the streaming handler *)

Module RouterSpec.
Import Chat ChatRouter.

(** The chunks of a run, in the order they were yielded. *)
Definition chunks (steps : list step) : list pydict :=
  omap (fun x => match x with Yield data => Some data | _ => None end) steps.

(** A step that asks neither the crawler nor the ranker. *)
Definition no_search (x : step) : bool :=
  match x with
  | SearchCall _ _ => false
  | Call (fetch_events_by_city_call _) | Call (intelligent_event_search_call _ _ _) => false
  | _ => true
  end.

(** The oldest-first scan passes over a message: it is no dict, or its
    content can be sliced and it records no location. *)
Definition without_location (msg : json) : Prop :=
  match msg with
  | JObj m =>
      sliceable (Py.get_default m "content" (JStr "")) = true
      /\ match Py.get m "extracted_preferences" with
         | JObj ((_ :: _) as prefs) =>
             Py.truthy (Py.get prefs "location") && is_not_none (Py.get prefs "location")
             = false
         | _ => True
         end
  | _ => True
  end.

Section WithServices.
Context {B : Py.Builtins} {S : Services} {T : StreamServices}.

(** An anonymous user who has used up the trial. *)
Definition blocked (request : ChatRequest.t) : bool :=
  Str.startswith (ChatRequest.user_id request) "user_"
  && check_trial_limit (ChatRequest.user_id request).

(** The calls a turn that is not blocked starts with. *)
Definition opening (request : ChatRequest.t) : list step :=
  let user_id := ChatRequest.user_id request in
  (if Str.startswith user_id "user_"
   then [Call (check_trial_limit_call user_id); Call (increment_usage_call user_id)]
   else [])
  ++ (if truthy (ChatRequest.conversation_id request) then []
      else [Call (create_conversation_call user_id
                    [("llm_provider", JStr (ChatRequest.llm_provider request))])]).

Definition usage_of (request : ChatRequest.t) : option json :=
  if Str.startswith (ChatRequest.user_id request) "user_"
  then Some (increment_usage (ChatRequest.user_id request)) else None.

Definition conversation_of (request : ChatRequest.t) : string :=
  if truthy (ChatRequest.conversation_id request)
  then default "" (ChatRequest.conversation_id request)
  else create_conversation (ChatRequest.user_id request)
         [("llm_provider", JStr (ChatRequest.llm_provider request))].




End WithServices.
End RouterSpec.

(** * Properties *)

(** ** The ISO-8601 text of a datetime *)

Module StrFacts.
Import Str.

Lemma digit_val_char (d : Z) : 0 <= d < 10 -> digit_val (digit_char d) = Some d.
Proof.
  intros Hd.
  assert (d = 0 \/ d = 1 \/ d = 2 \/ d = 3 \/ d = 4 \/ d = 5 \/ d = 6 \/ d = 7
          \/ d = 8 \/ d = 9) as Hcases by lia.
  repeat (destruct Hcases as [-> | Hcases]; [reflexivity |]).
  subst d; reflexivity.
Qed.

Lemma read_digits_cons (w : nat) (c : ascii) (r : string) (acc : Z) :
  read_digits (S w) (String c r) acc =
  match digit_val c with
  | Some d => read_digits w r (acc * 10 + d)
  | None => None
  end.
Proof. reflexivity. Qed.

(** Reading [w + 1] digits is reading [w] digits and then one more. *)
Lemma read_digits_snoc (w : nat) (s : string) (acc : Z) :
  read_digits (S w) s acc =
  match read_digits w s acc with
  | Some (v, String c r) =>
      match digit_val c with
      | Some d => Some (v * 10 + d, r)
      | None => None
      end
  | _ => None
  end.
Proof.
  revert s acc. induction w as [| w IH]; intros s acc.
  - simpl. destruct s as [| c r]; [reflexivity |].
    destruct (digit_val c); reflexivity.
  - destruct s as [| c r]; [reflexivity |].
    rewrite (read_digits_cons (S w)), (read_digits_cons w).
    destruct (digit_val c) as [d |]; [| reflexivity].
    apply IH.
Qed.

Lemma read_zfill (w : nat) (n : Z) (rest : string) (acc : Z) :
  0 <= n < 10 ^ Z.of_nat w ->
  read_digits w (zfill_acc w n rest) acc = Some (acc * 10 ^ Z.of_nat w + n, rest).
Proof.
  revert n rest. induction w as [| w IH]; intros n rest Hn.
  - simpl in *. f_equal. f_equal. lia.
  - rewrite read_digits_snoc.
    change (zfill_acc (S w) n rest)
      with (zfill_acc w (n / 10) (String (digit_char (n mod 10)) rest)).
    rewrite Nat2Z.inj_succ, Z.pow_succ_r in Hn by lia.
    rewrite IH by (split; [apply Z.div_pos; lia | apply Z.div_lt_upper_bound; lia]).
    rewrite digit_val_char by (apply Z.mod_pos_bound; lia).
    rewrite Nat2Z.inj_succ, Z.pow_succ_r by lia.
    f_equal. f_equal.
    pose proof (Z.div_mod n 10 ltac:(lia)). lia.
Qed.

End StrFacts.

Module DTFacts.
Import DT.

Lemma days_in_month_le (y m : Z) : days_in_month y m <= 31.
Proof.
  unfold days_in_month.
  repeat match goal with |- context [if ?b then _ else _] => destruct b end; lia.
Qed.

(** [parse_iso] inverts [isoformat] on every datetime the constructor
    accepts. *)
Lemma parse_iso_isoformat (d : datetime) :
  valid d = true -> parse_iso (isoformat d) = Some d.
Proof.
  intros Hv. pose proof Hv as Hvalid.
  destruct d as [y mo dd h mi sec us].
  unfold valid in Hv. simpl in Hv.
  repeat (apply andb_prop in Hv; destruct Hv as [Hv ?]).
  pose proof (days_in_month_le y mo).
  unfold parse_iso, isoformat.
  cbn [year month day hour minute second microsecond].
  repeat (rewrite StrFacts.read_zfill by (simpl; lia);
          cbn [mbind option_bind Str.expect Ascii.eqb Bool.eqb]).
  destruct (us =? 0) eqn:Hus.
  - apply Z.eqb_eq in Hus. subst us.
    cbn [mbind option_bind]. rewrite !Z.mul_0_l, !Z.add_0_l.
    rewrite Hvalid. reflexivity.
  - cbn [Ascii.eqb Bool.eqb].
    rewrite StrFacts.read_zfill by (simpl; lia).
    cbn [mbind option_bind]. rewrite !Z.mul_0_l, !Z.add_0_l.
    rewrite Hvalid. reflexivity.
Qed.

Lemma zfill_acc_nonempty (w : nat) (n : Z) (rest : string) :
  Str.nonempty rest = true -> Str.nonempty (Str.zfill_acc w n rest) = true.
Proof.
  revert n rest. induction w as [| w IH]; intros n rest Hr; [exact Hr |].
  simpl. apply IH. reflexivity.
Qed.

Lemma isoformat_nonempty (d : datetime) : Str.nonempty (isoformat d) = true.
Proof. unfold isoformat. apply zfill_acc_nonempty. reflexivity. Qed.

End DTFacts.

Module PyFacts.

Lemma model_builtins_laws : Py.Laws Py.model_builtins.
Proof.
  split; try reflexivity.
  intros d Hd. simpl. rewrite DTFacts.parse_iso_isoformat by exact Hd. reflexivity.
Qed.

End PyFacts.

(** ** The cache store *)

Module CacheFacts.
Import Cache.

Section WithBuiltins.
Context {B : Py.Builtins}.

(** *** Nothing but [invalidate] raises *)

Lemma from_dict_ok (data : json) : exists r, from_dict data = Ok r.
Proof.
  unfold from_dict, try_except.
  match goal with |- context [match ?b with Ok _ => _ | Raise _ => _ end] =>
    destruct b end; eauto.
Qed.

Lemma _load_from_disk_ok (self : CacheStore) (key : string) :
  exists r, _load_from_disk self key = Ok r.
Proof.
  unfold _load_from_disk, try_except.
  destruct (negb (path_exists self key)); [eauto |].
  match goal with |- context [match ?b with Ok _ => _ | Raise _ => _ end] =>
    destruct b end; eauto.
Qed.

Lemma _load_from_firestore_ok (self : CacheStore) (key : string) :
  exists r, _load_from_firestore self key = Ok r.
Proof.
  unfold _load_from_firestore, try_except.
  match goal with |- context [match ?b with Ok _ => _ | Raise _ => _ end] =>
    destruct b end; eauto.
Qed.

Lemma _save_to_disk_ok (self : CacheStore) (key : string) (entry : CacheEntry) :
  _save_to_disk self key entry =
  Ok (if read_only (cache_dir self) then self
      else set_files self (<[key := Content (JObj (to_dict entry))]> (files (cache_dir self)))).
Proof. unfold _save_to_disk, write_json. destruct (read_only _); reflexivity. Qed.

Lemma _save_to_firestore_async_ok (self : CacheStore) (key : string) (entry : CacheEntry) :
  _save_to_firestore_async self key entry =
  Ok (if unavailable (firestore_client self) then self
      else set_docs self (<[key := to_dict entry]> (event_cache (firestore_client self)))).
Proof. unfold _save_to_firestore_async, document_set. destruct (unavailable _); reflexivity. Qed.

Lemma _load_from_disk_eq (self : CacheStore) (key : string) :
  _load_from_disk self key = Ok (CacheSpec.disk_entry self key).
Proof.
  unfold _load_from_disk, CacheSpec.disk_entry, CacheSpec.restore, path_exists, read_json.
  destruct (files (cache_dir self) !! key) as [[| data] |] eqn:Hf.
  - rewrite bool_decide_eq_true_2 by eauto. reflexivity.
  - rewrite bool_decide_eq_true_2 by eauto. simpl.
    destruct (from_dict_ok data) as [r ->]. reflexivity.
  - rewrite bool_decide_eq_false_2 by (intros [? ?]; discriminate). reflexivity.
Qed.

Lemma _load_from_firestore_eq (self : CacheStore) (key : string) :
  _load_from_firestore self key = Ok (CacheSpec.firestore_entry self key).
Proof.
  unfold _load_from_firestore, CacheSpec.firestore_entry, CacheSpec.restore, document_get.
  destruct (unavailable (firestore_client self)); [reflexivity |].
  simpl. destruct (event_cache (firestore_client self) !! key) as [data |]; [| reflexivity].
  destruct (from_dict_ok (JObj data)) as [r ->]. reflexivity.
Qed.

(** [load] as a function of what the three tiers answer. *)
Lemma load_eq (now : datetime) (self : CacheStore) (city : string) :
  load now self city =
  let key := _key city in
  if present_and_valid now self (memory_store self !! key)
  then Ok (memory_store self !! key, self)
  else match CacheSpec.disk_entry self key with
       | Some e =>
           if _is_valid now self e
           then Ok (Some e, set_memory self (<[key := e]> (memory_store self)))
           else match CacheSpec.firestore_entry self key with
                | Some e' =>
                    if _is_valid now self e'
                    then Ok (Some e',
                             let self := set_memory self (<[key := e']> (memory_store self)) in
                             if read_only (cache_dir self) then self
                             else set_files self (<[key := Content (JObj (to_dict e'))]>
                                                    (files (cache_dir self))))
                    else Ok (None, self)
                | None => Ok (None, self)
                end
       | None =>
           match CacheSpec.firestore_entry self key with
           | Some e' =>
               if _is_valid now self e'
               then Ok (Some e',
                        let self := set_memory self (<[key := e']> (memory_store self)) in
                        if read_only (cache_dir self) then self
                        else set_files self (<[key := Content (JObj (to_dict e'))]>
                                               (files (cache_dir self))))
               else Ok (None, self)
           | None => Ok (None, self)
           end
       end.
Proof.
  unfold load. cbv zeta.
  destruct (present_and_valid now self (memory_store self !! _key city)); [reflexivity |].
  rewrite _load_from_disk_eq. cbn [mbind res_bind].
  destruct (CacheSpec.disk_entry self (_key city)) as [e |] eqn:Hd; cbn [present_and_valid].
  - destruct (_is_valid now self e); [reflexivity |].
    rewrite _load_from_firestore_eq. cbn [mbind res_bind].
    destruct (CacheSpec.firestore_entry self (_key city)) as [e' |]; cbn [present_and_valid];
      [| reflexivity].
    destruct (_is_valid now self e'); [| reflexivity].
    rewrite _save_to_disk_ok. reflexivity.
  - rewrite _load_from_firestore_eq. cbn [mbind res_bind].
    destruct (CacheSpec.firestore_entry self (_key city)) as [e' |]; cbn [present_and_valid];
      [| reflexivity].
    destruct (_is_valid now self e'); [| reflexivity].
    rewrite _save_to_disk_ok. reflexivity.
Qed.

Lemma load_ok (now : datetime) (self : CacheStore) (city : string) :
  exists r, load now self city = Ok r.
Proof.
  rewrite load_eq. cbv zeta.
  repeat match goal with
         | |- context [if ?b then _ else _] => destruct b
         | |- context [match ?o with Some _ => _ | None => _ end] => destruct o
         end; eauto.
Qed.

Lemma save_eq (now : datetime) (self : CacheStore) (city : string)
    (events : list json) (metadata : option pydict) :
  save now self city events metadata =
  let key := _key city in
  let entry := mk_entry city events now (default [] metadata) in
  let in_memory := set_memory self (<[key := entry]> (memory_store self)) in
  let on_disk :=
    if read_only (cache_dir self) then in_memory
    else set_files in_memory
           (<[key := Content (JObj (to_dict entry))]> (files (cache_dir self))) in
  Ok (entry,
      if unavailable (firestore_client self) then on_disk
      else set_docs on_disk (<[key := to_dict entry]> (event_cache (firestore_client self)))).
Proof.
  unfold save. cbv zeta. rewrite _save_to_disk_ok. cbn [mbind res_bind].
  rewrite _save_to_firestore_async_ok. simpl.
  destruct (read_only (cache_dir self)); reflexivity.
Qed.

(** *** Serialisation *)

Lemma from_dict_to_dict (L : Py.Laws B) (entry : CacheEntry) :
  DT.valid (cached_at entry) = true ->
  from_dict (JObj (to_dict entry)) = Ok (Some entry).
Proof.
  intros Hv. destruct L as [Hstr Hlist Hdict Hiso].
  unfold from_dict. cbn [Py.as_dict mbind res_bind].
  change (Py.get (to_dict entry) "cached_at")
    with (JStr (DT.isoformat (cached_at entry))).
  change (Py.get (to_dict entry) "city") with (JStr (city entry)).
  change (Py.get_default (to_dict entry) "events" (JArr []))
    with (JArr (events entry)).
  change (Py.get_default (to_dict entry) "metadata" (JObj []))
    with (JObj (metadata entry)).
  cbn [Py.truthy]. rewrite DTFacts.isoformat_nonempty. cbn [negb].
  rewrite !Hstr, Hiso by exact Hv. cbn [mbind res_bind].
  rewrite Hlist. cbn [mbind res_bind]. rewrite Hdict. cbn [mbind res_bind try_except].
  destruct entry; reflexivity.
Qed.

(** C10. For every cache entry whose [cached_at] is a datetime,
    [CacheEntry.from_dict(entry.to_dict())] returns an entry equal to the
    original (same city, events, cached_at and metadata), and the serialised
    form carries [count == len(events)]. *)
Theorem from_dict_to_dict_roundtrip (L : Py.Laws B) (entry : CacheEntry) :
  (DT.valid (cached_at entry) = true ->
   from_dict (JObj (to_dict entry)) = Ok (Some entry))
  /\ Py.lookup (to_dict entry) "count" = Some (JInt (Z.of_nat (length (events entry)))).
Proof.
  split; [apply from_dict_to_dict; exact L | reflexivity].
Qed.

(** *** The TTL boundary of [load] *)

Lemma _is_valid_lt (now : datetime) (self : CacheStore) (entry : CacheEntry) :
  _is_valid now self entry = true <-> DT.sub now (cached_at entry) < ttl self.
Proof. unfold _is_valid. apply Z.ltb_lt. Qed.






(** The four states of health of the disk and remote tiers. *)
Ltac case_health self :=
  destruct (read_only (cache_dir self)) eqn:?; simpl;
  destruct (unavailable (firestore_client self)) eqn:?; simpl.



(** *** Degraded tiers *)

(** A record of the disk tier that cannot be read or does not restore to an
    entry counts as absent: [load] goes on to the remote tier. *)
Lemma load_skips_corrupt_disk (now : datetime) (self : CacheStore) (city : string) :
  present_and_valid now self (memory_store self !! _key city) = false ->
  CacheSpec.disk_entry self (_key city) = None ->
  exists self',
    load now self city =
    Ok (if present_and_valid now self (CacheSpec.firestore_entry self (_key city))
        then CacheSpec.firestore_entry self (_key city) else None, self').
Proof.
  intros Hm Hd. rewrite load_eq. cbv zeta. rewrite Hm, Hd.
  destruct (CacheSpec.firestore_entry self (_key city)) as [e |]; cbn [present_and_valid].
  - destruct (_is_valid now self e); eauto.
  - eauto.
Qed.

(** A [save] succeeds and returns the entry written to memory, whether or
    not the disk and remote writes fail. *)
Lemma save_ok (now : datetime) (self : CacheStore) (city : string)
    (events : list json) (metadata : option pydict) :
  exists self',
    save now self city events metadata =
    Ok (mk_entry city events now (default [] metadata), self')
    /\ memory_store self' !! _key city = Some (mk_entry city events now (default [] metadata)).
Proof.
  rewrite save_eq. cbv zeta. eexists. split; [reflexivity |].
  case_health self; apply lookup_insert_eq.
Qed.

(** C7, where it fails. [invalidate] unlinks the disk file outside any
    [try]: when the unlink raises, the [OSError] leaves the store. *)
Theorem invalidate_raises_on_failed_unlink (self : CacheStore) (city : string) :
  read_only (cache_dir self) = true ->
  is_Some (files (cache_dir self) !! _key city) ->
  invalidate self city = Raise OSError.
Proof.
  intros Hro Hfile. unfold invalidate, path_exists, unlink. cbv zeta. simpl.
  rewrite bool_decide_eq_true_2 by exact Hfile. rewrite Hro. reflexivity.
Qed.

(** With a writable cache directory [invalidate] returns, the remote tier
    reachable or not. *)
Lemma invalidate_ok (self : CacheStore) (city : string) :
  read_only (cache_dir self) = false ->
  exists self', invalidate self city = Ok self'.
Proof.
  intros Hro. unfold invalidate, unlink, document_delete. cbv zeta.
  set (self1 := set_memory self (delete (_key city) (memory_store self))).
  change (read_only (cache_dir self1)) with (read_only (cache_dir self)).
  rewrite Hro.
  destruct (path_exists self1 (_key city)); subst self1; simpl;
    destruct (unavailable (firestore_client self)); simpl; eauto.
Qed.

(** *** [cleanup] *)

Lemma for_each_fold {A S T : Type} (inj : T -> S) (body : A -> S -> res S)
    (step : T -> A -> T) (xs : list A) (t : T) :
  (forall x t, body x (inj t) = Ok (inj (step t x))) ->
  for_each xs body (inj t) = Ok (inj (foldl step t xs)).
Proof.
  intros Hbody. revert t. induction xs as [| x xs IH]; intros t; [reflexivity |].
  simpl. rewrite Hbody. cbn [mbind res_bind]. apply IH.
Qed.

Section Sweeps.
Context {V : Type}.
Implicit Types m : gmap string V.

Abbreviation keep := CacheSpec.keep.

Lemma lookup_filter_keep (good : V -> bool) m (i : string) :
  filter (fun kv => good kv.2 = true) m !! i = keep good (m !! i).
Proof.
  rewrite map_lookup_filter. destruct (m !! i) as [v |]; [| reflexivity].
  simpl. destruct (good v) eqn:Hg.
  - rewrite option_guard_True by done. reflexivity.
  - rewrite option_guard_False by done. reflexivity.
Qed.

Lemma foldl_delete_lookup (ks : list string) m (i : string) :
  foldl (fun m key => delete key m) m ks !! i =
  if bool_decide (i ∈ ks) then None else m !! i.
Proof.
  revert m. induction ks as [| k ks IH]; intros m.
  - rewrite bool_decide_eq_false_2 by (apply not_elem_of_nil). reflexivity.
  - simpl. rewrite IH. destruct (decide (i = k)) as [-> | Hne].
    + rewrite lookup_delete_eq. rewrite (bool_decide_eq_true_2 (k ∈ k :: ks)) by left.
      case_bool_decide; reflexivity.
    + rewrite lookup_delete_ne by congruence.
      destruct (decide (i ∈ ks)) as [Hin | Hnin].
      * rewrite !bool_decide_eq_true_2; [reflexivity | by right | done].
      * rewrite !bool_decide_eq_false_2; [reflexivity | | done].
        intros [? | ?]%elem_of_cons; done.
Qed.

(** The memory sweep: deleting the expired keys leaves the valid entries. *)
Lemma delete_expired_keys (good : V -> bool) m :
  foldl (fun m key => delete key m) m
        (filter (fun kv => good kv.2 = false) (map_to_list m)).*1
  = filter (fun kv => good kv.2 = true) m.
Proof.
  apply map_eq. intros i. rewrite foldl_delete_lookup, lookup_filter_keep.
  destruct (m !! i) as [v |] eqn:Hi; simpl.
  - destruct (good v) eqn:Hg.
    + rewrite bool_decide_eq_false_2; [reflexivity |].
      intros [[k v'] [-> [Hbad Hin%elem_of_map_to_list]%list_elem_of_filter]]%list_elem_of_fmap.
      simpl in *. congruence.
    + rewrite bool_decide_eq_true_2; [reflexivity |].
      apply list_elem_of_fmap. exists (i, v). split; [reflexivity |].
      apply list_elem_of_filter. split; [exact Hg | by apply elem_of_map_to_list].
  - case_bool_decide; reflexivity.
Qed.

(** One step of the disk sweep: the file under [k] goes unless it is good. *)
Definition file_step (good : V -> bool) m (k : string) : gmap string V :=
  match m !! k with
  | Some v => if good v then m else delete k m
  | None => m
  end.

Lemma file_step_lookup (good : V -> bool) m (k i : string) :
  file_step good m k !! i = if bool_decide (i = k) then keep good (m !! i) else m !! i.
Proof.
  unfold file_step. case_bool_decide as Hik.
  - subst i. destruct (m !! k) as [v |] eqn:Hk; simpl; [| by rewrite Hk].
    destruct (good v); [exact Hk | apply lookup_delete_eq].
  - destruct (m !! k) as [v |]; [| reflexivity].
    destruct (good v); [reflexivity | by apply lookup_delete_ne].
Qed.

Lemma keep_keep (good : V -> bool) (o : option V) : keep good (keep good o) = keep good o.
Proof. destruct o as [v |]; [| reflexivity]. simpl. destruct (good v) eqn:Hg; simpl; by rewrite ?Hg. Qed.

Lemma foldl_file_step_lookup (good : V -> bool) (ks : list string) m (i : string) :
  foldl (file_step good) m ks !! i =
  if bool_decide (i ∈ ks) then keep good (m !! i) else m !! i.
Proof.
  revert m. induction ks as [| k ks IH]; intros m.
  - rewrite bool_decide_eq_false_2 by (apply not_elem_of_nil). reflexivity.
  - simpl. rewrite IH, file_step_lookup.
    destruct (decide (i = k)) as [-> | Hne].
    + rewrite (bool_decide_eq_true_2 (k = k)) by reflexivity.
      rewrite (bool_decide_eq_true_2 (k ∈ k :: ks)) by left.
      rewrite keep_keep. case_bool_decide; reflexivity.
    + rewrite (bool_decide_eq_false_2 (i = k)) by exact Hne.
      destruct (decide (i ∈ ks)) as [Hin | Hnin].
      * rewrite !bool_decide_eq_true_2; [reflexivity | by right | done].
      * rewrite !bool_decide_eq_false_2; [reflexivity | | done].
        intros [? | ?]%elem_of_cons; done.
Qed.

Lemma sweep_files (good : V -> bool) m :
  foldl (file_step good) m (map_to_list m).*1 = filter (fun kv => good kv.2 = true) m.
Proof.
  apply map_eq. intros i. rewrite foldl_file_step_lookup, lookup_filter_keep.
  case_bool_decide as Hin; [reflexivity |].
  destruct (m !! i) as [v |] eqn:Hi; [| reflexivity].
  exfalso. apply Hin. apply list_elem_of_fmap. exists (i, v).
  split; [reflexivity | by apply elem_of_map_to_list].
Qed.

(** One step of the remote sweep: the document goes unless its snapshot is
    good. *)
Definition doc_step (good : V -> bool) m (kv : string * V) : gmap string V :=
  if good kv.2 then m else delete kv.1 m.

Lemma foldl_doc_step_lookup (good : V -> bool) (l : list (string * V)) m0 m (i : string) :
  (forall k v, (k, v) ∈ l -> m0 !! k = Some v) ->
  foldl (doc_step good) m l !! i =
  match m0 !! i with
  | Some v => if bool_decide (i ∈ l.*1) && negb (good v) then None else m !! i
  | None => m !! i
  end.
Proof.
  revert m. induction l as [| [k v] l IH]; intros m Hl.
  - simpl. destruct (m0 !! i); reflexivity.
  - cbn [foldl]. rewrite fmap_cons. cbn [fst].
    rewrite IH by (intros; apply Hl; by right).
    pose proof (Hl k v ltac:(left)) as Hk.
    unfold doc_step. cbn [fst snd].
    destruct (decide (i = k)) as [-> | Hne].
    + rewrite Hk. rewrite (bool_decide_eq_true_2 (k ∈ k :: l.*1)) by left.
      destruct (good v); simpl.
      * rewrite andb_false_r. reflexivity.
      * rewrite andb_true_r, lookup_delete_eq. case_bool_decide; reflexivity.
    + assert (bool_decide (i ∈ k :: l.*1) = bool_decide (i ∈ l.*1)) as ->.
      { apply bool_decide_ext. rewrite elem_of_cons. split; [intros [? | ?]; done | by right]. }
      destruct (good v); [reflexivity |].
      rewrite lookup_delete_ne by congruence. reflexivity.
Qed.

Lemma sweep_docs (good : V -> bool) m :
  foldl (doc_step good) m (map_to_list m) = filter (fun kv => good kv.2 = true) m.
Proof.
  apply map_eq. intros i.
  rewrite (foldl_doc_step_lookup good _ m) by (intros; by apply elem_of_map_to_list).
  rewrite lookup_filter_keep.
  destruct (m !! i) as [v |] eqn:Hi; [| reflexivity]. simpl.
  rewrite bool_decide_eq_true_2.
  - destruct (good v); reflexivity.
  - apply list_elem_of_fmap. exists (i, v). split; [reflexivity | by apply elem_of_map_to_list].
Qed.

End Sweeps.

Lemma present_and_valid_fresh (now : datetime) (self : CacheStore) (o : option CacheEntry) :
  present_and_valid now self o = CacheSpec.fresh now (ttl self) o.
Proof. destruct o; reflexivity. Qed.

Lemma from_dict_restore (data : json) : from_dict data = Ok (CacheSpec.restore data).
Proof. unfold CacheSpec.restore. destruct (from_dict_ok data) as [r ->]. reflexivity. Qed.

(** The body of the disk sweep, on a store whose directory holds [m]. *)
Lemma cleanup_disk_body (now : datetime) (ttl0 : Z) (ro : bool) (fc : Firestore)
    (mem : gmap string CacheEntry) (key : string) (m : gmap string disk_file) :
  let self := mk_store ttl0 (mk_disk m ro) fc mem in
  (entry ← _load_from_disk self key;
   if negb (present_and_valid now self entry) then
     try_except (unlink self key)
                (fun e => match e with OSError => Ok self | _ => Raise e end)
   else Ok self)
  = Ok (mk_store ttl0
          (mk_disk (if ro then m
                    else file_step (fun f => CacheSpec.fresh now ttl0 (CacheSpec.restore_file f))
                                   m key) ro)
          fc mem).
Proof.
  intros self. rewrite _load_from_disk_eq. cbn [mbind res_bind].
  rewrite present_and_valid_fresh. subst self.
  unfold CacheSpec.disk_entry, unlink, path_exists, file_step. simpl.
  destruct (m !! key) as [f |] eqn:Hk.
  - change (match f with Unreadable => None | Content data => CacheSpec.restore data end)
      with (CacheSpec.restore_file f).
    destruct (CacheSpec.fresh now ttl0 (CacheSpec.restore_file f)); simpl.
    + destruct ro; reflexivity.
    + destruct ro; [reflexivity |].
      try rewrite bool_decide_eq_true_2 by eauto. reflexivity.
  - simpl. destruct ro; [reflexivity |].
    try rewrite bool_decide_eq_false_2 by (intros [? ?]; discriminate). reflexivity.
Qed.

(** The body of the remote sweep, on a store whose collection holds [m]. *)
Lemma cleanup_firestore_body (now : datetime) (ttl0 : Z) (d : Disk)
    (mem : gmap string CacheEntry) (doc : string * list (string * json))
    (m : gmap string (list (string * json))) :
  let self := mk_store ttl0 d (mk_firestore m false) mem in
  (entry ← from_dict (JObj doc.2);
   if negb (present_and_valid now self entry)
   then document_delete self doc.1
   else Ok self)
  = Ok (mk_store ttl0 d
          (mk_firestore
             (doc_step (fun data => CacheSpec.fresh now ttl0 (CacheSpec.restore (JObj data)))
                       m doc) false)
          mem).
Proof.
  intros self. rewrite from_dict_restore. cbn [mbind res_bind].
  rewrite present_and_valid_fresh. subst self. unfold doc_step, document_delete. simpl.
  destruct (CacheSpec.fresh now ttl0 (CacheSpec.restore (JObj doc.2))); reflexivity.
Qed.

(** [cleanup] never raises, and leaves the swept store. *)
Lemma cleanup_eq (now : datetime) (self : CacheStore) :
  cleanup now self = Ok (CacheSpec.swept now self).
Proof.
  destruct self as [ttl0 [fs ro] [docs un] mem].
  unfold cleanup, CacheSpec.swept. cbv zeta. simpl.
  change (fun kv : string * CacheEntry =>
            _is_valid now (mk_store ttl0 (mk_disk fs ro) (mk_firestore docs un) mem) kv.2
            = false)
    with (fun kv : string * CacheEntry => CacheSpec.young now ttl0 kv.2 = false).
  rewrite (delete_expired_keys (CacheSpec.young now ttl0)).
  unfold set_memory. simpl.
  rewrite (for_each_fold
             (fun m => mk_store ttl0 (mk_disk m ro) (mk_firestore docs un) _)
             _
             (fun m key =>
                if ro then m
                else file_step (fun f => CacheSpec.fresh now ttl0 (CacheSpec.restore_file f))
                               m key))
    by (intros key m; apply cleanup_disk_body).
  cbn [mbind res_bind].
  unfold collection_get. simpl.
  destruct un; simpl.
  - f_equal. f_equal. f_equal. destruct ro; [| apply sweep_files].
    clear. induction ((map_to_list fs).*1) as [| k ks IH]; [reflexivity | exact IH].
  - rewrite (for_each_fold
               (fun m => mk_store ttl0 _ (mk_firestore m false) _)
               _
               (doc_step (fun data => CacheSpec.fresh now ttl0 (CacheSpec.restore (JObj data)))))
      by (intros doc m; apply cleanup_firestore_body).
    simpl. rewrite sweep_docs. f_equal. f_equal. f_equal.
    destruct ro; [| apply sweep_files].
    clear. induction ((map_to_list fs).*1) as [| k ks IH]; [reflexivity | exact IH].
Qed.



End WithBuiltins.
End CacheFacts.

(** ** The cache store on concrete stores *)

Module CacheExamples.
Import Cache.
#[local] Existing Instance Py.model_builtins.

Definition art_walk : CacheEntry :=
  mk_entry "San Francisco" [JObj [("title", JStr "Art Walk")]] Fake.noon [].

(** A store of ttl six hours whose only copy of [art_walk] is on disk. *)
Definition disk_only : CacheStore :=
  mk_store (Fake.hours 6)
    (mk_disk {[ "san_francisco" := Content (JObj (to_dict art_walk)) ]} false)
    (mk_firestore ∅ false) ∅.

(** A store whose cache directory holds the file of [art_walk] and has
    become read-only. *)
Definition read_only_disk : CacheStore :=
  mk_store (Fake.hours 6)
    (mk_disk {[ "san_francisco" := Content (JObj (to_dict art_walk)) ]} true)
    (mk_firestore ∅ false) ∅.



(** [test_cache_store_save_and_load] *)
Example test_cache_store_save_and_load :
  match save Fake.noon (Fake.empty_store (Fake.hours 6)) "San Francisco"
             [JObj [("title", JStr "Art Walk")]] None with
  | Ok (_, store) =>
      match load Fake.one_pm store "San Francisco" with
      | Ok (Some loaded, _) =>
          events loaded = [JObj [("title", JStr "Art Walk")]]
          /\ city loaded = "San Francisco"
          /\ (d ← event_cache (firestore_client store) !! "san_francisco";
              Py.lookup d "count") = Some (JInt 1)
      | _ => False
      end
  | Raise _ => False
  end.
Proof. vm_compute. repeat split; reflexivity. Qed.

(** [test_cache_store_respects_ttl] *)
Example test_cache_store_respects_ttl :
  match save Fake.noon (Fake.empty_store 0) "New York"
             [JObj [("title", JStr "Concert")]] None with
  | Ok (_, store) =>
      match load Fake.noon store "New York", cleanup Fake.noon store with
      | Ok (None, _), Ok store' =>
          files (cache_dir store') = ∅ /\ event_cache (firestore_client store') = ∅
      | _, _ => False
      end
  | Raise _ => False
  end.
Proof. vm_compute. repeat split; reflexivity. Qed.

(** [_key] folds case and maps spaces and slashes to underscores. *)
Example _key_examples :
  _key "San Francisco" = "san_francisco" /\ _key "san francisco" = "san_francisco"
  /\ _key "san_francisco" = "san_francisco" /\ _key "Winston/Salem" = "winston_salem".
Proof. repeat split; reflexivity. Qed.

Lemma from_dict_to_dict_roundtrip_witness :
  from_dict (JObj (to_dict art_walk)) = Ok (Some art_walk)
  /\ Py.lookup (to_dict art_walk) "count" = Some (JInt 1).
Proof.
  destruct (CacheFacts.from_dict_to_dict_roundtrip PyFacts.model_builtins_laws art_walk)
    as [Hround Hcount].
  split; [apply Hround; reflexivity | exact Hcount].
Defined.


Lemma invalidate_raises_on_failed_unlink_witness :
  invalidate read_only_disk "San Francisco" = Raise OSError.
Proof.
  apply CacheFacts.invalidate_raises_on_failed_unlink.
  - reflexivity.
  - exists (Content (JObj (to_dict art_walk))). reflexivity.
Defined.


End CacheExamples.

(** ** The chat service *)

Module ChatFacts.
Import Chat.

Section WithServices.
Context {B : Py.Builtins} {S : Services}.

(** *** The history window of the extractor *)



Lemma role_in_user_assistant_hashable (role : json) :
  match role with JArr _ | JObj _ => False | _ => True end ->
  exists b, role_in_user_assistant role = Ok b.
Proof. destruct role; simpl; intros H; try contradiction; eauto. Qed.









(** *** Running the service *)

Abbreviation logged := ChatSpec.logged.

Lemma logged_nil (w : World) : logged w [] = w.
Proof. destruct w. unfold ChatSpec.logged. simpl. by rewrite app_nil_r. Qed.

Lemma logged_logged (w : World) (cs cs' : list call) :
  logged (logged w cs) cs' = logged w (cs ++ cs').
Proof. unfold ChatSpec.logged. simpl. by rewrite app_assoc. Qed.

Lemma record_eq (c : call) (w : World) : record c w = Ok (tt, logged w [c]).
Proof. reflexivity. Qed.

(** The scan for a city is the specification's: the first answer of the
    detector over the user texts in the order given, at the price of one
    detector call per text read. *)
Lemma latest_city_eq (msgs : list json) (w : World) :
  latest_city msgs w =
  Ok (ChatSpec.first_detected (omap ChatSpec.user_text msgs),
      logged w (ChatSpec.scan_calls (omap ChatSpec.user_text msgs))).
Proof.
  revert w. induction msgs as [| message rest IH]; intros w.
  - simpl. rewrite logged_nil. reflexivity.
  - assert (ChatSpec.user_text message = None ->
            latest_city (message :: rest) w = latest_city rest w ->
            latest_city (message :: rest) w =
            Ok (ChatSpec.first_detected (omap ChatSpec.user_text (message :: rest)),
                logged w (ChatSpec.scan_calls (omap ChatSpec.user_text (message :: rest)))))
      as Hskip.
    { intros Hnone ->. cbn [omap list_omap]. rewrite Hnone. apply IH. }
    destruct message as [| | | | | | m]; try (apply Hskip; reflexivity).
    destruct (Py.get m "role") as [| | | | role | |] eqn:Hrole;
      try (apply Hskip; simpl; rewrite Hrole; reflexivity).
    destruct (Py.get m "content") as [| | | | content | |] eqn:Hcontent;
      try (apply Hskip; simpl; rewrite Hrole, Hcontent; reflexivity).
    destruct (String.eqb role "user") eqn:Huser;
      [| apply Hskip; simpl; rewrite Hrole, Hcontent, Huser; reflexivity].
    cbn [omap list_omap]. change (list_omap ?f ?l) with (omap f l).
    assert (ChatSpec.user_text (JObj m) = Some content) as ->
      by (simpl; rewrite Hrole, Hcontent, Huser; reflexivity).
    simpl. rewrite Hrole, Hcontent, Huser. unfold bind at 1. rewrite record_eq.
    destruct (truthy (extract_location_from_query content)); [reflexivity |].
    rewrite IH, logged_logged. reflexivity.
Qed.

Lemma fill_gap_merged (stored extracted : option string) :
  fill_gap stored extracted = ChatSpec.merged stored extracted.
Proof.
  unfold fill_gap, ChatSpec.merged.
  destruct (truthy stored), (concrete extracted); reflexivity.
Qed.

Abbreviation merged_preferences := ChatSpec.merged_preferences.

Lemma _extract_preferences_eq (request : ChatRequest.t)
    (stored_preferences : StoredPreferences.t) (history : ConversationHistory)
    (w : World) :
  _extract_preferences request stored_preferences history w =
  match combined_history request history with
  | Raise e => Raise e
  | Ok window =>
      Ok (merged_preferences request stored_preferences history
            (extract_user_preferences (ChatRequest.message request) window),
          logged w (extract_user_preferences_call (ChatRequest.message request) window
                    :: ChatSpec.scan_calls (ChatSpec.scanned_texts request history)))
  end.
Proof.
  unfold _extract_preferences, bind at 1, lift.
  destruct (combined_history request history) as [window | e]; [| reflexivity].
  unfold bind at 1. rewrite record_eq. unfold bind at 1. rewrite latest_city_eq.
  unfold ret, ChatSpec.merged_preferences, ChatSpec.scanned_texts.
  rewrite !fill_gap_merged, logged_logged. reflexivity.
Qed.



(** *** The preferences read from the store *)

(** A field of the stored preferences after one more recorded value: what it
    held if that was set, else the recorded value if there is one. *)
Definition upd (current recorded : option string) : option string :=
  if truthy current then current
  else match recorded with
       | Some s => Some s
       | None => current
       end.

Definition value_recorded (v : json) : option string :=
  match v with
  | JStr s =>
      if Str.nonempty s && negb (String.eqb (Str.lower s) "none") then Some s else None
  | _ => None
  end.

Lemma upd_none (current : option string) : upd current None = current.
Proof. unfold upd. destruct (truthy current); reflexivity. Qed.


Lemma record_field_readable (v : json) (current : option string) :
  ChatSpec.string_or_falsy v ->
  record_field v current = Ok (upd current (value_recorded v)).
Proof.
  intros Hv. unfold record_field, upd.
  destruct v as [| b | n | q | s | xs | kvs]; simpl in Hv |- *;
    try (rewrite Hv; destruct (truthy current); reflexivity);
    try (destruct (truthy current); reflexivity).
  destruct (Str.nonempty s); simpl; [| destruct (truthy current); reflexivity].
  destruct (negb (String.eqb (Str.lower s) "none")), (truthy current); reflexivity.
Qed.



(** One readable message updates each field by what it recorded, and stops
    the loop only when the four fields are set. *)
Lemma absorb_message_readable (message : json) (stored stored' : StoredPreferences.t)
    (h h' : ConversationHistory) (c : control) :
  ChatSpec.readable message ->
  absorb_message message stored h = (stored', h', c) ->
  stored' =
  StoredPreferences.mk
    (upd (StoredPreferences.location stored) (ChatSpec.recorded "location" message))
    (upd (StoredPreferences.event_type stored) (ChatSpec.recorded "event_type" message))
    (upd (StoredPreferences.date stored) (ChatSpec.recorded "date" message))
    (upd (StoredPreferences.time stored) (ChatSpec.recorded "time" message))
  /\ (c = Stop -> is_complete stored' = true).
Proof.
  intros [Hrole Hprefs] H. destruct stored as [loc ety dat tim].
  unfold absorb_message in H.
  destruct message as [| | | | | | m];
    try (injection H as <- <- <-; simpl; rewrite !upd_none; split;
         [reflexivity | discriminate]).
  simpl in Hrole, Hprefs.
  destruct (role_in_user_assistant_hashable _ Hrole) as [known Hknown].
  rewrite Hknown in H. unfold ChatSpec.recorded.
  destruct (Py.get m "extracted_preferences") as [| | | | | | prefs];
    try (injection H as <- <- <-; simpl; rewrite !upd_none; split;
         [reflexivity | discriminate]).
  destruct Hprefs as (Hloc & Hety & Hdat & Htim).
  rewrite (record_field_readable _ _ Hloc), (record_field_readable _ _ Hety),
    (record_field_readable _ _ Hdat), (record_field_readable _ _ Htim) in H.
  fold (value_recorded (Py.get prefs "location")).
  fold (value_recorded (Py.get prefs "event_type")).
  fold (value_recorded (Py.get prefs "date")).
  fold (value_recorded (Py.get prefs "time")).
  injection H as <- <- <-. split; [reflexivity |].
  simpl. destruct (is_complete _); [reflexivity | discriminate].
Qed.




(** *** The preference merge *)



(** *** The stages of [handle_chat] *)

Lemma append_assoc (a b c : string) : (a +:+ b) +:+ c = a +:+ (b +:+ c).
Proof.
  induction a as [| x a IH]; [reflexivity |].
  change (String x ((a +:+ b) +:+ c) = String x (a +:+ (b +:+ c))).
  f_equal. exact IH.
Qed.

Lemma contains_append_l (a s needle : string) :
  Str.contains s needle -> Str.contains (a +:+ s) needle.
Proof.
  intros (before & after & ->). exists (a +:+ before), after. by rewrite append_assoc.
Qed.

Lemma contains_append_r (s b needle : string) :
  Str.contains s needle -> Str.contains (s +:+ b) needle.
Proof.
  intros (before & after & ->). exists before, (after +:+ b).
  by rewrite !append_assoc.
Qed.


Lemma scan_calls_none (texts : list string) :
  (forall t, t ∈ texts -> truthy (extract_location_from_query t) = false) ->
  ChatSpec.scan_calls texts = extract_location_from_query_call <$> texts.
Proof.
  induction texts as [| text rest IH]; intros Hall; [reflexivity |].
  simpl. rewrite (Hall text) by left. f_equal. apply IH. intros t Ht. apply Hall. by right.
Qed.

Lemma _determine_city_eq (request : ChatRequest.t)
    (extracted_preferences : UserPreferences.t) (stored_location : option string)
    (w : World) :
  _determine_city request extracted_preferences stored_location w =
  if concrete (UserPreferences.location extracted_preferences) then
    Ok (Str.lower (default "" (UserPreferences.location extracted_preferences)), true,
        extracted_preferences, w)
  else
    let query_city := extract_location_from_query (ChatRequest.message request) in
    let w := logged w [extract_location_from_query_call (ChatRequest.message request)] in
    if truthy query_city then
      Ok (Str.lower (default "" query_city), true,
          set_location extracted_preferences query_city, w)
    else if truthy stored_location then
      Ok (Str.lower (default "" stored_location), true, extracted_preferences, w)
    else Ok ("new york", false, extracted_preferences, w).
Proof.
  unfold _determine_city.
  destruct (concrete (UserPreferences.location extracted_preferences)); [reflexivity |].
  unfold bind, ret. rewrite record_eq. cbv zeta.
  destruct (truthy (extract_location_from_query (ChatRequest.message request)));
    [reflexivity |].
  destruct (truthy stored_location); reflexivity.
Qed.

Lemma on_store_load (now : datetime) (city : string) (w : World) :
  exists entry s,
    Cache.load now (store w) city = Ok (entry, s)
    /\ on_store (fun s => Cache.load now s city) w = Ok (entry, mk_world s (calls w)).
Proof.
  destruct (CacheFacts.load_ok now (store w) city) as [[entry s] Hload].
  exists entry, s. split; [exact Hload |]. unfold on_store. rewrite Hload. reflexivity.
Qed.

Lemma get_cached_events_ok (now : datetime) (city : string) (w : World) :
  exists events w' cs,
    get_cached_events now city w = Ok (events, w')
    /\ calls w' = calls w ++ cs
    /\ (cs = [] \/ cs = [fetch_events_by_city_call city]).
Proof.
  unfold get_cached_events, bind at 1.
  destruct (on_store_load now city w) as (entry & s & _ & ->).
  destruct (from_option Cache.events [] entry) as [| e es].
  - unfold bind at 1. rewrite record_eq.
    destruct (fetch_events_by_city city) as [[| e es] | err].
    + eexists _, _, _. split; [reflexivity |]. split; [reflexivity | by right].
    + unfold bind, on_store, ret. rewrite CacheFacts.save_eq. cbv zeta.
      eexists _, _, _. split; [reflexivity |]. split; [reflexivity | by right].
    + eexists _, _, _. split; [reflexivity |]. split; [reflexivity | by right].
  - eexists _, _, []. split; [reflexivity |]. split; [| by left].
    simpl. by rewrite app_nil_r.
Qed.

Lemma get_cache_age_ok (now : datetime) (city : string) (w : World) :
  exists age w', get_cache_age now city w = Ok (age, w') /\ calls w' = calls w.
Proof.
  unfold get_cache_age, bind at 1.
  destruct (on_store_load now city w) as (entry & s & _ & ->).
  destruct entry; eexists _, _; (split; [reflexivity |]); reflexivity.
Qed.

Lemma _fetch_events_ok (now : datetime) (city : string) (w : World) :
  exists events cache_used cache_age_hours w' cs,
    _fetch_events now city w = Ok (events, cache_used, cache_age_hours, w')
    /\ calls w' = calls w ++ cs
    /\ (cs = [] \/ cs = [fetch_events_by_city_call city]).
Proof.
  unfold _fetch_events, bind at 1.
  destruct (get_cached_events_ok now city w) as (cached & w1 & cs & -> & Hcalls & Hcs).
  destruct (default [] cached) as [| e es] eqn:Hevents.
  - unfold bind, ret. eexists _, _, _, _, cs. split; [reflexivity |]. auto.
  - unfold bind at 1.
    destruct (get_cache_age_ok now city w1) as (age & w2 & -> & Hcalls2).
    unfold ret. eexists _, _, _, _, cs. split; [reflexivity |].
    split; [congruence | exact Hcs].
Qed.


Lemma _rank_events_eq (request : ChatRequest.t) (events : list json)
    (extracted_preferences : UserPreferences.t) (w : World) :
  _rank_events request events extracted_preferences w =
  Ok (intelligent_event_search (ChatRequest.message request) events extracted_preferences,
      logged w [intelligent_event_search_call (ChatRequest.message request) events
                  extracted_preferences]).
Proof. reflexivity. Qed.

Abbreviation conversation_of := ChatSpec.conversation_of.
Abbreviation stored_of := ChatSpec.stored_of.
Abbreviation opening_calls := ChatSpec.opening_calls.
Abbreviation user_turn := ChatSpec.user_turn.
Abbreviation search_and_respond := ChatSpec.search_and_respond.

(** Runs [handle_chat] from the lookup of the stored conversation on: the
    lookup, the extraction with its scan, the save of the user's turn, and
    the choice of the city. *)
Ltac run_from_lookup request :=
  unfold bind at 1; unfold _lookup_stored_preferences;
  unfold bind at 1; rewrite record_eq; unfold ret at 1;
  destruct (stored_of_conversation _) as [stored history];
  unfold bind at 1; rewrite _extract_preferences_eq;
  destruct (combined_history request history) as [window |]; [| reflexivity];
  unfold bind at 1; rewrite record_eq; unfold bind at 1;
  rewrite !logged_logged; cbn [app]; rewrite <- ?app_assoc; cbn [app];
  destruct (_determine_city _ _ _ _) as [[[[city provided] prefs] w0] |];
    [| reflexivity];
  destruct (ChatRequest.is_initial_response request && negb provided); reflexivity.

(** [handle_chat], stage by stage. *)
Lemma handle_chat_eq (now : datetime) (request : ChatRequest.t) (w : World) :
  handle_chat now request w =
  let user_id := ChatRequest.user_id request in
  let anonymous := Str.startswith user_id "user_" in
  if anonymous && check_trial_limit user_id then
    Ok (ChatOutcome.mk trial_message [] false None None None
                       (Some (get_usage user_id)) true "temp",
        logged w [check_trial_limit_call user_id; get_usage_call user_id])
  else
    let usage_stats := if anonymous then Some (increment_usage user_id) else None in
    let conversation_id := conversation_of request in
    let '(stored_preferences, history) := stored_of request in
    match combined_history request history with
    | Raise e => Raise e
    | Ok window =>
        let prefs :=
          merged_preferences request stored_preferences history
            (extract_user_preferences (ChatRequest.message request) window) in
        let w :=
          logged w (opening_calls request
                    ++ extract_user_preferences_call (ChatRequest.message request) window
                    :: ChatSpec.scan_calls (ChatSpec.scanned_texts request history)
                    ++ [save_message_call user_id conversation_id
                          (user_turn now request prefs)]) in
        match _determine_city request prefs
                (StoredPreferences.location stored_preferences) w with
        | Ok (city, location_provided, prefs, w) =>
            if ChatRequest.is_initial_response request && negb location_provided then
              Ok (ChatOutcome.mk location_prompt [] false None (Some prefs) None
                                 usage_stats false conversation_id, w)
            else
              search_and_respond now request conversation_id usage_stats
                                 city location_provided prefs w
        | Raise e => Raise e
        end
    end.
Proof.
  unfold handle_chat, ChatSpec.opening_calls, ChatSpec.stored_of, ChatSpec.conversation_of.
  cbv zeta.
  destruct (Str.startswith (ChatRequest.user_id request) "user_") eqn:Hanon.
  - unfold bind at 1. unfold bind at 1. rewrite record_eq. unfold ret at 1.
    destruct (check_trial_limit (ChatRequest.user_id request)); cbn [andb].
    + unfold bind, ret. rewrite record_eq. rewrite logged_logged. reflexivity.
    + unfold bind at 1. unfold bind at 1. rewrite record_eq. unfold ret at 1.
      unfold bind at 1.
      destruct (truthy (ChatRequest.conversation_id request)).
      * unfold ret at 1. run_from_lookup request.
      * unfold bind at 1. rewrite record_eq. unfold ret at 1. run_from_lookup request.
  - unfold bind at 1. unfold ret at 1. cbn [andb].
    unfold bind at 1. unfold ret at 1. unfold bind at 1.
    destruct (truthy (ChatRequest.conversation_id request)).
    + unfold ret at 1. run_from_lookup request.
    + unfold bind at 1. rewrite record_eq. unfold ret at 1. run_from_lookup request.
Qed.



(** *** The trial gate *)

(** C6. For every request of an anonymous user (id prefixed ["user_"]) whose
    usage has reached the trial limit, [handle_chat] short-circuits: the
    outcome has [trial_exceeded] true, a message that contains the trial
    limit, no recommendations, and the placeholder conversation id; the cache
    store is unchanged and the only calls made are the two usage lookups, so
    nothing is extracted, searched or persisted. *)
Theorem trial_gate_short_circuits (now : datetime) (request : ChatRequest.t) (w : World) :
  Str.startswith (ChatRequest.user_id request) "user_" = true ->
  check_trial_limit (ChatRequest.user_id request) = true ->
  exists outcome w' new,
    handle_chat now request w = Ok (outcome, w')
    /\ ChatOutcome.trial_exceeded outcome = true
    /\ Str.contains (ChatOutcome.message outcome) (Str.of_int trial_limit)
    /\ ChatOutcome.conversation_id outcome = "temp"
    /\ ChatOutcome.recommendations outcome = []
    /\ ChatOutcome.extracted_preferences outcome = None
    /\ store w' = store w
    /\ calls w' = calls w ++ new
    /\ new = [check_trial_limit_call (ChatRequest.user_id request);
              get_usage_call (ChatRequest.user_id request)]
    /\ Forall (fun c => ChatSpec.is_extraction c = false /\ ChatSpec.is_search c = false
                        /\ ChatSpec.is_persistence c = false) new.
Proof.
  intros Hanon Hlimit. rewrite handle_chat_eq. cbv zeta. rewrite Hanon, Hlimit.
  cbn [andb]. eexists _, _, _. split; [reflexivity |].
  split; [reflexivity |]. split.
  { cbn [ChatOutcome.message]. unfold trial_message.
    eexists _, _. reflexivity. }
  repeat (split; [reflexivity |]).
  repeat constructor.
Qed.

(** *** Turns without a location *)

Lemma filter_none {A} (P : A -> Prop) `{!forall x, Decision (P x)} (l : list A) :
  Forall (fun x => ~ P x) l -> filter P l = [].
Proof.
  induction 1 as [| x l Hx _ IH]; [reflexivity |].
  rewrite filter_cons_False by exact Hx. exact IH.
Qed.








(** *** Initial turns without an event type *)



End WithServices.
End ChatFacts.

(** ** The chat service on concrete turns *)

Module ChatExamples.
Import Chat.
#[local] Existing Instance Py.model_builtins.

Definition request (message : string) (history : list json) (initial : bool)
    (user_id : string) : ChatRequest.t :=
  ChatRequest.mk message history "openai" initial user_id None.

Definition turn (role content : string) : json :=
  JObj [("role", JStr role); ("content", JStr content)].

(** A stored user turn whose extraction recorded Boston. *)
Definition boston_turn : json :=
  JObj [("role", JStr "user"); ("content", JStr "I just moved here");
        ("extracted_preferences",
         JObj [("location", JStr "Boston"); ("date", JStr "none");
               ("time", JStr "none"); ("event_type", JStr "none")])].

(** An extractor that finds a concert and no location. *)
Definition concert_guess : UserPreferences.t :=
  UserPreferences.mk (Some "none") (Some "none") (Some "none") (Some "concert").

(** An extractor that finds nothing. *)
Definition no_guess : UserPreferences.t :=
  UserPreferences.mk (Some "none") (Some "none") (Some "none") (Some "none").


Definition chicago_services : Services :=
  Fake.phrase_services ["Chicago"; "Boston"] no_guess [].


Definition w0 : World := Fake.fresh_world (Fake.hours 6).

(** [test_chat_service_returns_recommendations], with the service's own cache
    manager over an event crawler that finds the gallery opening. *)
Example test_chat_service_returns_recommendations :
  match handle_chat
          (S := Fake.services (Some "San Francisco") false []
                  [JObj [("title", JStr "Gallery Opening")]])
          Fake.noon (request "Show me art events in San Francisco" [] true "user_123") w0
  with
  | Ok (outcome, _) =>
      ChatOutcome.trial_exceeded outcome = false
      /\ length (ChatOutcome.recommendations outcome) = 1%nat
      /\ ChatOutcome.message outcome =
         "🎉 Found 1 events in San Francisco that match your search! Check out the recommendations below ↓"
  | Raise _ => False
  end.
Proof. vm_compute. repeat split; reflexivity. Qed.

(** [test_chat_service_respects_trial_limit] *)
Example test_chat_service_respects_trial_limit :
  match handle_chat (S := Fake.services None true [] [])
          Fake.noon (request "hello" [] true "user_999") w0
  with
  | Ok (outcome, _) =>
      ChatOutcome.trial_exceeded outcome = true
      /\ ChatOutcome.conversation_id outcome = "temp"
      /\ ChatOutcome.message outcome =
         "🔒 You've reached your free trial limit of 3 interactions! Please register to continue using our service and keep your conversation history."
  | Raise _ => False
  end.
Proof. vm_compute. repeat split; reflexivity. Qed.





Lemma trial_gate_short_circuits_witness :
  exists outcome w',
    handle_chat (S := Fake.services None true [] []) Fake.noon
                (request "hello" [] true "user_999") w0 = Ok (outcome, w')
    /\ ChatOutcome.trial_exceeded outcome = true
    /\ Str.contains (ChatOutcome.message outcome) "3"
    /\ ChatOutcome.conversation_id outcome = "temp"
    /\ store w' = store w0
    /\ calls w' = [check_trial_limit_call "user_999"; get_usage_call "user_999"].
Proof.
  destruct (ChatFacts.trial_gate_short_circuits (S := Fake.services None true [] [])
              Fake.noon (request "hello" [] true "user_999") w0 eq_refl eq_refl)
    as (outcome & w' & new & Hrun & Htrial & Hmsg & Hid & _ & _ & Hstore & Hcalls & -> & _).
  exists outcome, w'. repeat split; assumption.
Defined.







End ChatExamples.

(** * Further properties *)

Module CacheLaws.
Import Cache CacheTerms.

(** *** The key of a city *)






Section WithBuiltins.
Context {B : Py.Builtins}.

(** *** [load] reads through *)

Lemma _is_valid_settings (now : datetime) (self self' : CacheStore) (e : CacheEntry) :
  ttl self' = ttl self -> _is_valid now self' e = _is_valid now self e.
Proof. unfold _is_valid. by intros ->. Qed.

Lemma load_memory_hit (now : datetime) (self : CacheStore) (city : string) (e : CacheEntry) :
  memory_store self !! _key city = Some e -> _is_valid now self e = true ->
  load now self city = Ok (Some e, self).
Proof.
  intros Hm Hv. rewrite CacheFacts.load_eq. cbv zeta. rewrite Hm. cbn [present_and_valid].
  rewrite Hv. reflexivity.
Qed.

(** What a hit leaves behind. *)
Lemma load_hit (now : datetime) (self self' : CacheStore) (city : string) (e : CacheEntry) :
  load now self city = Ok (Some e, self') ->
  _is_valid now self e = true
  /\ memory_store self' !! _key city = Some e
  /\ same_settings self self'
  /\ (forall k, k <> _key city -> same_at self self' k).
Proof.
  rewrite CacheFacts.load_eq. cbv zeta. unfold same_settings, same_at. intros H.
  destruct (memory_store self !! _key city) as [m |] eqn:Hm; cbn [present_and_valid] in H.
  - destruct (_is_valid now self m) eqn:Hvm.
    + injection H as -> <-. auto 10.
    + repeat match type of H with
             | context [match ?o with Some _ => _ | None => _ end] => destruct o
             | context [if _is_valid now self ?e then _ else _] =>
                 destruct (_is_valid now self e) eqn:?
             end; try discriminate H; injection H as -> <-;
        (split; [assumption |]); simpl;
        destruct (read_only (cache_dir self)) eqn:?; simpl;
        rewrite ?lookup_insert_eq; (split; [reflexivity |]);
        (split; [auto |]); intros k Hk; rewrite ?lookup_insert_ne by congruence; auto.
  - repeat match type of H with
           | context [match ?o with Some _ => _ | None => _ end] => destruct o
           | context [if _is_valid now self ?e then _ else _] =>
               destruct (_is_valid now self e) eqn:?
           end; try discriminate H; injection H as -> <-;
      (split; [assumption |]); simpl;
      destruct (read_only (cache_dir self)) eqn:?; simpl;
      rewrite ?lookup_insert_eq; (split; [reflexivity |]);
      (split; [auto |]); intros k Hk; rewrite ?lookup_insert_ne by congruence; auto.
Qed.

Lemma load_miss (now : datetime) (self self' : CacheStore) (city : string) :
  load now self city = Ok (None, self') -> self' = self.
Proof.
  rewrite CacheFacts.load_eq. cbv zeta. intros H.
  destruct (memory_store self !! _key city) as [m |] eqn:Hm; cbn [present_and_valid] in H;
    repeat match type of H with
           | context [match ?o with Some _ => _ | None => _ end] => destruct o
           | context [if _is_valid now self ?e then _ else _] =>
               destruct (_is_valid now self e) eqn:?
           end; try discriminate H; injection H as <-; reflexivity.
Qed.

(** X2. [load] reads through to memory and writes nothing else.  A miss
    leaves the store as it was.  A hit leaves the entry in memory, so that
    loading again at the same instant returns the same entry and changes
    nothing more; the ttl, the health of the tiers and every other key are
    untouched. *)
Theorem load_reads_through (now : datetime) (self self' : CacheStore) (city : string)
    (r : option CacheEntry) :
  load now self city = Ok (r, self') ->
  match r with
  | None => self' = self
  | Some e =>
      memory_store self' !! _key city = Some e
      /\ load now self' city = Ok (Some e, self')
      /\ same_settings self self'
      /\ (forall k, k <> _key city -> same_at self self' k)
  end.
Proof.
  intros H. destruct r as [e |]; [| by apply load_miss in H].
  destruct (load_hit _ _ _ _ _ H) as (Hv & Hm & Hset & Hother).
  split; [exact Hm |]. split; [| auto].
  apply load_memory_hit; [exact Hm |].
  rewrite (_is_valid_settings now self self') by apply Hset. exact Hv.
Qed.


(** *** [save] writes through *)

(** After a [save] the entry is in memory, and the city loads it while it is
    younger than the ttl. *)
Lemma save_serves_later (now later : datetime) (self : CacheStore) (city : string)
    (events : list json) (metadata : option pydict) :
  let entry := mk_entry city events now (default [] metadata) in
  DT.sub later now < ttl self ->
  exists self',
    save now self city events metadata = Ok (entry, self')
    /\ ttl self' = ttl self
    /\ memory_store self' !! _key city = Some entry
    /\ load later self' city = Ok (Some entry, self').
Proof.
  cbv zeta. intros Hage. rewrite CacheFacts.save_eq. cbv zeta.
  eexists. split; [reflexivity |].
  destruct (read_only (cache_dir self)), (unavailable (firestore_client self)); simpl;
    rewrite ?lookup_insert_eq;
    (split; [reflexivity |]); (split; [reflexivity |]);
    (apply load_memory_hit;
     [simpl; apply lookup_insert_eq | apply CacheFacts._is_valid_lt; exact Hage]).
Qed.

(** X4. [save] returns the entry it builds from its arguments and the clock,
    writes it under the city's key to memory, to the directory when it can
    be written and to Firestore when it can be reached, and touches no other
    key.  Any city with the same key then loads that entry while it is
    younger than the ttl. *)
Theorem save_writes_through (now : datetime) (self : CacheStore) (city : string)
    (events : list json) (metadata : option pydict) :
  let entry := mk_entry city events now (default [] metadata) in
  exists self',
    save now self city events metadata = Ok (entry, self')
    /\ same_settings self self'
    /\ memory_store self' !! _key city = Some entry
    /\ files (cache_dir self') !! _key city =
       (if read_only (cache_dir self) then files (cache_dir self) !! _key city
        else Some (Content (JObj (to_dict entry))))
    /\ event_cache (firestore_client self') !! _key city =
       (if unavailable (firestore_client self)
        then event_cache (firestore_client self) !! _key city
        else Some (to_dict entry))
    /\ (forall k, k <> _key city -> same_at self self' k)
    /\ (forall later city',
          _key city' = _key city -> DT.sub later now < ttl self ->
          load later self' city' = Ok (Some entry, self')).
Proof.
  cbv zeta. rewrite CacheFacts.save_eq. cbv zeta. eexists. split; [reflexivity |].
  unfold same_settings, same_at.
  destruct (read_only (cache_dir self)) eqn:Hro;
    destruct (unavailable (firestore_client self)) eqn:Hun; simpl;
    rewrite ?Hro, ?Hun, ?lookup_insert_eq;
    (split; [auto |]); (split; [reflexivity |]); (split; [reflexivity |]);
    (split; [reflexivity |]);
    (split; [intros k Hk; rewrite ?lookup_insert_ne by congruence; auto |]);
    intros later city' Hkey Hage;
    (apply load_memory_hit;
     [rewrite Hkey; simpl; apply lookup_insert_eq | apply CacheFacts._is_valid_lt; exact Hage]).
Qed.

(** *** [invalidate] *)

Lemma invalidate_eq (self : CacheStore) (city : string) :
  invalidate self city =
  let key := _key city in
  let present := bool_decide (is_Some (files (cache_dir self) !! key)) in
  if present && read_only (cache_dir self) then Raise OSError
  else
    Ok (mk_store (ttl self)
          (mk_disk (delete key (files (cache_dir self))) (read_only (cache_dir self)))
          (mk_firestore
             (if unavailable (firestore_client self) then event_cache (firestore_client self)
              else delete key (event_cache (firestore_client self)))
             (unavailable (firestore_client self)))
          (delete key (memory_store self))).
Proof.
  destruct self as [ttl0 [fs ro] [docs un] mem].
  unfold invalidate, unlink, document_delete, set_memory, set_files, set_docs, path_exists.
  cbv zeta. simpl.
  destruct (fs !! _key city) as [f |] eqn:Hf.
  - rewrite !bool_decide_eq_true_2 by eauto. simpl.
    destruct ro; [reflexivity |]. simpl. destruct un; reflexivity.
  - rewrite !bool_decide_eq_false_2 by (intros [? ?]; discriminate). simpl.
    rewrite (delete_id fs) by exact Hf. destruct un; reflexivity.
Qed.

(** X5. When [invalidate] returns, memory and the directory hold nothing
    under the city's key, nor does Firestore if it could be reached; every
    other key is untouched; and a [load] of the city on the store it leaves
    finds nothing. *)
Theorem invalidate_clears_key (self self' : CacheStore) (city : string) :
  invalidate self city = Ok self' ->
  memory_store self' !! _key city = None
  /\ files (cache_dir self') !! _key city = None
  /\ (unavailable (firestore_client self) = false ->
      event_cache (firestore_client self') !! _key city = None)
  /\ same_settings self self'
  /\ (forall k, k <> _key city -> same_at self self' k)
  /\ (forall now, load now self' city = Ok (None, self')).
Proof.
  rewrite invalidate_eq. cbv zeta.
  destruct (bool_decide _ && read_only (cache_dir self)); [discriminate |].
  intros H. injection H as <-. unfold same_settings, same_at. simpl.
  rewrite !lookup_delete_eq.
  split; [reflexivity |]. split; [reflexivity |].
  split; [intros ->; apply lookup_delete_eq |].
  split; [auto |].
  split.
  { intros k Hk. rewrite !lookup_delete_ne by congruence.
    destruct (unavailable (firestore_client self)); rewrite ?lookup_delete_ne by congruence;
      auto. }
  intros now. rewrite CacheFacts.load_eq. cbv zeta. simpl.
  rewrite lookup_delete_eq. cbn [present_and_valid].
  unfold CacheSpec.disk_entry, CacheSpec.firestore_entry. simpl.
  rewrite lookup_delete_eq.
  destruct (unavailable (firestore_client self)); [reflexivity |].
  rewrite lookup_delete_eq. reflexivity.
Qed.

(** X6. The remote delete of [invalidate] is best effort.  When Firestore
    cannot be reached the document stays, and once Firestore is reachable
    again a [load] brings the invalidated entry back from it, as long as it
    is younger than the ttl. *)
Theorem invalidate_leaves_unreachable_copy (L : Py.Laws B) (now : datetime)
    (self : CacheStore) (city : string) (entry : CacheEntry) :
  unavailable (firestore_client self) = true ->
  read_only (cache_dir self) = false ->
  event_cache (firestore_client self) !! _key city = Some (to_dict entry) ->
  DT.valid (cached_at entry) = true ->
  DT.sub now (cached_at entry) < ttl self ->
  exists self' self'',
    invalidate self city = Ok self'
    /\ load now self' city = Ok (None, self')
    /\ load now (reconnected self') city = Ok (Some entry, self'').
Proof.
  intros Hun Hro Hdoc Hvalid Hage.
  rewrite invalidate_eq. cbv zeta. rewrite Hro, Hun, andb_false_r.
  eexists _, _. split; [reflexivity |].
  split.
  - rewrite CacheFacts.load_eq. cbv zeta. simpl. rewrite lookup_delete_eq.
    cbn [present_and_valid]. unfold CacheSpec.disk_entry, CacheSpec.firestore_entry. simpl.
    rewrite lookup_delete_eq. reflexivity.
  - rewrite CacheFacts.load_eq. cbv zeta. unfold reconnected. simpl.
    rewrite lookup_delete_eq. cbn [present_and_valid].
    unfold CacheSpec.disk_entry, CacheSpec.firestore_entry. simpl.
    rewrite lookup_delete_eq, Hdoc. unfold CacheSpec.restore.
    rewrite CacheFacts.from_dict_to_dict by assumption.
    assert (_is_valid now
              (mk_store (ttl self)
                 (mk_disk (delete (_key city) (files (cache_dir self))) false)
                 (mk_firestore (event_cache (firestore_client self)) false)
                 (delete (_key city) (memory_store self))) entry = true) as ->.
    { apply CacheFacts._is_valid_lt. exact Hage. }
    reflexivity.
Qed.

(** *** [stats] *)

Import CacheStats.







End WithBuiltins.
End CacheLaws.

Module CacheManagerFacts.
Import Chat.
Local Open Scope chat_scope.

Section WithServices.
Context {B : Py.Builtins} {S : Services}.

Abbreviation logged := ChatSpec.logged.

(** [get_cached_events] as a function of what [load] and the crawler
    answer. *)
Lemma get_cached_events_eq (now : datetime) (city : string) (w : World) :
  get_cached_events now city w =
  match Cache.load now (store w) city with
  | Raise e => Raise e
  | Ok (entry, s) =>
      match from_option Cache.events [] entry with
      | (_ :: _) as events => Ok (Some events, mk_world s (calls w))
      | [] =>
          let asked := calls w ++ [fetch_events_by_city_call city] in
          match fetch_events_by_city city with
          | Ok ((_ :: _) as events) =>
              match Cache.save now s city events None with
              | Ok (_, s') => Ok (Some events, mk_world s' asked)
              | Raise e => Raise e
              end
          | _ => Ok (None, mk_world s asked)
          end
      end
  end.
Proof.
  unfold get_cached_events, bind at 1, on_store at 1.
  destruct (Cache.load now (store w) city) as [[entry s] | e]; [| reflexivity].
  destruct (from_option Cache.events [] entry) as [| ev evs]; [| reflexivity].
  unfold bind at 1. rewrite ChatFacts.record_eq. cbv zeta.
  destruct (fetch_events_by_city city) as [[| ev evs] | e]; try reflexivity.
  unfold bind, on_store, ret. simpl.
  destruct (Cache.save now s city (ev :: evs) None) as [[entry' s'] | e]; reflexivity.
Qed.

(** A valid entry with events in memory is served as it is. *)
Lemma get_cached_events_memory_hit (now : datetime) (city : string) (w : World)
    (e : Cache.CacheEntry) :
  Cache.memory_store (store w) !! Cache._key city = Some e ->
  Cache._is_valid now (store w) e = true ->
  Cache.events e <> [] ->
  get_cached_events now city w = Ok (Some (Cache.events e), w).
Proof.
  intros Hm Hv Hev. rewrite get_cached_events_eq.
  rewrite (CacheLaws.load_memory_hit now (store w) city e Hm Hv). simpl.
  destruct (Cache.events e) as [| ev evs]; [congruence |]. by destruct w.
Qed.


(** X10. Events that [load] finds are served from the cache: the crawler is
    not asked and nothing is saved. *)
Theorem cached_events_served_without_crawler (now : datetime) (city : string) (w : World)
    (e : Cache.CacheEntry) (s : Cache.CacheStore) :
  Cache.load now (store w) city = Ok (Some e, s) ->
  Cache.events e <> [] ->
  get_cached_events now city w = Ok (Some (Cache.events e), mk_world s (calls w)).
Proof.
  intros Hload Hev. rewrite get_cached_events_eq, Hload. simpl.
  destruct (Cache.events e) as [| ev evs]; [congruence | reflexivity].
Qed.

(** X11. On a miss the events the crawler returns are saved under the city's
    key: the crawler is asked once, and asking again for the same city while
    the entry is younger than the ttl is answered from the cache, without
    another call of the crawler and without a change of the store. *)
Theorem fetched_events_are_cached (now later : datetime) (city : string) (w : World)
    (entry : option Cache.CacheEntry) (s : Cache.CacheStore) (events : list json) :
  Cache.load now (store w) city = Ok (entry, s) ->
  from_option Cache.events [] entry = [] ->
  fetch_events_by_city city = Ok events ->
  events <> [] ->
  DT.sub later now < Cache.ttl (store w) ->
  exists w',
    get_cached_events now city w = Ok (Some events, w')
    /\ calls w' = calls w ++ [fetch_events_by_city_call city]
    /\ Cache.memory_store (store w') !! Cache._key city =
       Some (Cache.mk_entry city events now [])
    /\ get_cached_events later city w' = Ok (Some events, w').
Proof.
  intros Hload Hnone Hfetch Hev Hage.
  assert (Cache.ttl s = Cache.ttl (store w)) as Httl.
  { destruct entry as [e |].
    - destruct (CacheLaws.load_hit _ _ _ _ _ Hload) as (_ & _ & (Ht & _) & _). exact Ht.
    - apply CacheLaws.load_miss in Hload. by subst s. }
  rewrite get_cached_events_eq, Hload, Hnone, Hfetch. cbv zeta.
  destruct events as [| ev evs]; [congruence |].
  destruct (CacheLaws.save_serves_later now later s city (ev :: evs) None)
    as (s' & Hsave & Httl' & Hmem & Hlater); [lia |].
  rewrite Hsave. eexists. split; [reflexivity |]. split; [reflexivity |].
  split; [exact Hmem |].
  change (ev :: evs) with (Cache.events (Cache.mk_entry city (ev :: evs) now [])) at 1.
  apply get_cached_events_memory_hit; simpl.
  - exact Hmem.
  - apply CacheFacts._is_valid_lt. simpl. lia.
  - discriminate.
Qed.

(** *** [get_cache_age] *)

Lemma get_cache_age_eq (now : datetime) (city : string) (w : World) :
  get_cache_age now city w =
  match Cache.load now (store w) city with
  | Raise e => Raise e
  | Ok (None, s) => Ok (None, mk_world s (calls w))
  | Ok (Some e, s) =>
      let age := Qmake (DT.sub now (Cache.cached_at e)) 3600000000 in
      Ok (Some (if Qnum age <? 0 then Qmake 0 1 else age), mk_world s (calls w))
  end.
Proof.
  unfold get_cache_age, bind, on_store.
  destruct (Cache.load now (store w) city) as [[[e |] s] | err]; reflexivity.
Qed.


(** *** [cache_events] *)

Import CacheManager.

(** X13. [cache_events] always answers [True], even when neither the
    directory nor Firestore takes the write.  Events cached this way are then
    served by [get_cached_events] without a call of the crawler while they
    are younger than the ttl; but caching an empty list caches nothing that
    is ever served: the next [get_cached_events] asks the crawler. *)
Theorem cache_events_then_get (now later : datetime) (city : string)
    (events : list json) (w : World) :
  DT.sub later now < Cache.ttl (store w) ->
  exists w',
    cache_events now city events w = Ok (true, w')
    /\ calls w' = calls w
    /\ match events with
       | _ :: _ => get_cached_events later city w' = Ok (Some events, w')
       | [] =>
           exists r w'',
             get_cached_events later city w' = Ok (r, w'')
             /\ calls w'' = calls w' ++ [fetch_events_by_city_call city]
       end.
Proof.
  intros Hage. unfold cache_events, on_store.
  destruct (CacheLaws.save_serves_later now later (store w) city events None)
    as (s' & Hsave & Httl' & Hmem & Hlater); [exact Hage |].
  rewrite Hsave. eexists. split; [reflexivity |]. split; [reflexivity |].
  destruct events as [| ev evs].
  - rewrite get_cached_events_eq. simpl store.
    rewrite Hlater. simpl. cbv zeta.
    destruct (fetch_events_by_city city) as [[| ev evs] | e].
    + eexists _, _. split; reflexivity.
    + rewrite CacheFacts.save_eq. cbv zeta. eexists _, _. split; reflexivity.
    + eexists _, _. split; reflexivity.
  - change (ev :: evs) with (Cache.events (Cache.mk_entry city (ev :: evs) now [])) at 1.
    apply get_cached_events_memory_hit; simpl.
    + exact Hmem.
    + apply CacheFacts._is_valid_lt. simpl. lia.
    + discriminate.
Qed.

(** *** [cleanup_old_cache] and [get_cache_stats] *)

Lemma cleanup_old_cache_eq (now : datetime) (w : World) :
  cleanup_old_cache now w = Ok (tt, mk_world (CacheSpec.swept now (store w)) (calls w)).
Proof. unfold cleanup_old_cache, on_store. rewrite CacheFacts.cleanup_eq. reflexivity. Qed.

End WithServices.
End CacheManagerFacts.

Module ChatLaws.
Import Chat ChatTerms.
Local Open Scope chat_scope.

(** *** Lists *)

Lemma omap_rev {A C} (f : A -> option C) (l : list A) : omap f (rev l) = rev (omap f l).
Proof.
  induction l as [| x l IH]; [reflexivity |].
  simpl rev. rewrite omap_app, IH. cbn [omap list_omap].
  destruct (f x); simpl; [reflexivity | by rewrite app_nil_r].
Qed.

Lemma foldl_push (T m : list (string * string)) :
  (length m <= 10)%nat ->
  foldl push m T = rev (take (10 - length m) T) ++ m.
Proof.
  revert m. induction T as [| t T IH]; intros m Hm.
  - by rewrite take_nil.
  - cbn [foldl]. unfold push at 2. destruct (length m <? 10)%nat eqn:Hlt.
    + apply Nat.ltb_lt in Hlt. rewrite IH by (simpl; lia).
      replace (10 - length m)%nat with (S (10 - length (t :: m))) by (simpl; lia).
      simpl. rewrite <- app_assoc. reflexivity.
    + apply Nat.ltb_ge in Hlt. rewrite IH by exact Hm.
      replace (10 - length m)%nat with 0%nat by lia. reflexivity.
Qed.

Lemma lower_idem (s : string) : Str.lower (Str.lower s) = Str.lower s.
Proof.
  induction s as [| c r IH]; [reflexivity |]. simpl. f_equal; [| exact IH].
  destruct c as [[] [] [] [] [] [] [] []]; reflexivity.
Qed.

Section WithServices.
Context {B : Py.Builtins} {S : Services}.

Abbreviation logged := ChatSpec.logged.

(** *** The history read from the store *)

Lemma prepend_push (h : ConversationHistory) (r c : string) :
  _window h = 10%nat -> (length (messages h) <= 10)%nat ->
  _window (prepend h r c) = 10%nat
  /\ messages (prepend h r c) = push (messages h) (r, c).
Proof.
  intros Hw Hlen. unfold prepend, push. rewrite Hw. simpl length.
  destruct (10 <? Datatypes.S (length (messages h)))%nat eqn:Hfull; simpl.
  - apply Nat.ltb_lt in Hfull. split; [reflexivity |].
    replace (length (messages h) <? 10)%nat with false by (symmetry; apply Nat.ltb_ge; lia).
    unfold last_n. simpl length.
    replace (Datatypes.S (length (messages h)) - 10)%nat with 1%nat by lia. reflexivity.
  - apply Nat.ltb_ge in Hfull. split; [reflexivity |].
    replace (length (messages h) <? 10)%nat with true by (symmetry; apply Nat.ltb_lt; lia).
    reflexivity.
Qed.

Lemma push_length (m : list (string * string)) (t : string * string) :
  (length m <= 10)%nat -> (length (push m t) <= 10)%nat.
Proof.
  intros Hm. unfold push. destruct (length m <? 10)%nat eqn:Hlt; [| exact Hm].
  apply Nat.ltb_lt in Hlt. simpl. lia.
Qed.

(** One message of the store adds its turn, if it is one, to the history. *)
Lemma absorb_message_history (message : json) (stored stored' : StoredPreferences.t)
    (h h' : ConversationHistory) (c : control) :
  absorb_message message stored h = (stored', h', c) ->
  _window h = 10%nat -> (length (messages h) <= 10)%nat ->
  _window h' = 10%nat
  /\ messages h' =
     match ChatSpec.turn_of message with
     | Some t => push (messages h) t
     | None => messages h
     end.
Proof.
  intros H Hw Hlen. unfold absorb_message in H.
  destruct message as [| | | | | | m]; try (injection H as <- <- <-; auto; fail).
  cbn [ChatSpec.turn_of].
  destruct (Py.get m "role") as [| | | | r | |] eqn:Hrole; cbn [role_in_user_assistant] in H;
    try (injection H as <- <- <-; auto; fail);
    try (destruct (Py.get m "extracted_preferences"); destruct stored;
         repeat match type of H with
                | context [match ?r with Ok _ => _ | Raise _ => _ end] => destruct r
                end; injection H as <- <- <-; auto; fail).
  destruct (Py.get m "content") as [| | | | c0 | |] eqn:Hcontent;
    try (destruct (Py.get m "extracted_preferences"); destruct stored;
         repeat match type of H with
                | context [match ?r with Ok _ => _ | Raise _ => _ end] => destruct r
                end; injection H as <- <- <-; auto; fail).
  destruct (String.eqb r "user" || String.eqb r "assistant") eqn:Hknown.
  - destruct (prepend_push h r c0 Hw Hlen) as [Hw' Hm'].
    destruct (Py.get m "extracted_preferences"); destruct stored;
      repeat match type of H with
             | context [match ?r with Ok _ => _ | Raise _ => _ end] => destruct r
             end; injection H as <- <- <-; auto.
  - destruct (Py.get m "extracted_preferences"); destruct stored;
      repeat match type of H with
             | context [match ?r with Ok _ => _ | Raise _ => _ end] => destruct r
             end; injection H as <- <- <-; auto.
Qed.

(** The loop over the stored messages reads a front part of them and keeps
    the first ten turns it meets. *)
Lemma absorb_messages_history (msgs : list json) (stored : StoredPreferences.t)
    (h : ConversationHistory) :
  _window h = 10%nat -> (length (messages h) <= 10)%nat ->
  exists scanned rest,
    msgs = scanned ++ rest
    /\ messages (absorb_messages msgs stored h).2 =
       foldl push (messages h) (omap ChatSpec.turn_of scanned).
Proof.
  revert stored h. induction msgs as [| msg msgs IH]; intros stored h Hw Hlen.
  - exists [], []. split; reflexivity.
  - cbn [absorb_messages].
    destruct (absorb_message msg stored h) as [[stored' h'] c] eqn:Hstep.
    destruct (absorb_message_history _ _ _ _ _ _ Hstep Hw Hlen) as [Hw' Hm'].
    assert (length (messages h') <= 10)%nat as Hlen'.
    { rewrite Hm'. destruct (ChatSpec.turn_of msg); [by apply push_length | exact Hlen]. }
    destruct c.
    + destruct (IH stored' h' Hw' Hlen') as (scanned & rest & -> & Hmsgs).
      exists (msg :: scanned), rest. split; [reflexivity |].
      rewrite Hmsgs, Hm'. cbn [omap list_omap]. change (list_omap ?f ?l) with (omap f l).
      destruct (ChatSpec.turn_of msg); reflexivity.
    + exists [msg], msgs. split; [reflexivity |]. cbn [snd].
      rewrite Hm'. cbn [omap list_omap]. destruct (ChatSpec.turn_of msg); reflexivity.
Qed.

(** When every message can be read and the preferences stay incomplete, the
    loop reads all of them. *)
Lemma absorb_messages_history_all (msgs : list json) (stored : StoredPreferences.t)
    (h : ConversationHistory) :
  _window h = 10%nat -> (length (messages h) <= 10)%nat ->
  Forall ChatSpec.readable msgs ->
  is_complete (absorb_messages msgs stored h).1 = false ->
  messages (absorb_messages msgs stored h).2 =
  foldl push (messages h) (omap ChatSpec.turn_of msgs).
Proof.
  intros Hw Hlen Hall. revert stored h Hw Hlen.
  induction Hall as [| msg msgs Hmsg _ IH]; intros stored h Hw Hlen Hopen; [reflexivity |].
  cbn [absorb_messages] in Hopen |- *.
  destruct (absorb_message msg stored h) as [[stored' h'] c] eqn:Hstep.
  destruct (absorb_message_history _ _ _ _ _ _ Hstep Hw Hlen) as [Hw' Hm'].
  destruct (ChatFacts.absorb_message_readable _ _ _ _ _ _ Hmsg Hstep) as [_ Hstop].
  assert (length (messages h') <= 10)%nat as Hlen'.
  { rewrite Hm'. destruct (ChatSpec.turn_of msg); [by apply push_length | exact Hlen]. }
  destruct c.
  - rewrite (IH stored' h' Hw' Hlen' Hopen), Hm'.
    cbn [omap list_omap]. change (list_omap ?f ?l) with (omap f l).
    destruct (ChatSpec.turn_of msg); reflexivity.
  - cbn [fst] in Hopen. rewrite (Hstop eq_refl) in Hopen. discriminate Hopen.
Qed.

(** X14. The history [_lookup_stored_preferences] hands on is a most recent
    part of the turns of the stored conversation, in their order, of at most
    ten turns.  It is exactly the last ten when every stored message can be
    read and the stored preferences come out incomplete; the loop stops
    reading older messages as soon as the four preferences are found, so the
    history can be shorter than that. *)
Theorem stored_history_is_recent_suffix (conversation : pydict) (msgs : list json) :
  conversation <> [] ->
  Py.get_default conversation "messages" (JArr []) = JArr msgs ->
  let stored := (stored_of_conversation (Ok (JObj conversation))).1 in
  let history := (stored_of_conversation (Ok (JObj conversation))).2 in
  messages history `suffix_of` omap ChatSpec.turn_of msgs
  /\ (length (messages history) <= 10)%nat
  /\ (Forall ChatSpec.readable msgs -> is_complete stored = false ->
      messages history = last_n 10 (omap ChatSpec.turn_of msgs)).
Proof.
  intros Hne Hmsgs. cbv zeta. unfold stored_of_conversation.
  destruct conversation as [| kv conversation]; [congruence |]. rewrite Hmsgs.
  split; [| split].
  - destruct (absorb_messages_history (rev msgs) no_stored new_history)
      as (scanned & rest & Hsplit & ->); [reflexivity | simpl; lia |].
    rewrite foldl_push by (simpl; lia). simpl length. rewrite app_nil_r.
    assert (msgs = rev rest ++ rev scanned) as ->.
    { rewrite <- rev_app_distr, <- Hsplit, rev_involutive. reflexivity. }
    rewrite omap_app, !omap_rev.
    exists (rev (omap ChatSpec.turn_of rest)
            ++ rev (drop 10 (omap ChatSpec.turn_of scanned))).
    rewrite <- app_assoc.
    rewrite <- (rev_app_distr (take 10 (omap ChatSpec.turn_of scanned))).
    rewrite take_drop. reflexivity.
  - destruct (absorb_messages_history (rev msgs) no_stored new_history)
      as (scanned & rest & Hsplit & ->); [reflexivity | simpl; lia |].
    rewrite foldl_push by (simpl; lia). simpl length. rewrite app_nil_r, length_rev, length_take.
    lia.
  - intros Hall Hopen.
    rewrite absorb_messages_history_all;
      [| reflexivity | simpl; lia | by apply Forall_rev | exact Hopen].
    rewrite foldl_push by (simpl; lia). simpl length. rewrite app_nil_r, omap_rev.
    unfold last_n. rewrite firstn_rev, rev_involutive. reflexivity.
Qed.

(** *** The preferences read from the store *)

Lemma record_field_concrete (value : json) (current : option string) :
  unset_or_concrete current ->
  match record_field value current with
  | Ok field => unset_or_concrete field
  | Raise _ => True
  end.
Proof.
  intros Hcur. unfold record_field.
  destruct (Py.truthy value) eqn:Htruthy; [| exact Hcur].
  destruct value as [| | | | s | |]; try exact I.
  destruct (negb (String.eqb (Str.lower s) "none")) eqn:Hnone; simpl; [| exact Hcur].
  destruct (negb (truthy current)); [| exact Hcur].
  simpl. split; [exact Htruthy |].
  intros Heq. rewrite Heq in Hnone. discriminate Hnone.
Qed.

Lemma absorb_message_concrete (message : json) (stored : StoredPreferences.t)
    (h : ConversationHistory) :
  all_concrete stored -> all_concrete (absorb_message message stored h).1.1.
Proof.
  intros Hall. unfold absorb_message.
  destruct message as [| | | | | | m]; try exact Hall.
  destruct (role_in_user_assistant (Py.get m "role")); [| exact Hall].
  destruct (Py.get m "extracted_preferences") as [| | | | | | prefs]; try exact Hall.
  destruct stored as [loc ety dat tim]. destruct Hall as (Hloc & Hety & Hdat & Htim).
  simpl in Hloc, Hety, Hdat, Htim.
  pose proof (record_field_concrete (Py.get prefs "location") loc Hloc) as Hloc'.
  destruct (record_field (Py.get prefs "location") loc) as [loc' |];
    [| repeat split; assumption].
  pose proof (record_field_concrete (Py.get prefs "event_type") ety Hety) as Hety'.
  destruct (record_field (Py.get prefs "event_type") ety) as [ety' |];
    [| repeat split; assumption].
  pose proof (record_field_concrete (Py.get prefs "date") dat Hdat) as Hdat'.
  destruct (record_field (Py.get prefs "date") dat) as [dat' |];
    [| repeat split; assumption].
  pose proof (record_field_concrete (Py.get prefs "time") tim Htim) as Htim'.
  destruct (record_field (Py.get prefs "time") tim) as [tim' |];
    repeat split; assumption.
Qed.

Lemma absorb_messages_concrete (msgs : list json) (stored : StoredPreferences.t)
    (h : ConversationHistory) :
  all_concrete stored -> all_concrete (absorb_messages msgs stored h).1.
Proof.
  revert stored h. induction msgs as [| msg msgs IH]; intros stored h Hall; [exact Hall |].
  cbn [absorb_messages].
  pose proof (absorb_message_concrete msg stored h Hall) as Hstep.
  destruct (absorb_message msg stored h) as [[stored' h'] c]. simpl in Hstep.
  destruct c; [by apply IH | exact Hstep].
Qed.

(** X15. Whatever the conversation store answers, a raise or messages of any
    shape, each preference [_lookup_stored_preferences] hands on is unset or
    a non-empty string that is not ["none"] in any letter case: the sentinel
    is never taken for a stored value. *)
Theorem stored_preferences_never_hold_none (conversation : res json) :
  let stored := (stored_of_conversation conversation).1 in
  unset_or_concrete (StoredPreferences.location stored)
  /\ unset_or_concrete (StoredPreferences.event_type stored)
  /\ unset_or_concrete (StoredPreferences.date stored)
  /\ unset_or_concrete (StoredPreferences.time stored).
Proof.
  cbv zeta. unfold stored_of_conversation.
  assert (all_concrete no_stored) as Hnone by (repeat split).
  destruct conversation as [[| | | | | | c] |]; try exact Hnone.
  destruct c as [| kv c]; [exact Hnone |].
  destruct (Py.get_default (kv :: c) "messages" (JArr [])); try exact Hnone.
  by apply absorb_messages_concrete.
Qed.

(** *** The city of a turn *)

(** X16. [_determine_city] takes the first location there is among the
    merged preferences, the detector's answer on the message, and the stored
    location, and else New York; the detector is asked only when the
    preferences name no location.  The city it returns is lower-case, and
    [location_provided] is false only for the fallback. *)
Theorem _determine_city_precedence (request : ChatRequest.t)
    (extracted_preferences : UserPreferences.t) (stored_location : option string)
    (w : World) :
  let from_prefs := UserPreferences.location extracted_preferences in
  let from_query := extract_location_from_query (ChatRequest.message request) in
  exists city location_provided prefs' w',
    _determine_city request extracted_preferences stored_location w
    = Ok (city, location_provided, prefs', w')
    /\ Str.lower city = city
    /\ store w' = store w
    /\ Some city =
       (if concrete from_prefs then Str.lower <$> from_prefs
        else if truthy from_query then Str.lower <$> from_query
        else if truthy stored_location then Str.lower <$> stored_location
        else Some "new york")
    /\ location_provided = concrete from_prefs || truthy from_query || truthy stored_location
    /\ calls w' =
       calls w ++ (if concrete from_prefs then []
                   else [extract_location_from_query_call (ChatRequest.message request)])
    /\ prefs' =
       (if negb (concrete from_prefs) && truthy from_query
        then set_location extracted_preferences from_query
        else extracted_preferences).
Proof.
  cbv zeta. rewrite ChatFacts._determine_city_eq. cbv zeta.
  destruct (UserPreferences.location extracted_preferences) as [loc |] eqn:Hloc;
    cbn [concrete].
  - destruct (Str.nonempty loc && negb (String.eqb loc "none")) eqn:Hc.
    + eexists _, _, _, _. split; [reflexivity |]. simpl.
      rewrite lower_idem, app_nil_r. auto 10.
    + destruct (extract_location_from_query (ChatRequest.message request)) as [q |];
        cbn [truthy]; [destruct (Str.nonempty q) |];
        try (eexists _, _, _, _; split; [reflexivity |]; simpl;
             rewrite ?lower_idem; auto 10; fail);
        destruct stored_location as [st |]; cbn [truthy]; [destruct (Str.nonempty st) | | destruct (Str.nonempty st) |];
        eexists _, _, _, _; (split; [reflexivity |]); simpl; rewrite ?lower_idem; auto 10.
  - destruct (extract_location_from_query (ChatRequest.message request)) as [q |];
      cbn [truthy]; [destruct (Str.nonempty q) |];
      try (eexists _, _, _, _; split; [reflexivity |]; simpl;
           rewrite ?lower_idem; auto 10; fail);
      destruct stored_location as [st |]; cbn [truthy]; [destruct (Str.nonempty st) | | destruct (Str.nonempty st) |];
      eexists _, _, _, _; (split; [reflexivity |]); simpl; rewrite ?lower_idem; auto 10.
Qed.

(** *** The recommendations *)

Lemma dict_set_lookup (d : pydict) (k k' : string) (v : json) :
  Py.lookup (dict_set d k v) k' = if String.eqb k k' then Some v else Py.lookup d k'.
Proof.
  induction d as [| [k0 v0] d IH]; simpl.
  - reflexivity.
  - destruct (String.eqb k0 k) eqn:H0; simpl.
    + apply String.eqb_eq in H0. subst k0.
      destruct (String.eqb k k'); reflexivity.
    + destruct (String.eqb k0 k') eqn:H1.
      * apply String.eqb_eq in H1. subst k0.
        rewrite String.eqb_sym in H0. rewrite H0. reflexivity.
      * exact IH.
Qed.

(** X17. [_format_recommendations] makes one recommendation per event, in
    the order of the events.  The recommendation carries the event's own
    keys and values, except that its [source] is ["cached"] or ["realtime"]
    whatever source the event named; its relevance score is the event's, or
    0.5 when the event has none; its explanation names the city in title case
    and the event's title, or ["Unknown Event"].  The call raises exactly when
    some event is not a dict. *)
Theorem _format_recommendations_spec (city : string) (events : list json)
    (cache_used : bool) :
  match _format_recommendations city events cache_used with
  | Ok recommendations => Forall2 (recommends city cache_used) events recommendations
  | Raise _ => Exists (fun event => Py.is_dict event = false) events
  end.
Proof.
  induction events as [| event events IH]; [constructor |].
  cbn [_format_recommendations].
  destruct event as [| | | | | | d]; try (left; reflexivity).
  cbn [Py.as_dict mbind res_bind].
  destruct (_format_recommendations city events cache_used) as [recs | e];
    cbn [mbind res_bind].
  - constructor; [| exact IH]. exists d. simpl.
    split; [reflexivity |]. split; [reflexivity |].
    split; [by rewrite dict_set_lookup |].
    split; [| split; reflexivity].
    intros k Hk. rewrite dict_set_lookup.
    destruct (String.eqb "source" k) eqn:Heq; [| reflexivity].
    apply String.eqb_eq in Heq. congruence.
  - right. exact IH.
Qed.

(** *** The summary of the extraction *)

Lemma append_nil_r (s : string) : s +:+ "" = s.
Proof.
  induction s as [| c s IH]; [reflexivity |].
  change (String c (s +:+ "") = String c s). by rewrite IH.
Qed.

Lemma contains_self (s : string) : Str.contains s s.
Proof. exists "", "". change (s = s +:+ ""). by rewrite append_nil_r. Qed.

Lemma join_contains (sep : string) (parts : list string) (p needle : string) :
  p ∈ parts -> Str.contains p needle -> Str.contains (join sep parts) needle.
Proof.
  intros Hin Hp. induction parts as [| q parts IH]; [by apply elem_of_nil in Hin |].
  apply elem_of_cons in Hin as [<- | Hin].
  - destruct parts as [| q' parts]; [exact Hp |].
    cbn [join]. by apply ChatFacts.contains_append_r.
  - destruct parts as [| q' parts]; [by apply elem_of_nil in Hin |].
    cbn [join]. do 2 apply ChatFacts.contains_append_l. by apply IH.
Qed.

Lemma _build_extraction_summary_eq (prefs : UserPreferences.t) :
  _build_extraction_summary prefs =
  let summary_parts :=
    summary_part "📍" (UserPreferences.location prefs)
    ++ summary_part "📅" (UserPreferences.date prefs)
    ++ summary_part "🕐" (UserPreferences.time prefs)
    ++ summary_part "🎭" (UserPreferences.event_type prefs) in
  match summary_parts with
  | [] => None
  | _ :: _ => Some (join " • " summary_parts)
  end.
Proof. reflexivity. Qed.

Lemma summary_part_length (icon : string) (value : option string) :
  length (summary_part icon value) = length (filter (fun v => concrete v = true) [value]).
Proof.
  unfold summary_part. destruct (concrete value) eqn:Hc.
  - by rewrite filter_cons_True.
  - by rewrite filter_cons_False by congruence.
Qed.

Lemma summary_part_contains (icon value : string) :
  concrete (Some value) = true ->
  exists p, p ∈ summary_part icon (Some value) /\ Str.contains p value.
Proof.
  intros Hc. unfold summary_part. rewrite Hc. eexists. split; [left |].
  do 2 apply ChatFacts.contains_append_l. apply contains_self.
Qed.

(** X18. [_build_extraction_summary] answers nothing exactly when no
    preference is concrete (set and not ["none"]); otherwise its text is made
    of one part per concrete preference, joined by [" • "], and holds the
    value of every concrete preference. *)
Theorem _build_extraction_summary_concrete (prefs : UserPreferences.t) :
  let fields :=
    [UserPreferences.location prefs; UserPreferences.date prefs;
     UserPreferences.time prefs; UserPreferences.event_type prefs] in
  (_build_extraction_summary prefs = None <-> Forall (fun v => concrete v = false) fields)
  /\ (forall summary,
        _build_extraction_summary prefs = Some summary ->
        (exists parts,
           summary = join " • " parts
           /\ length parts = length (filter (fun v => concrete v = true) fields))
        /\ (forall value,
              Some value ∈ fields -> concrete (Some value) = true ->
              Str.contains summary value)).
Proof.
  cbv zeta. rewrite _build_extraction_summary_eq. cbv zeta.
  destruct prefs as [loc dat tim ety].
  cbn [UserPreferences.location UserPreferences.date UserPreferences.time
       UserPreferences.event_type].
  set (parts := summary_part "📍" loc ++ summary_part "📅" dat
                ++ summary_part "🕐" tim ++ summary_part "🎭" ety).
  assert (length parts = length (filter (fun v => concrete v = true) [loc; dat; tim; ety]))
    as Hlen.
  { subst parts. rewrite !length_app, !summary_part_length.
    change [loc; dat; tim; ety] with ([loc] ++ [dat] ++ [tim] ++ [ety]).
    by rewrite !filter_app, !length_app. }
  split.
  - split.
    + intros Hnone. destruct parts as [| p ps]; [| discriminate].
      apply Forall_forall. intros v Hv.
      destruct (concrete v) eqn:Hc; [| reflexivity]. exfalso.
      assert (v ∈ filter (fun v => concrete v = true) [loc; dat; tim; ety]) as Hin
        by (apply list_elem_of_filter; auto).
      destruct (filter _ _); [by apply elem_of_nil in Hin | discriminate Hlen].
    + intros Hall. rewrite ChatFacts.filter_none in Hlen.
      * destruct parts; [reflexivity | discriminate Hlen].
      * eapply Forall_impl; [exact Hall |]. intros v ->. discriminate.
  - intros summary Hsum.
    destruct parts as [| p ps] eqn:Hparts; [discriminate |].
    assert (summary = join " • " (p :: ps)) as -> by congruence.
    split; [eexists; split; [reflexivity | exact Hlen] |].
    intros value Hin Hconc.
    assert (exists icon, summary_part icon (Some value) ⊆ p :: ps) as [icon Hsub].
    { rewrite <- Hparts. subst parts.
      repeat (apply elem_of_cons in Hin as [<- | Hin]);
        [.. | by apply elem_of_nil in Hin]; eexists; intros x Hx;
        rewrite !elem_of_app; eauto. }
    destruct (summary_part_contains icon value Hconc) as (q & Hq & Hcontains).
    eapply join_contains; [apply Hsub, Hq | exact Hcontains].
Qed.

(** *** The usage tracker in a turn *)

Abbreviation usage_calls := (filter (fun c => is_usage c = true)).

Lemma usage_calls_scan (texts : list string) :
  usage_calls (ChatSpec.scan_calls texts) = [].
Proof.
  apply ChatFacts.filter_none.
  induction texts as [| text rest IH]; [constructor |].
  simpl. constructor; [discriminate |].
  destruct (truthy (extract_location_from_query text)); [constructor | exact IH].
Qed.

Lemma usage_calls_opening (request : ChatRequest.t) :
  usage_calls (ChatSpec.opening_calls request) =
  if Str.startswith (ChatRequest.user_id request) "user_"
  then [check_trial_limit_call (ChatRequest.user_id request);
        increment_usage_call (ChatRequest.user_id request)]
  else [].
Proof.
  unfold ChatSpec.opening_calls. cbv zeta.
  destruct (Str.startswith _ _), (truthy _); reflexivity.
Qed.

(** What the tail of a turn leaves when it returns. *)
Lemma search_and_respond_inv (now : datetime) (request : ChatRequest.t)
    (conversation_id : string) (usage_stats : option json)
    (city : string) (location_provided : bool)
    (extracted_preferences : UserPreferences.t) (w w' : World) (outcome : ChatOutcome.t) :
  ChatSpec.search_and_respond now request conversation_id usage_stats city location_provided
                              extracted_preferences w = Ok (outcome, w') ->
  ChatOutcome.usage_stats outcome = usage_stats
  /\ ChatOutcome.trial_exceeded outcome = false
  /\ exists tail, calls w' = calls w ++ tail /\ usage_calls tail = [].
Proof.
  unfold ChatSpec.search_and_respond, bind at 1.
  destruct (ChatFacts._fetch_events_ok now city w)
    as (events & cache_used & age & w1 & fetches & -> & Hcalls & Hfetches).
  unfold bind at 1. rewrite ChatFacts._rank_events_eq. unfold bind at 1, lift.
  destruct (_format_recommendations city _ cache_used) as [recommendations | e];
    [| discriminate].
  unfold bind at 1, _record_assistant_response, bind at 1.
  rewrite !ChatFacts.record_eq. unfold ret. intros H. injection H as <- <-.
  split; [reflexivity |]. split; [reflexivity |].
  eexists. simpl. rewrite Hcalls, <- !app_assoc. split; [reflexivity |].
  destruct Hfetches as [-> | ->]; reflexivity.
Qed.

(** X19. The usage tracker in a turn that returns.  For a registered user
    (an id that does not start with ["user_"]) it is not called at all and
    the outcome carries no usage.  For an anonymous user the limit is checked
    once; then either the turn is refused and the usage read, or the usage is
    incremented once, before anything else, also when the turn only asks for
    the city. *)
Theorem usage_accounting (now : datetime) (request : ChatRequest.t) (w w' : World)
    (outcome : ChatOutcome.t) :
  handle_chat now request w = Ok (outcome, w') ->
  let user_id := ChatRequest.user_id request in
  let anonymous := Str.startswith user_id "user_" in
  exists new,
    calls w' = calls w ++ new
    /\ usage_calls new =
       (if anonymous
        then [check_trial_limit_call user_id;
              if check_trial_limit user_id
              then get_usage_call user_id else increment_usage_call user_id]
        else [])
    /\ ChatOutcome.usage_stats outcome =
       (if anonymous
        then Some (if check_trial_limit user_id
                   then get_usage user_id else increment_usage user_id)
        else None)
    /\ ChatOutcome.trial_exceeded outcome = anonymous && check_trial_limit user_id.
Proof.
  rewrite ChatFacts.handle_chat_eq. cbv zeta.
  destruct (Str.startswith (ChatRequest.user_id request) "user_"
            && check_trial_limit (ChatRequest.user_id request)) eqn:Hgate.
  { apply andb_prop in Hgate as [Hanon Hlimit]. rewrite Hanon, Hlimit.
    intros H. injection H as <- <-. eexists. split; [reflexivity |].
    repeat split; reflexivity. }
  destruct (ChatSpec.stored_of request) as [stored history].
  destruct (combined_history request history) as [window |]; [| discriminate].
  rewrite ChatFacts._determine_city_eq. cbv zeta.
  set (prefs := ChatSpec.merged_preferences request stored history
                  (extract_user_preferences (ChatRequest.message request) window)).
  set (opening := ChatSpec.opening_calls request
                  ++ extract_user_preferences_call (ChatRequest.message request) window
                  :: ChatSpec.scan_calls (ChatSpec.scanned_texts request history)
                  ++ [save_message_call (ChatRequest.user_id request)
                        (ChatSpec.conversation_of request)
                        (ChatSpec.user_turn now request prefs)]).
  set (stats := if Str.startswith (ChatRequest.user_id request) "user_"
                then Some (increment_usage (ChatRequest.user_id request)) else None).
  assert (usage_calls opening
          = if Str.startswith (ChatRequest.user_id request) "user_"
            then [check_trial_limit_call (ChatRequest.user_id request);
                  if check_trial_limit (ChatRequest.user_id request)
                  then get_usage_call (ChatRequest.user_id request)
                  else increment_usage_call (ChatRequest.user_id request)]
            else []) as Hopening.
  { subst opening.
    rewrite filter_app, usage_calls_opening, filter_cons_False by discriminate.
    rewrite filter_app, usage_calls_scan. simpl.
    destruct (Str.startswith _ _); [| reflexivity].
    simpl in Hgate. rewrite Hgate. reflexivity. }
  assert (stats
          = (if Str.startswith (ChatRequest.user_id request) "user_"
             then Some (if check_trial_limit (ChatRequest.user_id request)
                        then get_usage (ChatRequest.user_id request)
                        else increment_usage (ChatRequest.user_id request))
             else None)) as Hstats.
  { subst stats. destruct (Str.startswith _ _); [| reflexivity].
    simpl in Hgate. by rewrite Hgate. }
  clearbody opening stats.
  assert (forall (detects : list call) (city : string) (provided : bool)
                 (prefs' : UserPreferences.t),
            usage_calls detects = [] ->
            (if ChatRequest.is_initial_response request && negb provided
             then Ok (ChatOutcome.mk location_prompt [] false None (Some prefs') None
                        stats false (ChatSpec.conversation_of request),
                      ChatSpec.logged (ChatSpec.logged w opening) detects)
             else ChatSpec.search_and_respond now request (ChatSpec.conversation_of request)
                    stats city provided prefs'
                    (ChatSpec.logged (ChatSpec.logged w opening) detects))
            = Ok (outcome, w') ->
            exists new,
              calls w' = calls w ++ new
              /\ usage_calls new =
                 (if Str.startswith (ChatRequest.user_id request) "user_"
                  then [check_trial_limit_call (ChatRequest.user_id request);
                        if check_trial_limit (ChatRequest.user_id request)
                        then get_usage_call (ChatRequest.user_id request)
                        else increment_usage_call (ChatRequest.user_id request)]
                  else [])
              /\ ChatOutcome.usage_stats outcome =
                 (if Str.startswith (ChatRequest.user_id request) "user_"
                  then Some (if check_trial_limit (ChatRequest.user_id request)
                             then get_usage (ChatRequest.user_id request)
                             else increment_usage (ChatRequest.user_id request))
                  else None)
              /\ ChatOutcome.trial_exceeded outcome = false) as Hrest.
  { intros detects city provided prefs' Hdetects Hrun.
    destruct (ChatRequest.is_initial_response request && negb provided).
    - injection Hrun as <- <-. exists (opening ++ detects).
      split; [unfold ChatSpec.logged; cbn [calls]; by rewrite <- app_assoc |].
      rewrite filter_app, Hopening, Hdetects, app_nil_r.
      split; [reflexivity |]. split; [exact Hstats | reflexivity].
    - destruct (search_and_respond_inv _ _ _ _ _ _ _ _ _ _ Hrun)
        as (Hus & Htrial & tail & Hcalls & Htail).
      exists (opening ++ detects ++ tail).
      split; [rewrite Hcalls; unfold ChatSpec.logged; cbn [calls];
              by rewrite <- !app_assoc |].
      rewrite !filter_app, Hopening, Hdetects, Htail, !app_nil_r.
      split; [reflexivity |]. rewrite Hus, Htrial. split; [exact Hstats | reflexivity]. }
  destruct (concrete (UserPreferences.location prefs)).
  - intros Hrun. rewrite <- (ChatFacts.logged_nil (ChatSpec.logged w opening)) in Hrun.
    exact (Hrest [] _ _ _ eq_refl Hrun).
  - destruct (truthy (extract_location_from_query (ChatRequest.message request)));
      [| destruct (truthy (StoredPreferences.location stored))];
      intros Hrun;
      exact (Hrest [extract_location_from_query_call (ChatRequest.message request)]
                   _ _ _ eq_refl Hrun).
Qed.

(** *** A role that cannot be hashed *)



(** *** Events served from the cache *)

(** X21. When the cache holds events for the city, [_fetch_events] returns
    them with the age of the entry and makes no call of the crawler;
    [cache_used] is reported exactly when that age is positive, that is when
    the entry was stamped before the present instant. *)
Theorem _fetch_events_from_cache (now : datetime) (city : string) (w : World)
    (e : Cache.CacheEntry) (s : Cache.CacheStore) :
  Cache.load now (store w) city = Ok (Some e, s) ->
  Cache.events e <> [] ->
  let age := DT.sub now (Cache.cached_at e) in
  _fetch_events now city w =
  Ok (Cache.events e, 0 <? age,
      Some (if age <? 0 then Qmake 0 1 else Qmake age 3600000000),
      mk_world s (calls w)).
Proof.
  intros Hload Hev. cbv zeta. unfold _fetch_events, bind at 1.
  rewrite CacheManagerFacts.get_cached_events_eq, Hload. cbn [from_option].
  destruct (Cache.events e) as [| ev evs] eqn:Hevents; [congruence |].
  cbn [default from_option id].
  unfold bind at 1. rewrite CacheManagerFacts.get_cache_age_eq. cbn [store].
  destruct (CacheLaws.load_hit _ _ _ _ _ Hload) as (Hvalid & Hmemory & Hsettings & _).
  rewrite (CacheLaws.load_memory_hit now s city e Hmemory)
    by (rewrite (CacheLaws._is_valid_settings now (store w) s) by apply Hsettings;
        exact Hvalid).
  cbv zeta. unfold ret. cbn [Qnum calls].
  destruct (DT.sub now (Cache.cached_at e) <? 0) eqn:Hneg; cbn [Qnum]; [| reflexivity].
  apply Z.ltb_lt in Hneg.
  replace (0 <? DT.sub now (Cache.cached_at e)) with false
    by (symmetry; apply Z.ltb_ge; lia).
  reflexivity.
Qed.

End WithServices.
End ChatLaws.

Module EventsFacts.
Import Events.

Section WithProviders.
Context {P : Type} `{!EqDecision P} `{!EventProvider P}.

(** *** The providers of an aggregator *)

(** X22. [register] adds a provider behind the ones already registered,
    unless it is registered already: registering twice is registering once,
    and an aggregator without duplicates stays without them.  The default
    aggregator has the one provider it is built with. *)
Theorem register_keeps_one_copy (self : EventAggregator) (provider : P) :
  provider ∈ providers (register self provider)
  /\ register (register self provider) provider = register self provider
  /\ providers self `prefix_of` providers (register self provider)
  /\ (NoDup (providers self) -> NoDup (providers (register self provider)))
  /\ providers (create_default_aggregator provider) = [provider].
Proof.
  unfold register, providers. case_bool_decide as Hin.
  - rewrite bool_decide_eq_true_2 by exact Hin.
    repeat split; auto.
  - simpl. rewrite bool_decide_eq_true_2 by (rewrite elem_of_app, list_elem_of_singleton; auto).
    split; [rewrite elem_of_app, list_elem_of_singleton; auto |].
    split; [reflexivity |]. split; [by eexists |]. split; [| reflexivity].
    intros Hnd. apply NoDup_app. split; [exact Hnd |]. split; [| apply NoDup_singleton].
    intros x Hx ->%list_elem_of_singleton. contradiction.
Qed.

(** X23. The providers selected by name are the registered providers whose
    name is one of the given names, letter case apart, in the order of
    registration.  No names, or an empty list of names, selects every
    provider; names that no provider bears select none. *)
Theorem _select_providers_by_name (self : EventAggregator)
    (provider_names : option (list string)) :
  sublist (_select_providers self provider_names) (providers self)
  /\ (forall provider,
        provider ∈ _select_providers self provider_names <->
        provider ∈ providers self
        /\ (default [] provider_names = []
            \/ exists n, n ∈ default [] provider_names
                         /\ Str.lower n = Str.lower (name provider)))
  /\ (default [] provider_names = [] -> _select_providers self provider_names = providers self).
Proof.
  unfold _select_providers, providers.
  destruct provider_names as [[| n0 names] |]; cbv zeta; cbn [from_option id].
  - split; [reflexivity |]. split; [| reflexivity]. intros p. split; [auto | by intros [? _]].
  - split; [apply sublist_filter |]. split; [| discriminate].
    intros p. rewrite list_elem_of_filter. split.
    + intros [Hname Hp]. split; [exact Hp |]. right.
      apply list_elem_of_fmap in Hname as (n & Hn & Hin). exists n. split; [exact Hin | done].
    + intros [Hp [Hnil | (n & Hin & Hn)]]; [discriminate |].
      split; [| exact Hp]. apply list_elem_of_fmap. exists n. split; [done | exact Hin].
  - split; [reflexivity |]. split; [| reflexivity]. intros p. split; [auto | by intros [? _]].
Qed.

(** *** Fetching *)

Lemma fetch_by_city_loop (city : string) (max_pages : Z) (max_results : option Z)
    (selected : list P) (events : list json) :
  match Cache.for_each selected
          (fun provider events =>
             if negb (supports_city provider city) then Ok events
             else
               provider_events ← fetch_events provider city max_pages max_results;
               Ok (events ++ provider_events))
          events with
  | Ok all =>
      exists answers,
        Forall2 (fun provider answer =>
                   fetch_events provider city max_pages max_results = Ok answer)
                (filter (fun provider => supports_city provider city = true) selected)
                answers
        /\ all = events ++ concat answers
  | Raise e =>
      exists before provider after answers,
        filter (fun provider => supports_city provider city = true) selected
        = before ++ provider :: after
        /\ Forall2 (fun provider answer =>
                      fetch_events provider city max_pages max_results = Ok answer)
                   before answers
        /\ fetch_events provider city max_pages max_results = Raise e
  end.
Proof.
  revert events. induction selected as [| p selected IH]; intros events.
  - simpl. exists []. split; [constructor | by rewrite app_nil_r].
  - cbn [Cache.for_each]. destruct (supports_city p city) eqn:Hs; cbn [negb].
    + rewrite filter_cons_True by exact Hs.
      destruct (fetch_events p city max_pages max_results) as [answer | e] eqn:Hf;
        cbn [mbind res_bind].
      * specialize (IH (events ++ answer)).
        destruct (Cache.for_each selected _ (events ++ answer)) as [all | e].
        -- destruct IH as (answers & Hall & ->). exists (answer :: answers).
           split; [by constructor |]. simpl. by rewrite app_assoc.
        -- destruct IH as (before & q & after & answers & Hsplit & Hall & Hq).
           exists (p :: before), q, after, (answer :: answers).
           split; [by rewrite Hsplit |]. split; [by constructor | exact Hq].
      * eexists [], p, _, []. split; [reflexivity |]. split; [constructor | exact Hf].
    + rewrite filter_cons_False by (rewrite Hs; discriminate).
      cbn [mbind res_bind]. apply IH.
Qed.

(** X24. [fetch_by_city] asks, in the order of registration, the selected
    providers that support the city, and no others.  When all of them answer,
    it returns their events one provider after the other, so as many events
    as they returned together, whatever [max_results] is.  When one of them
    raises, the exception leaves [fetch_by_city]: the events of the providers
    asked before are lost and the providers after it are not asked. *)
Theorem fetch_by_city_concatenates (self : EventAggregator) (city : string)
    (provider_names : option (list string)) (max_pages : Z) (max_results : option Z) :
  let asked :=
    filter (fun provider => supports_city provider city = true)
           (_select_providers self provider_names) in
  match fetch_by_city self city provider_names max_pages max_results with
  | Ok events =>
      exists answers,
        Forall2 (fun provider answer =>
                   fetch_events provider city max_pages max_results = Ok answer)
                asked answers
        /\ events = concat answers
        /\ length events = sum_list (length <$> answers)
  | Raise e =>
      exists before provider after answers,
        asked = before ++ provider :: after
        /\ Forall2 (fun provider answer =>
                      fetch_events provider city max_pages max_results = Ok answer)
                   before answers
        /\ fetch_events provider city max_pages max_results = Raise e
  end.
Proof.
  cbv zeta. unfold fetch_by_city. cbv zeta.
  pose proof (fetch_by_city_loop city max_pages max_results
                (_select_providers self provider_names) []) as Hloop.
  destruct (Cache.for_each _ _ _) as [events | e]; [| exact Hloop].
  destruct Hloop as (answers & Hall & ->). exists answers.
  split; [exact Hall |]. split; [reflexivity |].
  simpl. clear. induction answers as [| a answers IH]; [reflexivity |].
  simpl. rewrite length_app, IH. reflexivity.
Qed.

(** *** The crawler *)


(** *** The crawler behind the cache manager *)

Lemma fetch_events_by_city_fails (crawler : EventCrawler) (city : string) :
  let asked :=
    filter (fun provider => supports_city provider city = true)
           (providers (_aggregator crawler)) in
  (Exists (fun provider => raises (fetch_events provider city 3 None) = true) asked ->
   raises (fetch_events_by_city crawler city 3 None None) = true)
  /\ (Forall (fun provider => fetch_events provider city 3 None = Ok []) asked ->
      fetch_events_by_city crawler city 3 None None = Ok []).
Proof.
  cbv zeta. unfold fetch_events_by_city, fetch_by_city. cbv zeta.
  pose proof (fetch_by_city_loop city 3 None (_select_providers (_aggregator crawler) None) [])
    as Hspec.
  change (_select_providers (_aggregator crawler) None)
    with (providers (_aggregator crawler)) in *.
  destruct (Cache.for_each _ _ _) as [events | e].
  - destruct Hspec as (answers & Hall & ->). split.
    + intros Hex. exfalso. apply Exists_exists in Hex as (p & Hin & Hraise).
      apply list_elem_of_lookup in Hin as [i Hi].
      destruct (Forall2_lookup_l _ _ _ _ _ Hall Hi) as (a & _ & Ha).
      rewrite Ha in Hraise. discriminate Hraise.
    + intros Hnone. f_equal.
      assert (Forall (fun a => a = []) answers) as Hempty.
      { clear -Hall Hnone. induction Hall as [| p a ps answers Hp _ IH]; [constructor |].
        apply Forall_cons in Hnone as [Hp' Hnone]. constructor; [congruence | by apply IH]. }
      clear -Hempty. induction Hempty as [| a answers -> _ IH]; [reflexivity | exact IH].
  - destruct Hspec as (before & p & after & answers & Hsplit & _ & Hraise). split.
    + reflexivity.
    + intros Hnone. exfalso. rewrite Hsplit in Hnone.
      apply Forall_app in Hnone as [_ Hnone]. apply Forall_cons in Hnone as [Hp _].
      congruence.
Qed.

(** X26. The cache manager over the aggregator.  When the cache has no events
    for a city and one of the registered providers that support the city
    raises, or when those providers (if any) all return no events,
    [get_cached_events] answers nothing and saves nothing, whatever the
    other providers returned. *)
Theorem failing_provider_leaves_city_uncached {B : Py.Builtins} (S : Chat.Services)
    (crawler : EventCrawler) (now : datetime) (city : string) (w : Chat.World)
    (entry : option Cache.CacheEntry) (s : Cache.CacheStore) :
  let asked :=
    filter (fun provider => supports_city provider city = true)
           (providers (_aggregator crawler)) in
  Cache.load now (Chat.store w) city = Ok (entry, s) ->
  from_option Cache.events [] entry = [] ->
  Exists (fun provider => raises (fetch_events provider city 3 None) = true) asked
  \/ Forall (fun provider => fetch_events provider city 3 None = Ok []) asked ->
  @Chat.get_cached_events B (with_crawler S crawler) now city w =
  Ok (None, Chat.mk_world s (Chat.calls w ++ [Chat.fetch_events_by_city_call city])).
Proof.
  cbv zeta. intros Hload Hmiss Hproviders.
  rewrite CacheManagerFacts.get_cached_events_eq, Hload, Hmiss. cbv zeta.
  change (@Chat.fetch_events_by_city (with_crawler S crawler) city)
    with (fetch_events_by_city crawler city 3 None None).
  destruct (fetch_events_by_city_fails crawler city) as [Hraise Hnone].
  destruct Hproviders as [Hex | Hall].
  - specialize (Hraise Hex).
    destruct (fetch_events_by_city crawler city 3 None None); [discriminate | reflexivity].
  - rewrite (Hnone Hall). reflexivity.
Qed.

End WithProviders.
End EventsFacts.

Module ChatRouterFacts.
Import Chat ChatRouter RouterSpec.
Local Open Scope stream_scope.



Lemma lower_nonempty (s : string) : Str.nonempty (Str.lower s) = Str.nonempty s.
Proof. destruct s; reflexivity. Qed.

Lemma concrete_truthy (o : option string) : concrete o = true -> truthy o = true.
Proof. destruct o as [s |]; [| discriminate]. simpl. by intros [? _]%andb_prop. Qed.

Lemma truthy_lower (o : option string) : truthy (Str.lower <$> o) = truthy o.
Proof. destruct o as [s |]; [apply lower_nonempty | reflexivity]. Qed.

Section WithServices.
Context {B : Py.Builtins} {S : Services} {T : StreamServices}.

(** *** The oldest stored location *)

Lemma first_stored_location_oldest (older newer : list json) (m prefs : pydict)
    (location_value : json) :
  Forall without_location older ->
  sliceable (Py.get_default m "content" (JStr "")) = true ->
  Py.get m "extracted_preferences" = JObj prefs ->
  Py.get prefs "location" = location_value ->
  Py.truthy location_value && is_not_none location_value = true ->
  first_stored_location (older ++ JObj m :: newer) = Ok (Some location_value).
Proof.
  intros Holder Hcontent Hprefs Hloc Hfound.
  induction Holder as [| msg older Hmsg _ IH].
  - simpl. rewrite Hcontent, Hprefs. simpl.
    destruct prefs as [| kv prefs].
    + subst location_value. discriminate Hfound.
    + rewrite Hloc, Hfound. reflexivity.
  - simpl. destruct msg as [| | | | | | m']; try exact IH.
    destruct Hmsg as [Hc Hp]. rewrite Hc. simpl.
    destruct (Py.get m' "extracted_preferences") as [| | | | | | [| kv prefs']]; try exact IH.
    rewrite Hp. exact IH.
Qed.

(** *** The turns that end in a question *)

Ltac run_stream :=
  cbv beta iota zeta delta [bind emit ret lift provided];
  change (truthy None) with false;
  cbn [run cache mbind option_bind fmap option_fmap option_map negb andb orb default id].

Ltac open_turn Hblocked Hanon Hcid :=
  unfold blocked in Hblocked;
  unfold stream_chat_response, opening, usage_of, conversation_of;
  destruct (Str.startswith (ChatRequest.user_id _) "user_") eqn:Hanon;
  [simpl in Hblocked; rewrite Hblocked |];
  destruct (truthy (ChatRequest.conversation_id _)) eqn:Hcid.

(** X27. An initial turn that is not blocked and names no city, neither for the
    extractor nor for the detector, is answered by the question for the city
    and [done]; one that names a city but no kind of event, by the question
    for the kind of event and [done].  The user's turn is saved before the
    question is yielded, with the preferences, whose location is the
    detector's city when the extractor had none; the question for the kind of
    event is then saved as an assistant turn with an empty list of
    recommendations, after [done].  The cache is not touched. *)
Theorem initial_turn_clarifications (now : datetime) (polls : nat)
    (request : ChatRequest.t) (s : Session) :
  ChatRequest.is_initial_response request = true ->
  blocked request = false ->
  let user_id := ChatRequest.user_id request in
  let text := ChatRequest.message request in
  let guess := extract_from_message text in
  let query_city := extract_location_from_query text in
  let detect := Call (extract_location_from_query_call text) in
  let saved prefs :=
    Call (save_message_call user_id (conversation_of request)
            (user_turn now request (Some prefs))) in
  let question :=
    Yield (message follow_up_message
             [("location_processed", JBool true);
              ("usage_stats", or_null (usage_of request));
              ("trial_exceeded", JBool false);
              ("conversation_id", JStr (conversation_of request))]) in
  let asked prefs :=
    Call (save_message_call user_id (conversation_of request)
            (Turn.mk "assistant" follow_up_message (DT.isoformat now)
                     (Some prefs) (Some []) None None)) in
  let stream steps :=
    stream_chat_response now polls request s
    = (Ok tt, mk_session (cache s)
                (run s ++ opening request ++ ExtractCall text :: steps)) in
  (concrete (UserPreferences.location guess) = false ->
   truthy query_city = false ->
   stream [detect; saved guess; Yield (message location_prompt []); Yield done])
  /\ (concrete (UserPreferences.location guess) = true ->
      concrete (UserPreferences.event_type guess) = false ->
      stream [saved guess; question; Yield done; asked guess])
  /\ (concrete (UserPreferences.location guess) = false ->
      truthy query_city = true ->
      concrete (UserPreferences.event_type guess) = false ->
      stream [detect; saved (set_location guess query_city); question; Yield done;
              asked (set_location guess query_city)]).
Proof.
  intros Hinit Hblocked. cbv zeta. repeat split.
  - intros Hloc Hq.
    open_turn Hblocked Hanon Hcid; rewrite Hinit; run_stream;
      rewrite Hloc; run_stream; rewrite Hq; run_stream;
      rewrite <- ?app_assoc; reflexivity.
  - intros Hloc Hety. pose proof (concrete_truthy _ Hloc) as Ht.
    rewrite <- truthy_lower in Ht.
    open_turn Hblocked Hanon Hcid; rewrite Hinit; run_stream;
      rewrite Hloc, Ht; run_stream; rewrite Hety; run_stream;
      rewrite <- ?app_assoc; reflexivity.
  - intros Hloc Hq Hety.
    open_turn Hblocked Hanon Hcid; rewrite Hinit; run_stream;
      rewrite Hloc; run_stream; rewrite Hq; run_stream;
      cbn [set_location UserPreferences.event_type]; rewrite Hety; run_stream;
      rewrite <- ?app_assoc; reflexivity.
Qed.

(** *** The follow-up turn *)

Lemma stored_location_of_oldest (conv : pydict) (older newer : list json) (m prefs : pydict)
    (location_value : json) :
  Py.get_default conv "messages" (JArr []) = JArr (older ++ JObj m :: newer) ->
  Forall without_location older ->
  sliceable (Py.get_default m "content" (JStr "")) = true ->
  Py.get m "extracted_preferences" = JObj prefs ->
  Py.get prefs "location" = location_value ->
  Py.truthy location_value && is_not_none location_value = true ->
  stored_location_of (Ok (JObj conv)) = Some location_value.
Proof.
  intros Hmsgs Holder Hcontent Hprefs Hloc Hfound. unfold stored_location_of.
  destruct conv as [| kv conv].
  { destruct older; discriminate Hmsgs. }
  rewrite Hmsgs.
  rewrite (first_stored_location_oldest older newer m prefs location_value); done.
Qed.

(** X28. On a follow-up turn the city is the location recorded by the oldest
    stored message that records one: the messages after it and the city the
    detector finds in the new message do not count.  The preferences get that
    location, and the handler either asks for the kind of event or searches
    that city, lower-cased. *)
Theorem follow_up_keeps_first_stored_location (now : datetime) (polls : nat)
    (request : ChatRequest.t) (s : Session) (conv : pydict) (older newer : list json)
    (m prefs : pydict) (loc : string) :
  ChatRequest.is_initial_response request = false ->
  blocked request = false ->
  get_conversation (ChatRequest.user_id request) (conversation_of request)
  = Ok (JObj conv) ->
  Py.get_default conv "messages" (JArr []) = JArr (older ++ JObj m :: newer) ->
  Forall without_location older ->
  sliceable (Py.get_default m "content" (JStr "")) = true ->
  Py.get m "extracted_preferences" = JObj prefs ->
  Py.get prefs "location" = JStr loc ->
  concrete (Some loc) = true ->
  let user_id := ChatRequest.user_id request in
  let text := ChatRequest.message request in
  let query_city := extract_location_from_query text in
  let found :=
    set_location
      (if truthy query_city
       then merge_current (preferences_of_location (default "" query_city))
                          (extract_from_message text)
       else extract_from_message text)
      (Some loc) in
  let before :=
    run s ++ opening request
    ++ [Call (extract_location_from_query_call text);
        Call (get_conversation_call user_id (conversation_of request));
        ExtractCall text] in
  let saved :=
    Call (save_message_call user_id (conversation_of request)
            (user_turn now request (Some found))) in
  stream_chat_response now polls request s
  = if concrete (UserPreferences.event_type found)
    then search_and_stream now polls request (conversation_of request)
           (usage_of request) (Str.lower loc) true (Some found)
           (mk_session (cache s) (before ++ [saved]))
    else (Ok tt, mk_session (cache s)
                   (before ++ [Yield (message ask_event_type []); Yield done; saved])).
Proof.
  intros Hinit Hblocked Hconv Hmsgs Holder Hcontent Hprefs Hloc Hfound. cbv zeta.
  assert (stored_location_of
            (get_conversation (ChatRequest.user_id request) (conversation_of request))
          = Some (JStr loc)) as Hstored.
  { rewrite Hconv.
    apply (stored_location_of_oldest conv older newer m prefs (JStr loc)); done. }
  assert (truthy (Some (Str.lower loc)) = true) as Hcity.
  { apply concrete_truthy in Hfound. simpl in *. by rewrite lower_nonempty. }
  revert Hstored.
  open_turn Hblocked Hanon Hcid; intros Hstored; rewrite Hinit; run_stream;
    destruct (truthy (extract_location_from_query (ChatRequest.message request)));
    run_stream; unfold follow_up; run_stream; rewrite Hstored;
    cbn [lower_of string_of]; run_stream;
    cbn [set_location UserPreferences.event_type];
    match goal with
    | |- context [concrete ?e] => destruct (concrete e)
    end; run_stream; rewrite ?Hcity, <- ?app_assoc; reflexivity.
Qed.

(** *** Every turn *)

Lemma first_stored_location_truthy (msgs : list json) (v : json) :
  first_stored_location msgs = Ok (Some v) -> Py.truthy v = true.
Proof.
  induction msgs as [| msg msgs IH]; [discriminate |].
  simpl. destruct msg as [| | | | | | m]; try exact IH.
  destruct (negb (sliceable (Py.get_default m "content" (JStr "")))); [discriminate |].
  destruct (Py.get m "extracted_preferences") as [| | | | | | [| kv prefs]]; try exact IH.
  destruct (Py.truthy (Py.get (kv :: prefs) "location")) eqn:Ht; [| exact IH].
  destruct (is_not_none (Py.get (kv :: prefs) "location")); [| exact IH].
  simpl. intros H. injection H as <-. exact Ht.
Qed.

Lemma stored_location_of_truthy (conversation : res json) (v : json) :
  stored_location_of conversation = Some v -> Py.truthy v = true.
Proof.
  unfold stored_location_of.
  destruct conversation as [[| | | | | | [| kv c]] | e]; try discriminate.
  destruct (Py.get_default (kv :: c) "messages" (JArr [])) as [| | | | | msgs |];
    try discriminate.
  destruct (first_stored_location msgs) as [stored_location | e] eqn:Hfirst;
    [| discriminate].
  intros ->. exact (first_stored_location_truthy _ _ Hfirst).
Qed.

Lemma truthy_default (o : option string) :
  truthy o = true -> Str.nonempty (default "" o) = true.
Proof. destruct o; [intros H; exact H | discriminate]. Qed.


Ltac short_run :=
  left; eexists _, _, _;
  split; [rewrite <- ?app_assoc; reflexivity |]; split; reflexivity.

Ltac failed_run :=
  right; left; eexists;
  split; [rewrite <- ?app_assoc; reflexivity |]; split; reflexivity.

Ltac search_run :=
  right; right; eexists _, _, _;
  split; [rewrite <- ?app_assoc; reflexivity |];
  split; [reflexivity |]; split; [reflexivity |].

(** The three ways a turn goes: one message and [done]; a raise before the
    first chunk; the search, with a city and a kind of event. *)
Lemma stream_chat_response_cases (now : datetime) (polls : nat)
    (request : ChatRequest.t) (s : Session) :
  (exists steps content more,
     stream_chat_response now polls request s
     = (Ok tt, mk_session (cache s) (run s ++ steps))
     /\ chunks steps = [message content more; done]
     /\ forallb no_search steps = true)
  \/ (exists steps,
        stream_chat_response now polls request s
        = (Raise AttributeError, mk_session (cache s) (run s ++ steps))
        /\ chunks steps = []
        /\ forallb no_search steps = true)
  \/ (exists steps city prefs,
        stream_chat_response now polls request s
        = search_and_stream now polls request (conversation_of request)
            (usage_of request) city true (Some prefs)
            (mk_session (cache s) (run s ++ steps))
        /\ chunks steps = []
        /\ forallb no_search steps = true
        /\ Str.nonempty city = true
        /\ concrete (UserPreferences.event_type prefs) = true).
Proof.
  unfold stream_chat_response, usage_of, conversation_of.
  destruct (Str.startswith (ChatRequest.user_id request) "user_") eqn:Hanon;
    [destruct (check_trial_limit (ChatRequest.user_id request)) eqn:Hlimit |];
    [run_stream; short_run | |].
  all: destruct (truthy (ChatRequest.conversation_id request)) eqn:Hcid;
    destruct (ChatRequest.is_initial_response request) eqn:Hinit; run_stream.
  all: destruct (truthy (extract_location_from_query (ChatRequest.message request)))
         eqn:Hq.
  all: lazymatch goal with
       | H : ChatRequest.is_initial_response _ = true |- _ =>
           destruct (concrete (UserPreferences.location
                                 (extract_from_message (ChatRequest.message request))))
             eqn:Hloc;
           [pose proof (concrete_truthy _ Hloc) as Ht; rewrite <- truthy_lower in Ht;
            run_stream; rewrite Ht |];
           run_stream; cbn [set_location UserPreferences.event_type];
           try (destruct (concrete (UserPreferences.event_type
                                      (extract_from_message (ChatRequest.message request))))
                  eqn:Hety);
           run_stream; rewrite ?Ht, ?truthy_lower, ?Hq;
           first [short_run
                 | search_run; split; [| exact Hety];
                   first [apply truthy_default; exact Ht
                         | apply truthy_default; rewrite truthy_lower; exact Hq]]
       | _ =>
           unfold follow_up; run_stream;
           destruct (stored_location_of _) as [[| | | | l | |] |] eqn:Hstored;
           cbn [lower_of string_of]; run_stream;
           try failed_run;
           cbn [set_location UserPreferences.event_type];
           try match goal with
               | |- context [if negb (concrete ?e) then _ else _] =>
                   destruct (concrete e) eqn:Hety
               end;
           run_stream; rewrite ?truthy_lower, ?Hq;
           try short_run;
           try (apply stored_location_of_truthy in Hstored; simpl in Hstored;
                cbn [truthy]; rewrite lower_nonempty, Hstored);
           search_run; (split; [| exact Hety]);
           first [rewrite lower_nonempty; exact Hstored
                 | apply truthy_default; rewrite truthy_lower; exact Hq]
       end.
Qed.

(** X29. The crawler and the ranker are asked only once a city and a kind of
    event are known.  A turn either ends without a search, the cache as it
    was, or it goes on to the search with a city that is not empty, with
    [location_provided] set and with preferences that name a kind of event:
    the fall-back to New York and the ranking without preferences are never
    reached. *)
Theorem search_needs_city_and_event_type (now : datetime) (polls : nat)
    (request : ChatRequest.t) (s : Session) :
  (exists steps,
     run (stream_chat_response now polls request s).2 = run s ++ steps
     /\ cache (stream_chat_response now polls request s).2 = cache s
     /\ forallb no_search steps = true)
  \/ (exists steps city prefs,
        stream_chat_response now polls request s
        = search_and_stream now polls request (conversation_of request)
            (usage_of request) city true (Some prefs)
            (mk_session (cache s) (run s ++ steps))
        /\ forallb no_search steps = true
        /\ Str.nonempty city = true
        /\ concrete (UserPreferences.event_type prefs) = true).
Proof.
  destruct (stream_chat_response_cases now polls request s)
    as [(steps & content & more & -> & _ & Hquiet)
       | [(steps & -> & _ & Hquiet)
         | (steps & city & prefs & Hrun & _ & Hquiet & Hcity & Hety)]].
  - left. exists steps. done.
  - left. exists steps. done.
  - right. exists steps, city, prefs. done.
Qed.

(** *** The [done] chunk *)













End WithServices.
End ChatRouterFacts.

(** ** The further properties on concrete stores and turns *)

Module MoreExamples.
Import Cache Chat.
#[local] Existing Instance Py.model_builtins.

(** [disk_only] after a load has copied [art_walk] to memory. *)
Definition promoted : CacheStore :=
  set_memory CacheExamples.disk_only {[ "san_francisco" := CacheExamples.art_walk ]}.

(** A store that holds [art_walk] on disk and in a Firestore that cannot be
    reached. *)
Definition stale_remote : CacheStore :=
  mk_store (Fake.hours 6)
    (mk_disk {[ "san_francisco" := Content (JObj (to_dict CacheExamples.art_walk)) ]} false)
    (mk_firestore {[ "san_francisco" := to_dict CacheExamples.art_walk ]} true) ∅.

Lemma load_reads_through_witness :
  load Fake.one_pm CacheExamples.disk_only "San Francisco"
  = Ok (Some CacheExamples.art_walk, promoted)
  /\ memory_store promoted !! "san_francisco" = Some CacheExamples.art_walk
  /\ load Fake.one_pm promoted "San Francisco" = Ok (Some CacheExamples.art_walk, promoted).
Proof.
  assert (load Fake.one_pm CacheExamples.disk_only "San Francisco"
          = Ok (Some CacheExamples.art_walk, promoted)) as Hload
    by (vm_compute; reflexivity).
  split; [exact Hload |].
  destruct (CacheLaws.load_reads_through _ _ _ _ _ Hload) as (Hmemory & Hagain & _).
  split; [exact Hmemory | exact Hagain].
Defined.

Lemma invalidate_clears_key_witness :
  invalidate CacheExamples.disk_only "San Francisco" = Ok (Fake.empty_store (Fake.hours 6))
  /\ files (cache_dir (Fake.empty_store (Fake.hours 6))) !! "san_francisco" = None
  /\ load Fake.one_pm (Fake.empty_store (Fake.hours 6)) "San Francisco"
     = Ok (None, Fake.empty_store (Fake.hours 6)).
Proof.
  assert (invalidate CacheExamples.disk_only "San Francisco"
          = Ok (Fake.empty_store (Fake.hours 6))) as Hrun
    by (vm_compute; reflexivity).
  split; [exact Hrun |].
  destruct (CacheLaws.invalidate_clears_key _ _ _ Hrun) as (_ & Hfile & _ & _ & _ & Hload).
  split; [exact Hfile | apply Hload].
Defined.

Lemma invalidate_leaves_unreachable_copy_witness :
  exists self' self'',
    invalidate stale_remote "San Francisco" = Ok self'
    /\ load Fake.one_pm self' "San Francisco" = Ok (None, self')
    /\ load Fake.one_pm (CacheTerms.reconnected self') "San Francisco"
       = Ok (Some CacheExamples.art_walk, self'').
Proof.
  apply (CacheLaws.invalidate_leaves_unreachable_copy PyFacts.model_builtins_laws
           Fake.one_pm stale_remote "San Francisco" CacheExamples.art_walk);
    reflexivity.
Defined.

(** *** The cache manager *)

Definition gallery_opening : json := JObj [("title", JStr "Gallery Opening")].

(** The fakes of the chat tests over a crawler that finds the gallery
    opening. *)
Definition gallery_services : Services :=
  Fake.services None false [] [gallery_opening].

(** A world whose cache holds [art_walk] in memory. *)
Definition cached_world : World := mk_world promoted [].

Lemma cached_events_served_without_crawler_witness :
  get_cached_events (S := gallery_services) Fake.one_pm "San Francisco" cached_world
  = Ok (Some [JObj [("title", JStr "Art Walk")]], cached_world).
Proof.
  apply (CacheManagerFacts.cached_events_served_without_crawler (S := gallery_services)
           Fake.one_pm "San Francisco" cached_world CacheExamples.art_walk promoted).
  - vm_compute. reflexivity.
  - discriminate.
Defined.

Lemma fetched_events_are_cached_witness :
  exists w',
    get_cached_events (S := gallery_services) Fake.noon "Boston" ChatExamples.w0
    = Ok (Some [gallery_opening], w')
    /\ calls w' = [fetch_events_by_city_call "Boston"]
    /\ get_cached_events (S := gallery_services) Fake.one_pm "Boston" w'
       = Ok (Some [gallery_opening], w').
Proof.
  destruct (CacheManagerFacts.fetched_events_are_cached (S := gallery_services)
              Fake.noon Fake.one_pm "Boston" ChatExamples.w0 None
              (Fake.empty_store (Fake.hours 6)) [gallery_opening])
    as (w' & Hfirst & Hcalls & _ & Hsecond).
  - vm_compute. reflexivity.
  - reflexivity.
  - reflexivity.
  - discriminate.
  - vm_compute. reflexivity.
  - exists w'. split; [exact Hfirst |]. split; [exact Hcalls | exact Hsecond].
Defined.


Lemma cache_events_then_get_witness :
  exists w',
    CacheManager.cache_events Fake.noon "Boston" [gallery_opening]
      ChatExamples.w0 = Ok (true, w')
    /\ get_cached_events (S := gallery_services) Fake.one_pm "Boston" w'
       = Ok (Some [gallery_opening], w').
Proof.
  destruct (CacheManagerFacts.cache_events_then_get (S := gallery_services)
              Fake.noon Fake.one_pm "Boston" [gallery_opening] ChatExamples.w0)
    as (w' & Hcache & _ & Hget).
  - vm_compute. reflexivity.
  - exists w'. split; [exact Hcache | exact Hget].
Defined.

(** *** The chat service *)

(** A stored conversation of three turns, the first of which recorded the
    four preferences. *)
Definition settled_turn : json :=
  JObj [("role", JStr "user"); ("content", JStr "jazz in Boston tonight at 8");
        ("extracted_preferences",
         JObj [("location", JStr "Boston"); ("date", JStr "tonight");
               ("time", JStr "8pm"); ("event_type", JStr "jazz")])].

Definition short_conversation : pydict :=
  [("messages", JArr [ChatExamples.turn "user" "hello";
                      ChatExamples.turn "assistant" "hi, which city?";
                      ChatExamples.turn "user" "not sure yet"])].

Lemma stored_history_is_recent_suffix_witness :
  messages (stored_of_conversation (Ok (JObj short_conversation))).2
  = [("user", "hello"); ("assistant", "hi, which city?"); ("user", "not sure yet")].
Proof.
  destruct (ChatLaws.stored_history_is_recent_suffix short_conversation
              [ChatExamples.turn "user" "hello";
               ChatExamples.turn "assistant" "hi, which city?";
               ChatExamples.turn "user" "not sure yet"])
    as (_ & _ & Hall).
  - discriminate.
  - reflexivity.
  - rewrite Hall; [reflexivity | | reflexivity].
    repeat constructor.
Defined.

(** The loop stops at the newest message that completes the preferences:
    the turns before it are not in the history. *)
Example stored_history_stops_when_complete :
  messages (stored_of_conversation
              (Ok (JObj [("messages",
                          JArr [ChatExamples.turn "user" "hello"; settled_turn;
                                ChatExamples.turn "assistant" "here is some jazz"])]))).2
  = [("user", "jazz in Boston tonight at 8"); ("assistant", "here is some jazz")].
Proof. reflexivity. Qed.

Lemma usage_accounting_witness :
  match handle_chat (S := Fake.services None false [] [])
          Fake.noon (ChatExamples.request "hello" [] true "user_7") ChatExamples.w0 with
  | Ok (outcome, w') =>
      ChatOutcome.message outcome = location_prompt
      /\ ChatOutcome.usage_stats outcome = Some (JObj [("count", JInt 1)])
      /\ filter (fun c => ChatTerms.is_usage c = true) (calls w')
         = [check_trial_limit_call "user_7"; increment_usage_call "user_7"]
  | Raise _ => False
  end.
Proof.
  destruct (handle_chat (S := Fake.services None false [] [])
              Fake.noon (ChatExamples.request "hello" [] true "user_7") ChatExamples.w0)
    as [[outcome w'] | e] eqn:Hrun.
  - destruct (ChatLaws.usage_accounting (S := Fake.services None false [] []) _ _ _ _ _ Hrun)
      as (new & Hcalls & Husage & Hstats & _).
    split.
    { pose proof Hrun as Hout. vm_compute in Hout. injection Hout as Hout _.
      rewrite <- Hout. reflexivity. }
    split; [exact Hstats |]. rewrite Hcalls. exact Husage.
  - vm_compute in Hrun. discriminate Hrun.
Defined.


Lemma _fetch_events_from_cache_witness :
  _fetch_events (S := gallery_services) Fake.one_pm "San Francisco" cached_world
  = Ok ([JObj [("title", JStr "Art Walk")]], true,
        Some (Qmake 3600000000 3600000000), cached_world).
Proof.
  apply (ChatLaws._fetch_events_from_cache (S := gallery_services)
           Fake.one_pm "San Francisco" cached_world CacheExamples.art_walk promoted).
  - vm_compute. reflexivity.
  - discriminate.
Defined.

(** *** The aggregator *)

(** Two providers: [true] answers the gallery opening for every city,
    [false] cannot be reached. *)
#[local] Instance sample_providers : Events.EventProvider bool := {|
  Events.name := fun b : bool => if b then "Eventbrite" else "meetup";
  Events.supports_city := fun (_ : bool) (_ : string) => true;
  Events.fetch_events := fun (b : bool) (_ : string) (_ : Z) (_ : option Z) =>
    if b then Ok [gallery_opening] else Raise OSError;
|}.

Definition flaky_crawler : Events.EventCrawler :=
  Events.new_crawler true (Some [true; false]).

Lemma failing_provider_leaves_city_uncached_witness :
  get_cached_events (S := Events.with_crawler gallery_services flaky_crawler)
    Fake.noon "Boston" ChatExamples.w0
  = Ok (None, mk_world (Fake.empty_store (Fake.hours 6)) [fetch_events_by_city_call "Boston"]).
Proof.
  apply (EventsFacts.failing_provider_leaves_city_uncached gallery_services flaky_crawler
           Fake.noon "Boston" ChatExamples.w0 None (Fake.empty_store (Fake.hours 6))).
  - vm_compute. reflexivity.
  - reflexivity.
  - left. right. left. reflexivity.
Defined.

(** The providers answer to their names in any letter case, and the events
    come in the order of registration. *)
Example fetch_by_city_by_name :
  Events.fetch_by_city (Events.mk_aggregator [true; false]) "Boston"
    (Some ["EVENTBRITE"]) 3 None = Ok [gallery_opening]
  /\ Events.fetch_by_city (Events.mk_aggregator [true; true]) "Boston" (Some []) 3 (Some 1)
     = Ok [gallery_opening; gallery_opening]
  /\ Events.fetch_by_city (Events.mk_aggregator [true; false]) "Boston"
       (Some ["ticketmaster"]) 3 None = Ok [].
Proof. repeat split; reflexivity. Qed.

End MoreExamples.

Module StreamExamples.
Import Cache Chat ChatRouter.
#[local] Existing Instance Py.model_builtins.

(** *** The streaming handler *)

(** [f"{q:.1f}"] for an age that is not negative: the tenths, rounded to the
    nearest, a tie to the even one. *)
Definition one_decimal (q : Q) : string :=
  let den := Z.pos (Qden q) in
  let tenths := (10 * Qnum q) / den in
  let twice_rest := 2 * ((10 * Qnum q) mod den) in
  let rounded :=
    if twice_rest <? den then tenths
    else if den <? twice_rest then tenths + 1
    else if Z.even tenths then tenths else tenths + 1 in
  Str.of_int (rounded / 10) +:+ "." +:+ Str.of_int (rounded mod 10).

(** An extractor that answers [guess] for every message, a ranker that keeps
    the events, and a [UserPreferences(location=...)] whose other fields are
    unset. *)
Definition stream_fakes (guess : UserPreferences.t) : StreamServices := {|
  extract_from_message := fun _ : string => guess;
  search_without_preferences := fun (_ : string) (events : list json) => events;
  preferences_of_location := fun location : string =>
    UserPreferences.mk (Some location) None None None;
  format_1f := one_decimal;
|}.

Definition fresh_session : Session := mk_session (Fake.empty_store (Fake.hours 6)) [].

Lemma initial_turn_clarifications_witness :
  RouterSpec.chunks
    (run (stream_chat_response (S := ChatExamples.chicago_services)
            (T := stream_fakes ChatExamples.no_guess) Fake.noon 1
            (ChatExamples.request "anything fun in Boston?" [] true "user_1")
            fresh_session).2)
  = [message follow_up_message
       [("location_processed", JBool true);
        ("usage_stats", JObj [("count", JInt 1)]);
        ("trial_exceeded", JBool false);
        ("conversation_id", JStr "conversation-1")];
     done].
Proof.
  destruct (ChatRouterFacts.initial_turn_clarifications
              (S := ChatExamples.chicago_services)
              (T := stream_fakes ChatExamples.no_guess) Fake.noon 1
              (ChatExamples.request "anything fun in Boston?" [] true "user_1")
              fresh_session eq_refl eq_refl) as (_ & _ & Hrun).
  rewrite Hrun by reflexivity. reflexivity.
Defined.

(** A later stored turn that recorded Denver. *)
Definition denver_turn : json :=
  JObj [("role", JStr "user"); ("content", JStr "and Denver?");
        ("extracted_preferences", JObj [("location", JStr "Denver")])].

Definition travelling_services : Services :=
  Fake.phrase_services ["Chicago"; "Boston"] ChatExamples.concert_guess
    [ChatExamples.turn "user" "hello"; ChatExamples.boston_turn; denver_turn].

Lemma follow_up_keeps_first_stored_location_witness :
  stream_chat_response (S := travelling_services)
    (T := stream_fakes ChatExamples.concert_guess) Fake.noon 1
    (ChatExamples.request "any concerts in Chicago?" [] false "alice") fresh_session
  = search_and_stream (S := travelling_services)
      (T := stream_fakes ChatExamples.concert_guess) Fake.noon 1
      (ChatExamples.request "any concerts in Chicago?" [] false "alice")
      "conversation-1" None "boston" true
      (Some (UserPreferences.mk (Some "Boston") None None (Some "concert")))
      (mk_session (Fake.empty_store (Fake.hours 6))
         [Call (create_conversation_call "alice" [("llm_provider", JStr "openai")]);
          Call (extract_location_from_query_call "any concerts in Chicago?");
          Call (get_conversation_call "alice" "conversation-1");
          ExtractCall "any concerts in Chicago?";
          Call (save_message_call "alice" "conversation-1"
                  (Turn.mk "user" "any concerts in Chicago?" (DT.isoformat Fake.noon)
                     (Some (UserPreferences.mk (Some "Boston") None None (Some "concert")))
                     None None None))]).
Proof.
  assert (Forall RouterSpec.without_location [ChatExamples.turn "user" "hello"]) as Holder
    by (repeat constructor).
  rewrite (ChatRouterFacts.follow_up_keeps_first_stored_location
             (S := travelling_services) (T := stream_fakes ChatExamples.concert_guess)
             Fake.noon 1 (ChatExamples.request "any concerts in Chicago?" [] false "alice")
             fresh_session
             [("messages", JArr [ChatExamples.turn "user" "hello"; ChatExamples.boston_turn;
                                 denver_turn])]
             [ChatExamples.turn "user" "hello"] [denver_turn]
             [("role", JStr "user"); ("content", JStr "I just moved here");
              ("extracted_preferences",
               JObj [("location", JStr "Boston"); ("date", JStr "none");
                     ("time", JStr "none"); ("event_type", JStr "none")])]
             [("location", JStr "Boston"); ("date", JStr "none");
              ("time", JStr "none"); ("event_type", JStr "none")]
             "Boston" eq_refl eq_refl eq_refl eq_refl Holder eq_refl eq_refl eq_refl eq_refl).
  reflexivity.
Defined.

(** A whole turn over a cache that holds the art walk, an hour old: the
    chunks, in order. *)
Example stream_of_a_search :
  RouterSpec.chunks
    (run (stream_chat_response
            (S := Fake.services (Some "San Francisco") false [] [])
            (T := stream_fakes (UserPreferences.mk (Some "San Francisco") None None (Some "art")))
            Fake.one_pm 1
            (ChatExamples.request "Show me art events in San Francisco" [] true "alice")
            (mk_session MoreExamples.promoted [])).2)
  = [status "Searching for events in San Francisco...";
     status "Found cached events for San Francisco (from 1.0h ago)";
     status "Analyzing events with AI to find the best matches...";
     message "🎉 Found 1 events in San Francisco that match your search! Check out the recommendations below ↓"
       [("extraction_summary", JStr "📍 San Francisco • 🎭 art");
        ("usage_stats", JNull); ("trial_exceeded", JBool false);
        ("conversation_id", JStr "conversation-1"); ("location_processed", JBool true)];
     status "Preparing 1 recommendations...";
     [("type", JStr "recommendation");
      ("data", JObj [("type", JStr "event");
                     ("data", JObj [("title", JStr "Art Walk");
                                    ("source", JStr "cached")]);
                     ("relevance_score", JFloat (Qmake 1 2));
                     ("explanation", JStr "Event in San Francisco: Art Walk")])];
     done].
Proof. vm_compute. reflexivity. Qed.

End StreamExamples.
